(** * DataCo supply-chain analysis: the cleaning pipeline and the
      feature-engineering helpers, embedded and verified.

    The development follows [src/data_cleaning.py] and
    [src/feature_engineering.py].  A pandas frame is modelled
    column-wise, as pandas stores it: an index length and an ordered list
    of labelled columns (labels may repeat, as they may in pandas).
    Column labels are Latin-1 strings ([load_raw_data] reads the file
    with [encoding='latin-1']), which is exactly what [ascii] holds.
    Floating-point cells are the kernel's binary64 numbers, integer cells
    64-bit integers with their wrap-around. *)

From Stdlib Require Import Ascii String.
From Stdlib Require Import Bool Arith ZArith Floats Lia List Sorted.
Import ListNotations.

#[local] Set Warnings "-inexact-float".

Local Open Scope string_scope.
Local Open Scope list_scope.

(* ================================================================== *)
(** ** Python string methods on Latin-1 text *)
(* ================================================================== *)

Module PyStr.

(** [str.isspace] on the code points U+0000..U+00FF: TAB..CR, FS..US,
    SPACE, NEL and NBSP. *)
Definition is_space (c : ascii) : bool :=
  let n := nat_of_ascii c in
  (((9 <=? n) && (n <=? 13)) || ((28 <=? n) && (n <=? 32))
   || (n =? 133) || (n =? 160))%nat.

(** Upper-case letters of Latin-1: A..Z, and U+00C0..U+00DE without the
    multiplication sign U+00D7. *)
Definition is_upper (c : ascii) : bool :=
  let n := nat_of_ascii c in
  (((65 <=? n) && (n <=? 90))
   || ((192 <=? n) && (n <=? 222) && negb (n =? 215)))%nat.

Definition lower_char (c : ascii) : ascii :=
  if is_upper c then ascii_of_nat (nat_of_ascii c + 32) else c.

(** [s.lower()] *)
Fixpoint lower (s : string) : string :=
  match s with
  | EmptyString => EmptyString
  | String c s' => String (lower_char c) (lower s')
  end.

(** [s.lstrip()], [s.rstrip()], [s.strip()] *)
Fixpoint lstrip (s : string) : string :=
  match s with
  | EmptyString => EmptyString
  | String c s' => if is_space c then lstrip s' else s
  end.

Fixpoint rstrip (s : string) : string :=
  match s with
  | EmptyString => EmptyString
  | String c s' =>
      match rstrip s' with
      | EmptyString => if is_space c then EmptyString else String c EmptyString
      | r => String c r
      end
  end.

Definition strip (s : string) : string := rstrip (lstrip s).

(** [s.replace(old, new)] for a one-character [old] (the only use the
    pipeline makes of it, with [regex=False]). *)
Fixpoint replace (old : ascii) (new : string) (s : string) : string :=
  match s with
  | EmptyString => EmptyString
  | String c s' =>
      if Ascii.eqb c old then new ++ replace old new s'
      else String c (replace old new s')
  end.

(** Every character of [s] satisfies [p]. *)
Fixpoint all_chars (p : ascii -> bool) (s : string) : bool :=
  match s with
  | EmptyString => true
  | String c s' => p c && all_chars p s'
  end.

Definition first_char (s : string) : option ascii :=
  match s with EmptyString => None | String c _ => Some c end.

Fixpoint last_char (s : string) : option ascii :=
  match s with
  | EmptyString => None
  | String c EmptyString => Some c
  | String _ s' => last_char s'
  end.

End PyStr.

(* ================================================================== *)
(** ** Column-name standardization *)
(* ================================================================== *)

(** The chain of [.str] calls that [standardize_columns] applies to
    every label. *)
Definition standardize_name (s : string) : string :=
  PyStr.replace "." "_"
    (PyStr.replace ")" ""
      (PyStr.replace "(" ""
        (PyStr.replace " " "_"
          (PyStr.lower (PyStr.strip s))))).

(** The rule in the specification's words: trim, lowercase, spaces to
    underscores, parentheses and periods deleted.  It is compared with
    [standardize_name] below. *)
Definition spec_standardize_name (s : string) : string :=
  PyStr.replace "." ""
    (PyStr.replace ")" ""
      (PyStr.replace "(" ""
        (PyStr.replace " " "_"
          (PyStr.lower (PyStr.strip s))))).

(** What one character of the trimmed label becomes. *)
Definition std_char (c : ascii) : string :=
  if Ascii.eqb c " " then "_"
  else if Ascii.eqb c "(" then ""
  else if Ascii.eqb c ")" then ""
  else if Ascii.eqb c "." then "_"
  else String (PyStr.lower_char c) "".

Fixpoint concat_map (f : ascii -> string) (s : string) : string :=
  match s with
  | EmptyString => EmptyString
  | String c s' => f c ++ concat_map f s'
  end.

(** The rule as one pass over the trimmed label: a space or a period
    becomes an underscore, a parenthesis disappears, any other character
    is lowercased. *)
Definition one_pass_name (s : string) : string :=
  concat_map std_char (PyStr.strip s).

(** The characters no standardized label may hold. *)
Definition forbidden (c : ascii) : bool :=
  Ascii.eqb c " " || Ascii.eqb c "(" || Ascii.eqb c ")" || Ascii.eqb c "."
  || PyStr.is_upper c.

(** Whitespace other than the plain space (TAB, LF, NBSP, ...). *)
Definition odd_space (c : ascii) : bool :=
  PyStr.is_space c && negb (Ascii.eqb c " ").

(** The characters that a second standardization leaves as they are. *)
Definition settled (c : ascii) : bool :=
  negb (forbidden c) && negb (PyStr.is_space c).

(** A label with a tab between parentheses: [sales (<TAB>)]. *)
Definition tabbed_label : string := ("sales (" ++ String "009" ")")%string.

(* ================================================================== *)
(** ** Results, cells and frames *)
(* ================================================================== *)

(** The exceptions the modelled code can end with. *)
Inductive error : Type :=
| KeyError (label : string)
| TypeError
| ValueError
| AttributeError
| ZeroDivisionError.

Inductive result (A : Type) : Type :=
| Ok (a : A)
| Err (e : error).

Arguments Ok {A} a.
Arguments Err {A} e.

Definition bind {A B : Type} (r : result A) (k : A -> result B) : result B :=
  match r with
  | Ok a => k a
  | Err e => Err e
  end.

Notation "x <- r ;; k" := (bind r (fun x => k))
  (at level 61, r at next level, right associativity).

(** A loop whose body may raise: [for x in xs: s = f(s, x)]. *)
Fixpoint for_each {A S : Type} (f : S -> A -> result S) (xs : list A) (s : S)
  : result S :=
  match xs with
  | [] => Ok s
  | x :: xs' => s' <- f s x ;; for_each f xs' s'
  end.

(** One cell of a frame.  [Num] holds a float64 ([nan] is the missing
    number), [Int] an int64, [Str] a text, [Time] a timestamp in
    nanoseconds since the epoch, [NaT] the missing timestamp and [Period] a
    monthly period by its ordinal.  The cells of a column tell its dtype:
    a column of [Int] cells is an integer column (int64; the calendar year
    is an int32), a column of [Num] cells a float64 column. *)
Inductive cell : Type :=
| Num (x : float)
| Int (n : Z)
| Str (s : string)
| Time (t : Z)
| NaT
| Period (p : Z).

(** A column of values, a pandas [Series]. *)
Abbreviation Series := (list cell).

Definition nan : float := PrimFloat.nan.

(** Equality of floats as pandas' hash tables take it when they look for
    duplicates: IEEE equality, and every nan equal to every nan. *)
Definition float_dup (x y : float) : bool :=
  PrimFloat.eqb x y || (PrimFloat.is_nan x && PrimFloat.is_nan y).

(** The value that stands for a float in that comparison: the two
    zeros are one value, every other float is itself. *)
Definition canon (f : spec_float) : spec_float :=
  match f with
  | S754_zero _ => S754_zero false
  | _ => f
  end.

(** Two cells of one column hold duplicate values.  The cells of a
    column are of one kind; cells of different kinds are no duplicates. *)
Definition cell_dup (a b : cell) : bool :=
  match a, b with
  | Num x, Num y => float_dup x y
  | Int m, Int n => Z.eqb m n
  | Str s, Str t => String.eqb s t
  | Time s, Time t => Z.eqb s t
  | NaT, NaT => true
  | Period p, Period q => Z.eqb p q
  | _, _ => false
  end.

(** [pd.isnull] on one cell. *)
Definition isnull (c : cell) : bool :=
  match c with
  | Num x => PrimFloat.is_nan x
  | NaT => true
  | _ => false
  end.

(** A frame: the length of its index and its labelled columns, in
    order.  The index labels themselves play no part in the code below
    (every operation combines columns of one frame, position by
    position). *)
Record DataFrame : Type := mkDataFrame {
  nrows : nat;
  cols : list (string * Series)
}.

(** Every column is as long as the index. *)
Definition wf (df : DataFrame) : Prop :=
  Forall (fun c => length (snd c) = nrows df) (cols df).

(** [len(df)] *)
Definition len (df : DataFrame) : nat := nrows df.

(** [df.columns] *)
Definition columns (df : DataFrame) : list string := map fst (cols df).

(** [col in df.columns] *)
Definition has_column (col : string) (df : DataFrame) : bool :=
  existsb (String.eqb col) (columns df).

(** [df.copy()]: later writes go to the copy; with frames as values it
    is the identity. *)
Definition copy (df : DataFrame) : DataFrame := df.

(** The columns that carry a label. *)
Definition labelled (df : DataFrame) (col : string) : list (string * Series) :=
  filter (fun c => String.eqb col (fst c)) (cols df).

(** [df[col]] for a label.  A missing label raises [KeyError].  A label
    that occurs more than once selects a sub-frame, not a series; none of
    the callers below goes on with a sub-frame ([to_datetime] refuses
    duplicate keys, [.dt] is no attribute of a frame, a column assignment
    refuses a value of several columns), and the model stops there with
    [ValueError]. *)
Definition getitem (df : DataFrame) (col : string) : result Series :=
  match labelled df col with
  | [] => Err (KeyError col)
  | [c] => Ok (snd c)
  | _ => Err ValueError
  end.

(** [df[col] = values]: every column labelled [col] is replaced; a new
    label is appended as the last column. *)
Definition setitem (df : DataFrame) (col : string) (values : Series)
  : DataFrame :=
  if has_column col df then
    mkDataFrame (nrows df)
      (map (fun c => if String.eqb col (fst c) then (fst c, values) else c)
           (cols df))
  else mkDataFrame (nrows df) (cols df ++ [(col, values)]).

(** [df.drop(columns=labels)]: a listed label that is not a column
    raises [KeyError]; otherwise every column with a listed label goes. *)
Definition drop (df : DataFrame) (labels : list string) : result DataFrame :=
  match find (fun l => negb (has_column l df)) labels with
  | Some l => Err (KeyError l)
  | None =>
      Ok (mkDataFrame (nrows df)
            (filter (fun c => negb (existsb (String.eqb (fst c)) labels))
                    (cols df)))
  end.

(** [df.empty]: an axis of length 0. *)
Definition empty (df : DataFrame) : bool :=
  (nrows df =? 0)%nat || (length (cols df) =? 0)%nat.

(** The cell of a column at a row position. *)
Definition cell_at (s : Series) (i : nat) : cell := nth i s (Num nan).

(** Rows [i] and [j] hold duplicate values in every column. *)
Definition same_row (df : DataFrame) (i j : nat) : bool :=
  forallb (fun c => cell_dup (cell_at (snd c) i) (cell_at (snd c) j)) (cols df).

(** [df.duplicated()] with [keep='first']: a row is flagged when an
    earlier row holds the same values.  On an empty frame pandas returns
    an empty mask. *)
Definition duplicated (df : DataFrame) : list bool :=
  if empty df then []
  else map (fun i => existsb (fun j => same_row df j i) (seq 0 i))
           (seq 0 (nrows df)).

(** Boolean indexing [xs[mask]]. *)
Fixpoint select {A : Type} (mask : list bool) (xs : list A) : list A :=
  match mask, xs with
  | b :: mask', x :: xs' =>
      if b then x :: select mask' xs' else select mask' xs'
  | _, _ => []
  end.

(** [df[mask]] for a boolean mask over the rows. *)
Definition select_rows (mask : list bool) (df : DataFrame) : DataFrame :=
  mkDataFrame (length (filter (fun b => b) mask))
    (map (fun c => (fst c, select mask (snd c))) (cols df)).

(** The positions of the rows that a mask keeps. *)
Definition kept_rows (mask : list bool) : list nat :=
  select mask (seq 0 (length mask)).

(** [df.drop_duplicates()]: pandas hands back a copy at once when the
    frame is empty ([if self.empty: return self.copy()]), and otherwise
    [self[-self.duplicated()]]. *)
Definition drop_duplicates (df : DataFrame) : DataFrame :=
  if empty df then copy df
  else select_rows (map negb (duplicated df)) df.

(** ** Numeric helpers *)

Definition float_of_nat (n : nat) : float :=
  PrimFloat.of_uint63 (Uint63.of_Z (Z.of_nat n)).

(** Python's [a / b] on two [int]s: division by zero raises. *)
Definition py_truediv (a b : nat) : result float :=
  if (b =? 0)%nat then Err ZeroDivisionError
  else Ok (float_of_nat a / float_of_nat b)%float.

Definition two52 : float := 4503599627370496%float.

(** C's [rint] in the default rounding mode: the nearest integer, ties
    to even, the sign kept. *)
Definition rint (x : float) : float :=
  if (PrimFloat.abs x <? two52)%float then
    let r := ((PrimFloat.abs x + two52) - two52)%float in
    if (x <? 0)%float then (- r)%float
    else if (x =? 0)%float then x else r
  else x.

(** [numpy.round(x, 2)] on a float64: [rint(x * 100) / 100]. *)
Definition round2 (x : float) : float := (rint (x * 100) / 100)%float.

(** int64 arithmetic wraps around. *)
Definition wrap64 (z : Z) : Z := ((z + 2 ^ 63) mod 2 ^ 64 - 2 ^ 63)%Z.

(** The float64 nearest to an integer, ties to even: the conversion of
    an int64 that numpy makes before a float operation. *)
Definition float_of_int (n : Z) : float :=
  SF2Prim (binary_normalize prec emax n 0 false).

(** The value that float arithmetic takes a cell for. *)
Definition number_of (c : cell) : option float :=
  match c with
  | Num x => Some x
  | Int n => Some (float_of_int n)
  | _ => None
  end.

(** The values of a numeric column as floats; arithmetic on a column
    that holds anything but numbers raises [TypeError]. *)
Fixpoint as_floats (s : Series) : result (list float) :=
  match s with
  | [] => Ok []
  | Num x :: s' => xs <- as_floats s' ;; Ok (x :: xs)
  | Int n :: s' => xs <- as_floats s' ;; Ok (float_of_int n :: xs)
  | _ :: _ => Err TypeError
  end.

Fixpoint map2 {A B C : Type} (f : A -> B -> C) (xs : list A) (ys : list B)
  : list C :=
  match xs, ys with
  | x :: xs', y :: ys' => f x y :: map2 f xs' ys'
  | _, _ => []
  end.

(** [a - b] on two cells: two int64 cells subtract as 64-bit integers,
    any other two numbers as float64 (an int64 cell is converted). *)
Definition cell_sub (a b : cell) : result cell :=
  match a, b with
  | Int m, Int n => Ok (Int (wrap64 (m - n)))
  | _, _ =>
      match number_of a, number_of b with
      | Some x, Some y => Ok (Num (x - y)%float)
      | _, _ => Err TypeError
      end
  end.

(** [a - b] on two columns of one frame, row by row. *)
Fixpoint series_sub (a b : Series) : result Series :=
  match a, b with
  | x :: a', y :: b' =>
      d <- cell_sub x y ;; ds <- series_sub a' b' ;; Ok (d :: ds)
  | _, _ => Ok []
  end.

(** [a / b] on two columns of one frame: true division, in float64 for
    int64 columns too. *)
Definition series_truediv (a b : Series) : result (list float) :=
  xs <- as_floats a ;; ys <- as_floats b ;; Ok (map2 PrimFloat.div xs ys).

(** [s != 0], cell by cell: a number differs from 0 unless it is
    (IEEE-)equal to it, anything else differs. *)
Definition ne_zero (c : cell) : bool :=
  match c with
  | Num x => negb (x =? 0)%float
  | Int n => negb (n =? 0)%Z
  | _ => true
  end.

(** [np.where(cond, xs, y)] *)
Definition np_where (cond : list bool) (xs : list float) (y : float)
  : list float :=
  map2 (fun (b : bool) x => if b then x else y) cond xs.

(** The values behind the [.dt] accessor, which only a datetime column
    has ([AttributeError] otherwise).  A column without cells has no cell
    to tell its dtype; it is taken for a datetime column, as it is after
    [pd.to_datetime] (on an empty column of another dtype pandas raises,
    so the statements below that promise a result ask for a row). *)
Fixpoint as_datetimes (s : Series) : result (list (option Z)) :=
  match s with
  | [] => Ok []
  | Time t :: s' => ts <- as_datetimes s' ;; Ok (Some t :: ts)
  | NaT :: s' => ts <- as_datetimes s' ;; Ok (None :: ts)
  | _ :: _ => Err AttributeError
  end.

(** [flags.astype(int)] *)
Definition astype_int (flags : list bool) : Series :=
  map (fun b : bool => Int (if b then 1 else 0)%Z) flags.

(** An ordering comparison of a column with a number: [TypeError] on a
    cell that is no number.  An int64 cell is compared as the float of its
    value: that is what numpy does for a float threshold (a median, a
    quantile), and for the whole thresholds 0, 1 and 3 of the code the
    test of the integers comes to the same, the conversion being monotone
    and exact on small integers. *)
Fixpoint compare_with (test : float -> bool) (s : Series) : result (list bool) :=
  match s with
  | [] => Ok []
  | Num x :: s' => bs <- compare_with test s' ;; Ok (test x :: bs)
  | Int n :: s' => bs <- compare_with test s' ;; Ok (test (float_of_int n) :: bs)
  | _ :: _ => Err TypeError
  end.

(** [s.isin(values)] for a list of texts. *)
Definition isin (values : list string) (s : Series) : list bool :=
  map (fun c => match c with
                | Str t => existsb (String.eqb t) values
                | _ => false
                end) s.

(* ================================================================== *)
(** ** The cleaning pipeline ([data_cleaning.py]) *)
(* ================================================================== *)

(** What the code leaves to pandas and is not spelled out here: date
    parsing, calendar fields of a timestamp, and order statistics.  The
    theorems hold for every such library. *)
Record PandasLib : Type := mkPandasLib {
  (** [pd.to_datetime(s, errors='coerce')] on one column *)
  to_datetime : Series -> result Series;
  to_datetime_length :
    forall s s', to_datetime s = Ok s' -> length s' = length s;
  (** [.dt.to_period('M')], [.dt.year], [.dt.day_name()] of a timestamp *)
  to_period_M : Z -> Z;
  dt_year : Z -> Z;
  dt_day_name : Z -> string;
  (** [pd.qcut(s, q=4, labels=['Low', 'Medium', 'High', 'Premium'])] *)
  qcut4 : Series -> result Series;
  (** [s.median()] and [s.quantile(q)] *)
  median : Series -> result float;
  quantile : float -> Series -> result float
}.

(** [standardize_columns]: the labels are rewritten, the data stay. *)
Definition standardize_columns (df : DataFrame) : DataFrame :=
  let df := copy df in
  mkDataFrame (nrows df)
    (map (fun c => (standardize_name (fst c), snd c)) (cols df)).

Definition cols_to_drop : list string :=
  [ "customer_email"; "customer_password"; "product_image";
    "customer_fname"; "customer_lname" ].

(** [drop_redundant_columns] *)
Definition drop_redundant_columns (df : DataFrame) : result DataFrame :=
  let existing_drops := filter (fun col => has_column col df) cols_to_drop in
  drop df existing_drops.

Definition date_cols : list string :=
  [ "order_date_dateorders"; "shipping_date_dateorders" ].

(** The missing-value report of [handle_missing_values]: per column the
    number of nulls and their share in percent, for the columns that have
    any (the order of the printed lines is left out). *)
Definition missing_report (df : DataFrame) : list (string * nat * float) :=
  let missing := map (fun c => (fst c, length (filter isnull (snd c)))) (cols df) in
  let with_pct :=
    map (fun m => (fst m, snd m,
                   round2 (float_of_nat (snd m) / float_of_nat (len df) * 100)%float))
        missing in
  filter (fun r => (0 <? snd (fst r))%nat) with_pct.

(** [handle_missing_values]: the report is printed, the frame handed
    back as it came. *)
Definition handle_missing_values (df : DataFrame) : DataFrame :=
  let report := missing_report df in
  df.

(** [remove_duplicates].  The report line formats
    [removed/initial_rows*100], a division of two Python [int]s. *)
Definition remove_duplicates (df : DataFrame) : result DataFrame :=
  let initial_rows := len df in
  let df := drop_duplicates df in
  let removed := initial_rows - len df in
  share <- py_truediv removed initial_rows ;;
  Ok df.

Section Pipeline.

Variable L : PandasLib.

(** One turn of the loop of [convert_date_columns]. *)
Definition convert_date_column (df : DataFrame) (col : string)
  : result DataFrame :=
  if has_column col df then
    s <- getitem df col ;;
    s' <- to_datetime L s ;;
    Ok (setitem df col s')
  else Ok df.

(** [convert_date_columns] *)
Definition convert_date_columns (df : DataFrame) : result DataFrame :=
  for_each convert_date_column date_cols (copy df).

(** The three blocks of [add_derived_features]. *)
Definition add_shipping_delay (df : DataFrame) : result DataFrame :=
  if has_column "days_for_shipping_real" df
     && has_column "days_for_shipment_scheduled" df
  then
    real <- getitem df "days_for_shipping_real" ;;
    scheduled <- getitem df "days_for_shipment_scheduled" ;;
    delay <- series_sub real scheduled ;;
    Ok (setitem df "shipping_delay_days" delay)
  else Ok df.

Definition is_some {A : Type} (o : option A) : bool :=
  match o with Some _ => true | None => false end.

Definition month_cell (t : option Z) : cell :=
  match t with Some t => Period (to_period_M L t) | None => NaT end.

(** [.dt.year]: an integer column; when a timestamp of the column is
    missing, a float64 column with nan for the missing ones. *)
Definition year_cell (whole : bool) (t : option Z) : cell :=
  match t with
  | Some t => if whole then Int (dt_year L t)
              else Num (float_of_int (dt_year L t))
  | None => Num nan
  end.

Definition day_name_cell (t : option Z) : cell :=
  match t with Some t => Str (dt_day_name L t) | None => Num nan end.

Definition add_order_calendar (df : DataFrame) : result DataFrame :=
  if has_column "order_date_dateorders" df then
    s <- getitem df "order_date_dateorders" ;;
    ts <- as_datetimes s ;;
    let df := setitem df "order_month" (map month_cell ts) in
    s <- getitem df "order_date_dateorders" ;;
    ts <- as_datetimes s ;;
    let df := setitem df "order_year"
                (map (year_cell (forallb is_some ts)) ts) in
    s <- getitem df "order_date_dateorders" ;;
    ts <- as_datetimes s ;;
    Ok (setitem df "order_day_of_week" (map day_name_cell ts))
  else Ok df.

Definition add_profit_margin (df : DataFrame) : result DataFrame :=
  if has_column "order_profit_per_order" df && has_column "sales" df then
    sales <- getitem df "sales" ;;
    let cond := map ne_zero sales in
    profit <- getitem df "order_profit_per_order" ;;
    sales <- getitem df "sales" ;;
    ratio <- series_truediv profit sales ;;
    let pct := map round2 (map (fun x => x * 100)%float ratio) in
    Ok (setitem df "profit_margin_pct" (map Num (np_where cond pct 0%float)))
  else Ok df.

(** [add_derived_features] *)
Definition add_derived_features (df : DataFrame) : result DataFrame :=
  let df := copy df in
  df <- add_shipping_delay df ;;
  df <- add_order_calendar df ;;
  df <- add_profit_margin df ;;
  Ok df.

(** [run_full_cleaning_pipeline], from the frame that [load_raw_data]
    has read. *)
Definition run_full_cleaning_pipeline (raw : DataFrame) : result DataFrame :=
  let df := raw in
  let df := standardize_columns df in
  df <- drop_redundant_columns df ;;
  df <- convert_date_columns df ;;
  let df := handle_missing_values df in
  df <- remove_duplicates df ;;
  df <- add_derived_features df ;;
  Ok df.

(** The frame as the pipeline hands it to [remove_duplicates]: labels
    standardized, PII columns dropped, dates converted, missing values
    reported. *)
Definition cleaned_before_dedup (raw : DataFrame) : result DataFrame :=
  df <- drop_redundant_columns (standardize_columns raw) ;;
  df <- convert_date_columns df ;;
  Ok (handle_missing_values df).


(** The column under a label is a single column of numbers (a float64
    or an int64 column), or of timestamps ([NaT] included). *)
Definition is_num (c : cell) : bool :=
  match c with Num _ => true | _ => false end.

Definition is_int (c : cell) : bool :=
  match c with Int _ => true | _ => false end.

Definition is_datetime (c : cell) : bool :=
  match c with Time _ | NaT => true | _ => false end.

Definition numeric_column (df : DataFrame) (col : string) : bool :=
  match getitem df col with
  | Ok s => forallb is_num s || forallb is_int s
  | Err _ => false
  end.

Definition datetime_column (df : DataFrame) (col : string) : bool :=
  match getitem df col with
  | Ok s => forallb is_datetime s
  | Err _ => false
  end.

(** The columns that [add_derived_features] computes with hold what its
    computations accept: numbers for the arithmetic, timestamps for the
    [.dt] accessor. *)
Definition derivable (df : DataFrame) : bool :=
  (if has_column "days_for_shipping_real" df
      && has_column "days_for_shipment_scheduled" df
   then numeric_column df "days_for_shipping_real"
        && numeric_column df "days_for_shipment_scheduled"
   else true)
  && (if has_column "order_date_dateorders" df
      then datetime_column df "order_date_dateorders" else true)
  && (if has_column "order_profit_per_order" df && has_column "sales" df
      then numeric_column df "order_profit_per_order"
           && numeric_column df "sales"
      else true).

(** The labels that [add_derived_features] writes. *)
Definition derived_labels : list string :=
  [ "shipping_delay_days"; "order_month"; "order_year"; "order_day_of_week";
    "profit_margin_pct" ].

(* ================================================================== *)
(** ** Feature engineering ([feature_engineering.py]) *)
(* ================================================================== *)

Definition bucket_order_value (df : DataFrame) : result DataFrame :=
  sales <- getitem df "sales" ;;
  bucket <- qcut4 L sales ;;
  Ok (setitem df "order_value_bucket" bucket).

Definition flag_high_discount (df : DataFrame) : result DataFrame :=
  if has_column "order_item_discount" df then
    discount <- getitem df "order_item_discount" ;;
    discount' <- getitem df "order_item_discount" ;;
    m <- median L discount' ;;
    flags <- compare_with (fun x => m <? x)%float discount ;;
    Ok (setitem df "is_high_discount" (astype_int flags))
  else Ok df.

Definition flag_bulk_order (df : DataFrame) : result DataFrame :=
  if has_column "order_item_quantity" df then
    quantity <- getitem df "order_item_quantity" ;;
    flags <- compare_with (fun x => 3 <? x)%float quantity ;;
    Ok (setitem df "is_bulk_order" (astype_int flags))
  else Ok df.

Definition flag_weekend_order (df : DataFrame) : result DataFrame :=
  if has_column "order_day_of_week" df then
    day <- getitem df "order_day_of_week" ;;
    Ok (setitem df "is_weekend_order"
          (astype_int (isin ["Saturday"; "Sunday"] day)))
  else Ok df.

(** [create_delivery_prediction_features] *)
Definition create_delivery_prediction_features (df : DataFrame)
  : result DataFrame :=
  let df := copy df in
  df <- bucket_order_value df ;;
  df <- flag_high_discount df ;;
  df <- flag_bulk_order df ;;
  df <- flag_weekend_order df ;;
  Ok df.

Definition flag_extreme_margin (df : DataFrame) : result DataFrame :=
  if has_column "profit_margin_pct" df then
    margin <- getitem df "profit_margin_pct" ;;
    q95 <- quantile L 0.95%float margin ;;
    margin <- getitem df "profit_margin_pct" ;;
    flags <- compare_with (fun x => q95 <? x)%float margin ;;
    Ok (setitem df "extreme_margin" (astype_int flags))
  else Ok df.

Definition flag_fast_ship (df : DataFrame) : result DataFrame :=
  if has_column "days_for_shipping_real" df then
    days <- getitem df "days_for_shipping_real" ;;
    flags <- compare_with (fun x => x <=? 1)%float days ;;
    Ok (setitem df "fast_ship" (astype_int flags))
  else Ok df.

Definition flag_negative_profit (df : DataFrame) : result DataFrame :=
  if has_column "order_profit_per_order" df then
    profit <- getitem df "order_profit_per_order" ;;
    flags <- compare_with (fun x => x <? 0)%float profit ;;
    Ok (setitem df "negative_profit" (astype_int flags))
  else Ok df.

(** [create_fraud_detection_features] *)
Definition create_fraud_detection_features (df : DataFrame)
  : result DataFrame :=
  let df := copy df in
  df <- flag_extreme_margin df ;;
  df <- flag_fast_ship df ;;
  df <- flag_negative_profit df ;;
  Ok df.

End Pipeline.

(* ================================================================== *)
(** ** A small library instance, for running the code on examples *)
(* ================================================================== *)

(** Just enough of pandas to execute the definitions above: ISO dates
    ([YYYY-MM-DD], anything else is coerced to [NaT]), the proleptic
    Gregorian calendar, and order statistics by linear interpolation. *)
Module IsoLib.

Local Open Scope Z_scope.

Definition digit (c : ascii) : option Z :=
  let n := Z.of_nat (nat_of_ascii c) in
  if (48 <=? n) && (n <=? 57) then Some (n - 48) else None.

Fixpoint number (cs : list ascii) (acc : Z) : option Z :=
  match cs with
  | [] => Some acc
  | c :: cs' =>
      match digit c with
      | Some d => number cs' (10 * acc + d)
      | None => None
      end
  end.

(** Days since 1970-01-01 of a civil date, and back. *)
Definition days_from_civil (y m d : Z) : Z :=
  let y := if m <=? 2 then y - 1 else y in
  let era := y / 400 in
  let yoe := y - era * 400 in
  let doy := (153 * (if 2 <? m then m - 3 else m + 9) + 2) / 5 + d - 1 in
  let doe := yoe * 365 + yoe / 4 - yoe / 100 + doy in
  era * 146097 + doe - 719468.

Definition civil_from_days (z : Z) : Z * Z * Z :=
  let z := z + 719468 in
  let era := z / 146097 in
  let doe := z - era * 146097 in
  let yoe := (doe - doe / 1460 + doe / 36524 - doe / 146096) / 365 in
  let doy := doe - (365 * yoe + yoe / 4 - yoe / 100) in
  let mp := (5 * doy + 2) / 153 in
  let d := doy - (153 * mp + 2) / 5 + 1 in
  let m := if mp <? 10 then mp + 3 else mp - 9 in
  (if m <=? 2 then yoe + era * 400 + 1 else yoe + era * 400, m, d).

Definition ns_per_day : Z := 86400 * 1000000000.

Definition parse_iso (s : string) : option Z :=
  match list_ascii_of_string s with
  | [y1; y2; y3; y4; "-"%char; m1; m2; "-"%char; d1; d2] =>
      match number [y1; y2; y3; y4] 0, number [m1; m2] 0, number [d1; d2] 0 with
      | Some y, Some m, Some d =>
          let days := days_from_civil y m d in
          match civil_from_days days with
          | (y', m', d') =>
              if (y' =? y) && (m' =? m) && (d' =? d)
              then Some (days * ns_per_day) else None
          end
      | _, _, _ => None
      end
  | _ => None
  end.

Definition to_datetime_cell (c : cell) : cell :=
  match c with
  | Str s => match parse_iso s with Some t => Time t | None => NaT end
  | Time t => Time t
  | _ => NaT
  end.

Definition to_datetime (s : Series) : result Series :=
  Ok (map to_datetime_cell s).

Definition civil (t : Z) : Z * Z * Z := civil_from_days (t / ns_per_day).

Definition year (t : Z) : Z := fst (fst (civil t)).
Definition month (t : Z) : Z := snd (fst (civil t)).

Definition to_period_M (t : Z) : Z := (year t - 1970) * 12 + (month t - 1).

Definition dt_year (t : Z) : Z := year t.

Definition dt_day_name (t : Z) : string :=
  nth (Z.to_nat ((t / ns_per_day + 3) mod 7))
      ["Monday"; "Tuesday"; "Wednesday"; "Thursday"; "Friday"; "Saturday";
       "Sunday"]%string ""%string.

Local Open Scope float_scope.

Fixpoint insert_sorted (x : float) (xs : list float) : list float :=
  match xs with
  | [] => [x]
  | y :: ys => if x <=? y then x :: xs else y :: insert_sorted x ys
  end.

Definition sort (xs : list float) : list float :=
  fold_right insert_sorted [] xs.

(** The value at a fractional position of a sorted list. *)
Fixpoint interpolate (pos : float) (xs : list float) : float :=
  match xs with
  | [] => nan
  | [x] => x
  | x :: (y :: _) as rest =>
      if pos <? 1 then x + (y - x) * pos else interpolate (pos - 1) rest
  end.

Definition quantile (q : float) (s : Series) : result float :=
  xs <- as_floats s ;;
  let xs := sort (filter (fun x => negb (PrimFloat.is_nan x)) xs) in
  Ok (interpolate (q * float_of_nat (length xs - 1)) xs).

Definition median (s : Series) : result float := quantile 0.5 s.

Definition qcut4 (s : Series) : result Series :=
  q0 <- quantile 0 s ;;
  q1 <- quantile 0.25 s ;;
  q2 <- quantile 0.5 s ;;
  q3 <- quantile 0.75 s ;;
  q4 <- quantile 1 s ;;
  if (q0 <? q1) && (q1 <? q2) && (q2 <? q3) && (q3 <? q4) then
    xs <- as_floats s ;;
    Ok (map (fun x =>
               if PrimFloat.is_nan x then Num nan
               else if x <=? q1 then Str "Low"
               else if x <=? q2 then Str "Medium"
               else if x <=? q3 then Str "High"
               else Str "Premium") xs)
  else Err ValueError.

Definition to_datetime_length (s s' : Series) (H : to_datetime s = Ok s')
  : length s' = length s :=
  match H in (_ = r) return
        match r with Ok s' => length s' = length s | Err _ => True end
  with
  | eq_refl => length_map to_datetime_cell s
  end.

Definition lib : PandasLib :=
  mkPandasLib to_datetime to_datetime_length to_period_M dt_year dt_day_name
    qcut4 median quantile.

End IsoLib.

(** ** Example frames *)

(** [pd.DataFrame(rows, columns=labels)] *)
Fixpoint column_of_rows (j : nat) (rows : list (list cell)) : Series :=
  match rows with
  | [] => []
  | r :: rows' => nth j r (Num nan) :: column_of_rows j rows'
  end.

Definition from_rows (labels : list string) (rows : list (list cell))
  : DataFrame :=
  mkDataFrame (length rows)
    (map (fun j => (nth j labels "", column_of_rows j rows))
         (seq 0 (length labels))).

Definition order_labels : list string :=
  [ "Order Id"; "Customer Email"; "Customer Password"; "Product Image";
    "Customer Fname"; "Customer Lname"; "Sales"; "Order Profit Per Order";
    "order date (DateOrders)"; "shipping date (DateOrders)";
    "Days for shipping (real)"; "Days for shipment (scheduled)" ].

Definition order_row (id : Z) (fname : string) (sales profit : float)
  (ordered shipped : string) (real scheduled : Z) : list cell :=
  [ Int id; Str "XXXXXXXXX"; Str "XXXXXXXXX"; Str "http://images/item";
    Str fname; Str "Smith"; Num sales; Num profit; Str ordered; Str shipped;
    Int real; Int scheduled ].

(** Ten loaded rows: eight different orders, the third with no sales and
    a profit of 50, and the first two loaded twice. *)
Definition orders10 : DataFrame :=
  from_rows order_labels
    [ order_row 1 "Mary" 327.75 91.25 "2017-01-13" "2017-01-16" 3 4;
      order_row 2 "Irene" 100 (-25) "2017-01-13" "2017-01-18" 5 4;
      order_row 3 "Gillian" 0 50 "2017-01-14" "2017-01-15" 1 1;
      order_row 4 "Tana" 30 10 "2017-01-14" "2017-01-17" 3 2;
      order_row 5 "Orli" 299.98 134.21 "2017-01-15" "2017-01-17" 2 4;
      order_row 6 "Kimberly" 59.99 18.58 "2017-02-01" "2017-02-07" 6 4;
      order_row 7 "Constance" 250 95.18 "2017-02-02" "2017-02-04" 2 1;
      order_row 8 "Erica" 129.99 68.43 "2017-02-03" "2017-02-05" 2 2;
      order_row 1 "Mary" 327.75 91.25 "2017-01-13" "2017-01-16" 3 4;
      order_row 2 "Irene" 100 (-25) "2017-01-13" "2017-01-18" 5 4 ].


(** Four rows of numeric columns; the last row has missing values. *)
Definition small_orders : DataFrame :=
  from_rows
    [ "sales"; "order_profit_per_order"; "days_for_shipping_real";
      "days_for_shipment_scheduled" ]
    [ [Num 0; Num 50; Num 1; Num 1];
      [Num 327.75; Num 91.25; Num 3; Num 4];
      [Num 30; Num 10; Num 3; Num 2];
      [Num nan; Num 5; Num nan; Num 2] ].

(** Three rows with int64 day counts, as a file of whole numbers is
    read, and float64 amounts. *)
Definition int_orders : DataFrame :=
  from_rows
    [ "sales"; "order_profit_per_order"; "days_for_shipping_real";
      "days_for_shipment_scheduled" ]
    [ [Num 0; Num 50; Int 1; Int 1];
      [Num 327.75; Num 91.25; Int 3; Int 4];
      [Num 30; Num 10; Int 6; Int 2] ].

(** Day counts at the edge of int64. *)
Definition edge_orders : DataFrame :=
  from_rows
    [ "days_for_shipping_real"; "days_for_shipment_scheduled" ]
    [ [Int (-9223372036854775808); Int 1];
      [Int 3; Int 4] ].

(** [orders10] as the pipeline hands it to [remove_duplicates], with the
    dates read by [IsoLib]. *)
Definition orders10_cleaned : DataFrame :=
  Eval vm_compute in
    match cleaned_before_dedup IsoLib.lib orders10 with
    | Ok df => df
    | Err _ => mkDataFrame 0 []
    end.



(** A file with a header line and no record. *)
Definition header_only : DataFrame := from_rows ["Sales"] [].

(** Two rows of a frame that has lost all its columns, as a file of PII
    columns only is after [drop_redundant_columns]. *)
Definition two_rows_no_column : DataFrame := mkDataFrame 2 [].

(* ================================================================== *)
(** ** Label encoding ([encode_categorical_features]) *)
(* ================================================================== *)

(** [sorted(set(values))] for texts, in Python's order on [str] (code
    point by code point, a proper prefix first). *)
Fixpoint insert_class (s : string) (classes : list string) : list string :=
  match classes with
  | [] => [s]
  | c :: rest =>
      match String.compare s c with
      | Lt => s :: classes
      | Eq => classes
      | Gt => c :: insert_class s rest
      end
  end.

Definition sorted_set (values : list string) : list string :=
  fold_right insert_class [] values.

(** Python's [a < b] on two [str]. *)
Definition str_lt (a b : string) : Prop := String.compare a b = Lt.

(** The values that a [LabelEncoder] is fitted on, as [astype(str)]
    hands them over: a text, or the missing value ([None]) where
    [astype(str)] leaves a missing value missing. *)
Definition texts_of (values : list (option string)) : list string :=
  flat_map (fun v => match v with Some t => [t] | None => [] end) values.

Definition is_missing (v : option string) : bool :=
  match v with None => true | Some _ => false end.

(** The fitted [classes_]: the distinct texts in ascending order and,
    after them, the missing value when one occurs. *)
Definition classes_of (values : list (option string)) : list (option string) :=
  map Some (sorted_set (texts_of values))
  ++ (if existsb is_missing values then [None] else []).

(** The order of the classes: texts as [str] orders them, the missing
    value after every text. *)
Definition class_compare (a b : option string) : comparison :=
  match a, b with
  | Some s, Some t => String.compare s t
  | Some _, None => Lt
  | None, Some _ => Gt
  | None, None => Eq
  end.

Definition class_lt (a b : option string) : Prop := class_compare a b = Lt.

Definition class_eqb (a b : option string) : bool :=
  match a, b with
  | Some s, Some t => String.eqb s t
  | None, None => true
  | _, _ => false
  end.

(** The position of a value among the classes. *)
Fixpoint index_of (v : option string) (classes : list (option string)) : nat :=
  match classes with
  | [] => 0
  | c :: rest => if class_eqb v c then 0 else S (index_of v rest)
  end.

(** [LabelEncoder().fit_transform(values)]: the fitted [classes_] and the
    code of every value. *)
Definition fit_transform (values : list (option string))
  : list (option string) * list nat :=
  let classes := classes_of values in
  (classes, map (fun v => index_of v classes) values).

(** A Python [dict] with text keys, in insertion order: [d[k] = v] and
    [d.get(k)]. *)
Definition dict_set {V : Type} (d : list (string * V)) (k : string) (v : V)
  : list (string * V) :=
  if existsb (fun e => String.eqb k (fst e)) d then
    map (fun e => if String.eqb k (fst e) then (k, v) else e) d
  else d ++ [(k, v)].

Definition dict_get {V : Type} (d : list (string * V)) (k : string) : option V :=
  option_map snd (find (fun e => String.eqb k (fst e)) d).

(** The integer codes as cells. *)
Definition code_cell (n : nat) : cell := Int (Z.of_nat n).

Section Encoding.

(** What [astype(str)] makes of one cell: the text [str(x)] (the text
    of a number or of a timestamp is left to Python), or nothing where it
    leaves the value missing (newer pandas keep a missing value missing,
    older ones write the text 'nan'). *)
Variable cell_str : cell -> option string.

(** One turn of the loop of [encode_categorical_features], on the frame
    and the encoders so far. *)
Definition encode_column
  (state : DataFrame * list (string * list (option string)))
  (col : string)
  : result (DataFrame * list (string * list (option string))) :=
  let (df, encoders) := state in
  if has_column col df then
    s <- getitem df col ;;
    let (classes, codes) := fit_transform (map cell_str s) in
    Ok (setitem df col (map code_cell codes), dict_set encoders col classes)
  else Ok (df, encoders).

(** [encode_categorical_features]: the encoded frame and, per encoded
    column, the classes of its encoder. *)
Definition encode_categorical_features (df : DataFrame) (columns : list string)
  : result (DataFrame * list (string * list (option string))) :=
  for_each encode_column columns (copy df, []).

End Encoding.

(** Row [k] of [out] holds, column by column, duplicates of the values
    of row [i] of [inp]. *)
Definition row_matches (out inp : DataFrame) (k i : nat) : Prop :=
  Forall2 (fun c' c => fst c' = fst c /\
                       cell_dup (cell_at (snd c') k) (cell_at (snd c) i) = true)
          (cols out) (cols inp).

(** The rows of a frame at the given positions, in that order. *)
Definition take_rows (rows : list nat) (df : DataFrame) : DataFrame :=
  mkDataFrame (length rows)
    (map (fun c => (fst c, map (cell_at (snd c)) rows)) (cols df)).

(** Frames for the examples below: orders with text columns (the
    market of the last one is missing) and with the columns of the feature
    functions. *)
Definition shipments : DataFrame :=
  from_rows
    [ "shipping_mode"; "market"; "sales"; "order_item_discount";
      "order_item_quantity"; "order_day_of_week"; "profit_margin_pct";
      "days_for_shipping_real"; "order_profit_per_order" ]
    [ [Str "Standard Class"; Str "Europe"; Num 327.75; Num 13.11; Int 1;
       Str "Friday"; Num 27.84; Num 3; Num 91.25];
      [Str "First Class"; Str "LATAM"; Num 100; Num 16; Int 5;
       Str "Saturday"; Num (-25); Num 1; Num (-25)];
      [Str "Same Day"; Str "Europe"; Num 30; Num 0; Int 4;
       Str "Sunday"; Num 33.33; Num 0; Num 10];
      [Str "Standard Class"; Str "USCA"; Num 299.98; Num 5.5; Int 2;
       Str "Monday"; Num 44.74; Num 6; Num 134.21];
      [Str "Second Class"; Num nan; Num 59.99; Num 3; Int 3;
       Str "Wednesday"; Num 30.97; Num nan; Num 18.58] ].

(** [astype(str)] in the examples: a missing value stays missing, a
    text is itself, anything else a fixed mark. *)
Definition demo_cell_str (c : cell) : option string :=
  if isnull c then None
  else match c with
       | Str s => Some s
       | _ => Some "?"
       end.

(* ================================================================== *)
(** * Properties *)
(* ================================================================== *)

(** ** The definitions at work *)

Example standardize_name_days :
  standardize_name "  Days for shipping (real) " = "days_for_shipping_real".
Proof. reflexivity. Qed.

Example standardize_name_dates :
  standardize_name "order date (DateOrders)" = "order_date_dateorders".
Proof. reflexivity. Qed.

Example round2_third : round2 (10 / 30 * 100)%float = 33.33%float.
Proof. reflexivity. Qed.

Example round2_ties_to_even : round2 0.125%float = 0.12%float.
Proof. reflexivity. Qed.

Example round2_of_infinity : round2 (50 / 0 * 100)%float = infinity.
Proof. reflexivity. Qed.

Example iso_friday :
  option_map IsoLib.dt_day_name (IsoLib.parse_iso "2017-01-13") = Some "Friday".
Proof. reflexivity. Qed.

Example orders10_cleaned_shape :
  nrows orders10_cleaned = 10 /\
  columns orders10_cleaned
  = [ "order_id"; "sales"; "order_profit_per_order"; "order_date_dateorders";
      "shipping_date_dateorders"; "days_for_shipping_real";
      "days_for_shipment_scheduled" ].
Proof. split; reflexivity. Qed.

Example duplicated_orders10 :
  duplicated orders10
  = [false; false; false; false; false; false; false; false; true; true].
Proof. reflexivity. Qed.

(** ** Column-name standardization *)

Ltac each_char c := destruct c as [[|] [|] [|] [|] [|] [|] [|] [|]].

Lemma standardize_name_one_pass (s : string) :
  standardize_name s = one_pass_name s.
Proof.
  unfold standardize_name, one_pass_name.
  induction (PyStr.strip s) as [|c t IH]; [reflexivity|].
  cbn [PyStr.lower concat_map]. rewrite <- IH.
  each_char c; reflexivity.
Qed.

Lemma all_chars_app (p : ascii -> bool) (a b : string) :
  PyStr.all_chars p (a ++ b) = PyStr.all_chars p a && PyStr.all_chars p b.
Proof.
  induction a as [|c a IH]; simpl; [reflexivity|].
  now rewrite IH, andb_assoc.
Qed.

Lemma all_chars_concat_map (p q : ascii -> bool) (f : ascii -> string) :
  (forall c, q c = true -> PyStr.all_chars p (f c) = true) ->
  forall s, PyStr.all_chars q s = true ->
            PyStr.all_chars p (concat_map f s) = true.
Proof.
  intros Hf s; induction s as [|c s IH]; simpl; [reflexivity|].
  intros H; apply andb_prop in H; destruct H as [Hc Hs].
  rewrite all_chars_app, (Hf c Hc), (IH Hs); reflexivity.
Qed.

Lemma all_chars_true (s : string) : PyStr.all_chars (fun _ => true) s = true.
Proof. induction s; simpl; auto. Qed.

Lemma std_char_allowed (c : ascii) :
  PyStr.all_chars (fun d => negb (forbidden d)) (std_char c) = true.
Proof. each_char c; reflexivity. Qed.

Lemma standardize_name_allowed (s : string) :
  PyStr.all_chars (fun d => negb (forbidden d)) (standardize_name s) = true.
Proof.
  rewrite standardize_name_one_pass; unfold one_pass_name.
  apply all_chars_concat_map with (q := fun _ => true).
  - intros c _; apply std_char_allowed.
  - apply all_chars_true.
Qed.

(** Trimming keeps a property of all characters. *)
Lemma all_chars_lstrip (p : ascii -> bool) (s : string) :
  PyStr.all_chars p s = true -> PyStr.all_chars p (PyStr.lstrip s) = true.
Proof.
  induction s as [|c s IH]; simpl; [auto|].
  intros H; destruct (PyStr.is_space c); [|exact H].
  apply andb_prop in H; tauto.
Qed.

Lemma all_chars_rstrip (p : ascii -> bool) (s : string) :
  PyStr.all_chars p s = true -> PyStr.all_chars p (PyStr.rstrip s) = true.
Proof.
  induction s as [|c s IH]; simpl; [auto|].
  intros H; apply andb_prop in H; destruct H as [Hc Hs].
  specialize (IH Hs).
  destruct (PyStr.rstrip s) as [|d r].
  - destruct (PyStr.is_space c); simpl; [reflexivity | now rewrite Hc].
  - change (p c && PyStr.all_chars p (String d r) = true).
    now rewrite Hc, IH.
Qed.

Lemma all_chars_strip (p : ascii -> bool) (s : string) :
  PyStr.all_chars p s = true -> PyStr.all_chars p (PyStr.strip s) = true.
Proof. intros H; apply all_chars_rstrip, all_chars_lstrip, H. Qed.

(** A text without whitespace is left alone by [strip]. *)
Lemma strip_no_space (s : string) :
  PyStr.all_chars (fun c => negb (PyStr.is_space c)) s = true ->
  PyStr.strip s = s.
Proof.
  intros H; unfold PyStr.strip.
  assert (Hl : PyStr.lstrip s = s).
  { destruct s as [|c s]; [reflexivity|]; simpl in *.
    destruct (PyStr.is_space c); [discriminate | reflexivity]. }
  rewrite Hl; clear Hl.
  induction s as [|c s IH]; [reflexivity|]; simpl in *.
  apply andb_prop in H; destruct H as [Hc Hs].
  rewrite (IH Hs).
  destruct s; [|reflexivity].
  destruct (PyStr.is_space c); [discriminate | reflexivity].
Qed.

Lemma std_char_settled (c : ascii) :
  odd_space c = false -> PyStr.all_chars settled (std_char c) = true.
Proof. each_char c; intros H; try reflexivity; discriminate H. Qed.

Lemma std_char_fixed (c : ascii) :
  settled c = true -> std_char c = String c "".
Proof. each_char c; intros H; try reflexivity; discriminate H. Qed.

Lemma standardize_name_settled (s : string) :
  PyStr.all_chars settled s = true -> standardize_name s = s.
Proof.
  intros H; rewrite standardize_name_one_pass; unfold one_pass_name.
  rewrite strip_no_space.
  - induction s as [|c s IH]; [reflexivity|]; simpl in *.
    apply andb_prop in H; destruct H as [Hc Hs].
    rewrite (std_char_fixed c Hc), (IH Hs); reflexivity.
  - clear - H; induction s as [|c s IH]; [reflexivity|]; simpl in *.
    apply andb_prop in H; destruct H as [Hc Hs].
    rewrite (IH Hs), andb_true_r.
    unfold settled in Hc; apply andb_prop in Hc; tauto.
Qed.

Lemma standardize_name_idempotent (s : string) :
  PyStr.all_chars (fun c => negb (odd_space c)) s = true ->
  standardize_name (standardize_name s) = standardize_name s.
Proof.
  intros H; apply standardize_name_settled.
  rewrite standardize_name_one_pass; unfold one_pass_name.
  apply all_chars_concat_map with (q := fun c => negb (odd_space c)).
  - intros c Hc; apply std_char_settled.
    now destruct (odd_space c).
  - apply all_chars_strip, H.
Qed.

(** C4 (amended): every label that [standardize_columns] produces is the
    original label trimmed of surrounding whitespace and rewritten
    character by character: a space or a period becomes an underscore, a
    parenthesis is deleted, any other character is lowercased; the data and
    the row count are untouched.  No produced label contains a space, a
    parenthesis, a period or an uppercase letter. *)
Theorem standardize_columns_labels (df : DataFrame) :
  columns (standardize_columns df) = map one_pass_name (columns df) /\
  map snd (cols (standardize_columns df)) = map snd (cols df) /\
  nrows (standardize_columns df) = nrows df /\
  Forall (fun l => PyStr.all_chars (fun c => negb (forbidden c)) l = true)
         (columns (standardize_columns df)).
Proof.
  unfold standardize_columns, columns, copy; simpl.
  rewrite !map_map; simpl.
  repeat split.
  - apply map_ext; intros c; apply standardize_name_one_pass.
  - apply Forall_forall; intros l Hl.
    apply in_map_iff in Hl; destruct Hl as [c [<- _]].
    apply standardize_name_allowed.
Qed.

(** C4, as stated, fails: a period is not deleted but replaced by an
    underscore.  The code turns the label [order.id] into [order_id],
    the stated rule into [orderid]. *)
Lemma period_becomes_underscore :
  columns (standardize_columns (from_rows ["order.id"] [])) = ["order_id"] /\
  map spec_standardize_name (columns (from_rows ["order.id"] [])) = ["orderid"].
Proof. split; reflexivity. Qed.

Lemma std_char_allowed_fixed (c : ascii) :
  forbidden c = false -> std_char c = String c "".
Proof. each_char c; intros H; try reflexivity; discriminate H. Qed.

Lemma standardize_name_allowed_strip (s : string) :
  PyStr.all_chars (fun c => negb (forbidden c)) s = true ->
  standardize_name s = PyStr.strip s.
Proof.
  intros H; rewrite standardize_name_one_pass; unfold one_pass_name.
  apply all_chars_strip in H.
  induction (PyStr.strip s) as [|c t IH]; [reflexivity|]; simpl in *.
  apply andb_prop in H; destruct H as [Hc Ht].
  rewrite std_char_allowed_fixed by (now destruct (forbidden c)).
  simpl; now rewrite IH.
Qed.

Lemma rstrip_idempotent (s : string) :
  PyStr.rstrip (PyStr.rstrip s) = PyStr.rstrip s.
Proof.
  induction s as [|c s IH]; [reflexivity|]; simpl.
  destruct (PyStr.rstrip s) as [|d r] eqn:E.
  - destruct (PyStr.is_space c) eqn:Ec; [reflexivity|]; simpl; now rewrite Ec.
  - change (PyStr.rstrip (String c (String d r)))
      with (match PyStr.rstrip (String d r) with
            | EmptyString =>
                if PyStr.is_space c then EmptyString else String c EmptyString
            | r' => String c r'
            end).
    now rewrite IH.
Qed.

Lemma lstrip_rstrip_stripped (s : string) :
  PyStr.lstrip (PyStr.rstrip (PyStr.lstrip s)) = PyStr.rstrip (PyStr.lstrip s).
Proof.
  induction s as [|c s IH]; [reflexivity|]; simpl.
  destruct (PyStr.is_space c) eqn:Ec; [exact IH|]; simpl.
  destruct (PyStr.rstrip s); simpl; rewrite ?Ec; simpl; now rewrite ?Ec.
Qed.

Lemma strip_idempotent (s : string) :
  PyStr.strip (PyStr.strip s) = PyStr.strip s.
Proof.
  unfold PyStr.strip; now rewrite lstrip_rstrip_stripped, rstrip_idempotent.
Qed.

(** A second pass only trims the labels of the first. *)
Lemma second_pass_strips (df : DataFrame) :
  columns (standardize_columns (standardize_columns df))
  = map PyStr.strip (columns (standardize_columns df)).
Proof.
  unfold standardize_columns, columns, copy; simpl.
  rewrite !map_map; simpl; apply map_ext; intros c.
  apply standardize_name_allowed_strip, standardize_name_allowed.
Qed.

Lemma map_fixed {A : Type} (f : A -> A) (l : list A) :
  map f l = l <-> Forall (fun x => f x = x) l.
Proof.
  induction l as [|x l IH]; simpl; split; intros H; try constructor;
    try reflexivity.
  - now injection H.
  - apply IH; now injection H.
  - inversion H; subst; f_equal; [assumption | now apply IH].
Qed.

(** C5 (amended): [standardize_columns] applied twice gives the same
    column names as applied once exactly for the tables in which no label,
    once standardized, begins or ends with a whitespace character (a label
    that [strip] leaves as it is); the data never change, so the two frames
    are then the same.  Every table whose labels hold no whitespace other
    than plain spaces (no tab, line break, non-breaking space, ...) is such
    a table. *)
Theorem standardize_columns_idempotent (df : DataFrame) :
  (columns (standardize_columns (standardize_columns df))
   = columns (standardize_columns df)
   <-> Forall (fun l => PyStr.strip l = l) (columns (standardize_columns df))) /\
  (standardize_columns (standardize_columns df) = standardize_columns df
   <-> columns (standardize_columns (standardize_columns df))
       = columns (standardize_columns df)) /\
  (Forall (fun l => PyStr.all_chars (fun c => negb (odd_space c)) l = true)
          (columns df) ->
   standardize_columns (standardize_columns df) = standardize_columns df).
Proof.
  split; [rewrite second_pass_strips; apply map_fixed|].
  split.
  - split; [intros H; now rewrite H|].
    unfold standardize_columns, columns, copy; simpl.
    rewrite !map_map; simpl; intros H; f_equal.
    induction (cols df) as [|c l IH]; simpl in *; [reflexivity|].
    injection H as H1 H2; f_equal; [now rewrite H1 | now apply IH].
  - intros H; unfold standardize_columns, copy; simpl; f_equal.
    rewrite map_map; simpl.
    apply map_ext_in; intros c Hc; f_equal.
    apply standardize_name_idempotent.
    rewrite Forall_forall in H; apply H.
    unfold columns; apply in_map, Hc.
Qed.

Lemma standardize_columns_idempotent_orders :
  Forall (fun l => PyStr.all_chars (fun c => negb (odd_space c)) l = true)
         (columns orders10) /\
  standardize_columns (standardize_columns orders10)
  = standardize_columns orders10.
Proof.
  assert (H : Forall (fun l => PyStr.all_chars (fun c => negb (odd_space c)) l
                               = true) (columns orders10))
    by (repeat constructor).
  split; [exact H|].
  exact (proj2 (proj2 (standardize_columns_idempotent orders10)) H).
Defined.

(** C5, as stated, fails: deleting a parenthesis can lay bare a
    whitespace character that the trimming of the first pass did not see
    and the trimming of the second pass removes. *)
Lemma standardize_columns_twice_differs :
  columns (standardize_columns (from_rows [tabbed_label] []))
  = [("sales_" ++ String "009" "")%string] /\
  columns (standardize_columns (standardize_columns
                                  (from_rows [tabbed_label] [])))
  = ["sales_"].
Proof. split; reflexivity. Qed.

(** ** Frames: labels, lookups and assignments *)

Lemma has_column_In (c : string) (df : DataFrame) :
  has_column c df = true <-> In c (columns df).
Proof.
  unfold has_column; rewrite existsb_exists; split.
  - intros [x [Hx He]]; apply String.eqb_eq in He; now subst.
  - intros H; exists c; split; [exact H | apply String.eqb_refl].
Qed.

Lemma columns_setitem_old (df : DataFrame) (c : string) (s : Series) :
  has_column c df = true -> columns (setitem df c s) = columns df.
Proof.
  intros H; unfold setitem; rewrite H; unfold columns; simpl.
  rewrite map_map; apply map_ext; intros x.
  now destruct (String.eqb c (fst x)).
Qed.

Lemma columns_setitem_new (df : DataFrame) (c : string) (s : Series) :
  has_column c df = false -> columns (setitem df c s) = columns df ++ [c].
Proof.
  intros H; unfold setitem; rewrite H; unfold columns; simpl.
  now rewrite map_app.
Qed.

Lemma has_column_setitem (df : DataFrame) (c c' : string) (s : Series) :
  has_column c (setitem df c' s) = has_column c df || String.eqb c c'.
Proof.
  destruct (has_column c' df) eqn:H.
  - unfold has_column at 1; rewrite (columns_setitem_old _ _ _ H).
    fold (has_column c df).
    destruct (String.eqb_spec c c') as [->|]; [|now rewrite orb_false_r].
    now rewrite H.
  - unfold has_column at 1; rewrite (columns_setitem_new _ _ _ H).
    rewrite existsb_app; simpl; now rewrite orb_false_r.
Qed.

Lemma nrows_setitem (df : DataFrame) (c : string) (s : Series) :
  nrows (setitem df c s) = nrows df.
Proof. unfold setitem; now destruct (has_column c df). Qed.

Lemma labelled_setitem_other (df : DataFrame) (c c' : string) (s : Series) :
  c <> c' -> labelled (setitem df c' s) c = labelled df c.
Proof.
  intros Hne; unfold labelled, setitem; destruct (has_column c' df); simpl.
  - induction (cols df) as [|x l IH]; simpl; [reflexivity|].
    destruct (String.eqb_spec c' (fst x)) as [E|E]; simpl.
    + rewrite <- E.
      destruct (String.eqb_spec c c') as [|_]; [contradiction | exact IH].
    + now rewrite IH.
  - rewrite filter_app; simpl.
    destruct (String.eqb_spec c c') as [|_]; [contradiction|].
    apply app_nil_r.
Qed.

Lemma getitem_setitem_other (df : DataFrame) (c c' : string) (s : Series) :
  c <> c' -> getitem (setitem df c' s) c = getitem df c.
Proof.
  intros H; unfold getitem; now rewrite labelled_setitem_other.
Qed.

Lemma In_setitem_other (df : DataFrame) (c c' : string) (s v : Series) :
  c <> c' ->
  In (c, v) (cols (setitem df c' s)) <-> In (c, v) (cols df).
Proof.
  intros Hne; unfold setitem; destruct (has_column c' df); simpl.
  - rewrite in_map_iff; split.
    + intros [x [Hx Hin]].
      destruct (String.eqb_spec c' (fst x)) as [E|E].
      * inversion Hx; subst; contradiction.
      * now subst.
    + intros Hin; exists (c, v); split; [|exact Hin]; simpl.
      destruct (String.eqb_spec c' c) as [E|E]; [|reflexivity].
      now subst.
  - rewrite in_app_iff; simpl; split; [|tauto].
    intros [H|[H|[]]]; [exact H|].
    inversion H; subst; contradiction.
Qed.

Lemma In_setitem_same (df : DataFrame) (c : string) (s v : Series) :
  In (c, v) (cols (setitem df c s)) -> v = s.
Proof.
  unfold setitem; destruct (has_column c df) eqn:H; simpl.
  - rewrite in_map_iff; intros [x [Hx Hin]].
    destruct (String.eqb_spec c (fst x)) as [E|E].
    + now inversion Hx.
    + subst x; simpl in E; contradiction.
  - rewrite in_app_iff; simpl; intros [Hin|[Hin|[]]].
    + assert (Hc : has_column c df = true).
      { apply has_column_In; unfold columns.
        change c with (fst (c, v)); now apply in_map. }
      congruence.
    + now inversion Hin.
Qed.

Lemma has_column_setitem_same (df : DataFrame) (c : string) (s : Series) :
  has_column c (setitem df c s) = true.
Proof. rewrite has_column_setitem, String.eqb_refl; apply orb_true_r. Qed.

(** A successful lookup names a column of the frame. *)
Lemma getitem_In (df : DataFrame) (c : string) (s : Series) :
  getitem df c = Ok s -> In (c, s) (cols df).
Proof.
  unfold getitem, labelled.
  destruct (filter _ (cols df)) as [|x [|y l]] eqn:F; try discriminate.
  intros H; inversion H; subst.
  assert (Hx : In x (filter (fun x => String.eqb c (fst x)) (cols df)))
    by (rewrite F; now left).
  apply filter_In in Hx; destruct Hx as [Hin He].
  apply String.eqb_eq in He; destruct x; simpl in *; now subst.
Qed.

(** Inversion of a [bind] that succeeded. *)
Lemma bind_Ok {A B : Type} (r : result A) (k : A -> result B) (b : B) :
  bind r k = Ok b -> exists a, r = Ok a /\ k a = Ok b.
Proof. destruct r as [a|e]; simpl; [eauto | discriminate]. Qed.

Ltac bind_inv H :=
  let a := fresh "v" in
  let Ha := fresh "E" in
  apply bind_Ok in H; destruct H as [a [Ha H]].

Ltac ok_inv H := inversion H; subst; clear H.

(** ** Numeric columns *)

Lemma as_floats_Ok (s : Series) (xs : list float) :
  as_floats s = Ok xs -> map number_of s = map Some xs.
Proof.
  revert xs; induction s as [|c s IH]; simpl; intros xs H.
  - now ok_inv H.
  - destruct c; try discriminate;
      bind_inv H; ok_inv H; simpl; now rewrite (IH _ E).
Qed.


Lemma as_floats_length (s : Series) (xs : list float) :
  as_floats s = Ok xs -> length xs = length s.
Proof.
  intros H; apply as_floats_Ok in H.
  apply (f_equal (@length _)) in H; now rewrite !length_map in H.
Qed.



Lemma length_map2 {A B C : Type} (f : A -> B -> C) (xs : list A) (ys : list B) :
  length (map2 f xs ys) = Nat.min (length xs) (length ys).
Proof.
  revert ys; induction xs as [|a xs IH]; intros [|b ys]; simpl; auto.
Qed.

Lemma nth_error_map_Num (xs : list float) (i : nat) (x : float) :
  nth_error (map Num xs) i = Some (Num x) -> nth_error xs i = Some x.
Proof.
  rewrite nth_error_map; destruct (nth_error xs i); simpl; congruence.
Qed.

(** The difference of two columns, row by row. *)
Lemma series_sub_nth (a b d : Series) :
  series_sub a b = Ok d ->
  length d = Nat.min (length a) (length b) /\
  forall i x y, nth_error a i = Some x -> nth_error b i = Some y ->
    exists c, cell_sub x y = Ok c /\ nth_error d i = Some c.
Proof.
  revert b d; induction a as [|x a IH]; intros [|y b] d H; simpl in H;
    try (ok_inv H; split; [reflexivity|]; intros [|i] ? ? ? ?; discriminate).
  bind_inv H; rename v into c, E into Hc.
  bind_inv H; rename v into ds, E into Hds.
  ok_inv H; destruct (IH _ _ Hds) as [Hlen Hrows]; split.
  - simpl; now rewrite Hlen.
  - intros [|i] x' y' Hx Hy; simpl in *.
    + inversion Hx; inversion Hy; subst; eauto.
    + now apply Hrows.
Qed.

Lemma series_sub_numbers (a b : Series) (xs ys : list float) :
  as_floats a = Ok xs -> as_floats b = Ok ys ->
  exists d, series_sub a b = Ok d.
Proof.
  revert b xs ys; induction a as [|x a IH]; intros [|y b] xs ys Ha Hb;
    simpl; eauto.
  simpl in Ha, Hb.
  assert (Hx : exists u us, number_of x = Some u /\ as_floats a = Ok us)
    by (destruct x; try discriminate; bind_inv Ha; simpl; eauto).
  assert (Hy : exists v vs, number_of y = Some v /\ as_floats b = Ok vs)
    by (destruct y; try discriminate; bind_inv Hb; simpl; eauto).
  destruct Hx as [u [us [Hu Hus]]], Hy as [v [vs [Hv Hvs]]].
  destruct (IH _ _ _ Hus Hvs) as [d Hd]; rewrite Hd.
  assert (Hc : exists c, cell_sub x y = Ok c).
  { unfold cell_sub; rewrite Hu, Hv.
    destruct x; try discriminate; destruct y; try discriminate; eauto. }
  destruct Hc as [c ->]; simpl; eauto.
Qed.

Lemma series_sub_map_Num (xs ys : list float) :
  series_sub (map Num xs) (map Num ys)
  = Ok (map Num (map2 PrimFloat.sub xs ys)).
Proof.
  revert ys; induction xs as [|x xs IH]; intros [|y ys]; simpl;
    try reflexivity.
  now rewrite IH.
Qed.

(** In the range of int64 nothing wraps. *)
Lemma wrap64_small (z : Z) :
  (- 2 ^ 63 <= z < 2 ^ 63)%Z -> wrap64 z = z.
Proof.
  unfold wrap64; intros H.
  change (2 ^ 64)%Z with (2 * 2 ^ 63)%Z.
  rewrite Z.mod_small; lia.
Qed.

(** ** The columns carrying a label *)

Lemma In_labelled (df : DataFrame) (c : string) (v : Series) :
  In (c, v) (cols df) <-> In (c, v) (labelled df c).
Proof.
  unfold labelled; rewrite filter_In; simpl.
  rewrite String.eqb_refl; tauto.
Qed.

Lemma has_column_labelled (df : DataFrame) (c : string) :
  has_column c df = match labelled df c with [] => false | _ => true end.
Proof.
  unfold has_column, columns, labelled.
  induction (cols df) as [|x l IH]; simpl; [reflexivity|].
  destruct (String.eqb c (fst x)); simpl; [reflexivity | exact IH].
Qed.

Lemma getitem_has_column (df : DataFrame) (c : string) (s : Series) :
  getitem df c = Ok s -> has_column c df = true.
Proof.
  rewrite has_column_labelled; unfold getitem.
  destruct (labelled df c); [discriminate | reflexivity].
Qed.

Lemma labelled_setitem_same (df : DataFrame) (c : string) (s : Series) :
  forall x, In x (labelled (setitem df c s) c) -> x = (c, s).
Proof.
  intros [c' v] H.
  assert (c' = c).
  { unfold labelled in H; apply filter_In in H; destruct H as [_ H].
    apply String.eqb_eq in H; now subst. }
  subst c'; apply In_labelled in H.
  now rewrite (In_setitem_same _ _ _ _ H).
Qed.

Lemma has_column_same_labelled (d d' : DataFrame) (c : string) :
  labelled d' c = labelled d c -> has_column c d' = has_column c d.
Proof. intros H; now rewrite !has_column_labelled, H. Qed.

Lemma getitem_same_labelled (d d' : DataFrame) (c : string) :
  labelled d' c = labelled d c -> getitem d' c = getitem d c.
Proof. intros H; unfold getitem; now rewrite H. Qed.

Section DerivedFeatures.

Variable L : PandasLib.

(** Each block of [add_derived_features] leaves alone the columns under
    every label but its own targets. *)
Lemma add_shipping_delay_frame (d d' : DataFrame) (c : string) :
  add_shipping_delay d = Ok d' -> c <> "shipping_delay_days" ->
  labelled d' c = labelled d c.
Proof.
  unfold add_shipping_delay; intros H Hc.
  destruct (_ && _).
  - repeat bind_inv H; ok_inv H. now apply labelled_setitem_other.
  - now ok_inv H.
Qed.

Lemma add_order_calendar_frame (d d' : DataFrame) (c : string) :
  add_order_calendar L d = Ok d' ->
  c <> "order_month" -> c <> "order_year" -> c <> "order_day_of_week" ->
  labelled d' c = labelled d c.
Proof.
  unfold add_order_calendar; intros H H1 H2 H3.
  destruct (has_column _ d).
  - repeat bind_inv H; ok_inv H.
    now rewrite !labelled_setitem_other.
  - now ok_inv H.
Qed.

Lemma add_profit_margin_frame (d d' : DataFrame) (c : string) :
  add_profit_margin d = Ok d' -> c <> "profit_margin_pct" ->
  labelled d' c = labelled d c.
Proof.
  unfold add_profit_margin; intros H Hc.
  destruct (_ && _).
  - repeat bind_inv H; ok_inv H. now apply labelled_setitem_other.
  - now ok_inv H.
Qed.

Lemma add_derived_features_steps (df df' : DataFrame) :
  add_derived_features L df = Ok df' ->
  exists d1 d2,
    add_shipping_delay df = Ok d1 /\
    add_order_calendar L d1 = Ok d2 /\
    add_profit_margin d2 = Ok df'.
Proof.
  unfold add_derived_features, copy; intros H.
  repeat bind_inv H; ok_inv H; eauto.
Qed.

(** When [add_derived_features] returns: on every frame whose source
    columns hold what the computations accept. *)
Lemma as_floats_numeric (s : Series) :
  forallb is_num s || forallb is_int s = true ->
  exists xs, as_floats s = Ok xs.
Proof.
  intros H.
  assert (Hn : forallb (fun c => is_num c || is_int c) s = true).
  { apply forallb_forall; intros c Hc.
    apply orb_prop in H; destruct H as [H|H];
      rewrite forallb_forall in H; rewrite (H c Hc);
      [reflexivity | apply orb_true_r]. }
  clear H; induction s as [|c s IH]; simpl; [eauto|].
  simpl in Hn; apply andb_prop in Hn; destruct Hn as [Hc Hs].
  destruct (IH Hs) as [xs ->].
  destruct c; try discriminate; simpl; eauto.
Qed.

Lemma as_datetimes_datetime (s : Series) :
  forallb is_datetime s = true -> exists ts, as_datetimes s = Ok ts.
Proof.
  induction s as [|c s IH]; simpl; [eauto|].
  intros H; apply andb_prop in H; destruct H as [Hc Hs].
  destruct c; try discriminate; destruct (IH Hs) as [ts ->]; simpl; eauto.
Qed.

Lemma numeric_column_Ok (df : DataFrame) (c : string) :
  numeric_column df c = true ->
  exists s xs, getitem df c = Ok s /\ as_floats s = Ok xs.
Proof.
  unfold numeric_column; destruct (getitem df c) as [s|]; [|discriminate].
  intros H; destruct (as_floats_numeric s H) as [xs Hx]; eauto.
Qed.

Lemma datetime_column_Ok (df : DataFrame) (c : string) :
  datetime_column df c = true ->
  exists s ts, getitem df c = Ok s /\ as_datetimes s = Ok ts.
Proof.
  unfold datetime_column; destruct (getitem df c) as [s|]; [|discriminate].
  intros H; destruct (as_datetimes_datetime s H) as [ts Hx]; eauto.
Qed.

Lemma add_shipping_delay_returns (d : DataFrame) :
  (has_column "days_for_shipping_real" d
   && has_column "days_for_shipment_scheduled" d = true ->
   numeric_column d "days_for_shipping_real"
   && numeric_column d "days_for_shipment_scheduled" = true) ->
  exists d1, add_shipping_delay d = Ok d1.
Proof.
  intros H; unfold add_shipping_delay.
  destruct (_ && _); [|eauto].
  apply andb_prop in H; [|reflexivity]; destruct H as [Hr Hs].
  destruct (numeric_column_Ok _ _ Hr) as [r [xs [Gr Fr]]].
  destruct (numeric_column_Ok _ _ Hs) as [s [ys [Gs Fs]]].
  rewrite Gr, Gs; simpl.
  destruct (series_sub_numbers _ _ _ _ Fr Fs) as [delay ->]; simpl; eauto.
Qed.

Lemma add_order_calendar_returns (d : DataFrame) :
  (has_column "order_date_dateorders" d = true ->
   datetime_column d "order_date_dateorders" = true) ->
  exists d2, add_order_calendar L d = Ok d2.
Proof.
  intros H; unfold add_order_calendar.
  destruct (has_column _ d); [|eauto].
  destruct (datetime_column_Ok _ _ (H eq_refl)) as [s [ts [G F]]].
  rewrite G; simpl; rewrite F; simpl.
  rewrite getitem_setitem_other, G by discriminate; simpl; rewrite F; simpl.
  rewrite getitem_setitem_other by discriminate.
  rewrite getitem_setitem_other, G by discriminate; simpl; rewrite F; simpl.
  eauto.
Qed.

Lemma add_profit_margin_returns (d : DataFrame) :
  (has_column "order_profit_per_order" d && has_column "sales" d = true ->
   numeric_column d "order_profit_per_order" && numeric_column d "sales"
   = true) ->
  exists d3, add_profit_margin d = Ok d3.
Proof.
  intros H; unfold add_profit_margin.
  destruct (_ && _); [|eauto].
  apply andb_prop in H; [|reflexivity]; destruct H as [Hp Hs].
  destruct (numeric_column_Ok _ _ Hp) as [p [ps [Gp Fp]]].
  destruct (numeric_column_Ok _ _ Hs) as [s [ss [Gs Fs]]].
  rewrite Gs; simpl; rewrite Gp; simpl.
  unfold series_truediv; rewrite Fp, Fs; simpl; eauto.
Qed.

Lemma add_derived_features_returns (df : DataFrame) :
  derivable df = true -> exists df', add_derived_features L df = Ok df'.
Proof.
  unfold derivable; intros H.
  apply andb_prop in H; destruct H as [H H3].
  apply andb_prop in H; destruct H as [H1 H2].
  unfold add_derived_features, copy.
  destruct (add_shipping_delay_returns df) as [d1 S1].
  { intros Hc; now rewrite Hc in H1. }
  assert (K1 : forall c, c <> "shipping_delay_days" ->
                         labelled d1 c = labelled df c)
    by (intros c Hc; now apply add_shipping_delay_frame).
  destruct (add_order_calendar_returns d1) as [d2 S2].
  { unfold datetime_column.
    rewrite (has_column_same_labelled df), (getitem_same_labelled df)
      by (apply K1; discriminate).
    intros Hc; now rewrite Hc in H2. }
  assert (K2 : forall c, c <> "shipping_delay_days" -> c <> "order_month" ->
                         c <> "order_year" -> c <> "order_day_of_week" ->
                         labelled d2 c = labelled df c).
  { intros c ? ? ? ?.
    rewrite (add_order_calendar_frame _ _ c S2) by assumption; now apply K1. }
  destruct (add_profit_margin_returns d2) as [d3 S3].
  { unfold numeric_column.
    rewrite (has_column_same_labelled df d2 "order_profit_per_order"),
      (has_column_same_labelled df d2 "sales"),
      (getitem_same_labelled df d2 "order_profit_per_order"),
      (getitem_same_labelled df d2 "sales")
      by (apply K2; discriminate).
    intros Hc; now rewrite Hc in H3. }
  rewrite S1; simpl; rewrite S2; simpl; rewrite S3; simpl; eauto.
Qed.

(** C8 (amended): for every table in which both
    [days_for_shipping_real] and [days_for_shipment_scheduled] exist, the
    table that [add_derived_features] returns keeps both columns as they
    were and has a column [shipping_delay_days] with one cell for every row
    of the two; in every row where both source cells are numbers, the cell
    of the row holds the real days minus the scheduled days in the
    arithmetic of the two cells: for two int64 cells the 64-bit difference,
    which is the difference itself whenever that lies in the range of int64
    and wraps around otherwise; for two float64 cells the float64
    difference (nan where one of them is nan); for an int64 and a float64
    cell the float64 difference after the conversion of the integer.
    [add_derived_features] returns a table for every table with at least
    one row, columns as long as its index and source columns of numbers,
    respectively timestamps ([derivable]). *)
Theorem shipping_delay_days_is_difference (df : DataFrame) :
  has_column "days_for_shipping_real" df = true ->
  has_column "days_for_shipment_scheduled" df = true ->
  (wf df -> nrows df <> 0 -> derivable df = true ->
   exists df', add_derived_features L df = Ok df') /\
  (forall z, (- 2 ^ 63 <= z < 2 ^ 63)%Z -> wrap64 z = z) /\
  forall df', add_derived_features L df = Ok df' ->
  exists real scheduled,
    getitem df "days_for_shipping_real" = Ok real /\
    getitem df "days_for_shipment_scheduled" = Ok scheduled /\
    getitem df' "days_for_shipping_real" = Ok real /\
    getitem df' "days_for_shipment_scheduled" = Ok scheduled /\
    has_column "shipping_delay_days" df' = true /\
    forall delay, In ("shipping_delay_days", delay) (cols df') ->
      length delay = Nat.min (length real) (length scheduled) /\
      forall i a b,
        nth_error real i = Some a ->
        nth_error scheduled i = Some b ->
        match a, b with
        | Int m, Int n => nth_error delay i = Some (Int (wrap64 (m - n)))
        | Num x, Num y => nth_error delay i = Some (Num (x - y)%float)
        | Int m, Num y =>
            nth_error delay i = Some (Num (float_of_int m - y)%float)
        | Num x, Int n =>
            nth_error delay i = Some (Num (x - float_of_int n)%float)
        | _, _ => True
        end.
Proof.
  intros Hr Hs; split; [intros _ _; apply add_derived_features_returns|].
  split; [apply wrap64_small|].
  intros df' H.
  destruct (add_derived_features_steps _ _ H) as [d1 [d2 [S1 [S2 S3]]]].
  assert (K : forall c, c <> "order_month" ->
                c <> "order_year" -> c <> "order_day_of_week" ->
                c <> "profit_margin_pct" ->
                labelled df' c = labelled d1 c).
  { intros c ? ? ? ?.
    rewrite (add_profit_margin_frame _ _ c S3) by assumption.
    now rewrite (add_order_calendar_frame _ _ c S2). }
  pose proof S1 as S1'.
  unfold add_shipping_delay in S1; rewrite Hr, Hs in S1; simpl in S1.
  bind_inv S1; rename v into real, E into Greal.
  bind_inv S1; rename v into scheduled, E into Gsched.
  bind_inv S1; rename v into delay, E into Gdelay.
  ok_inv S1.
  destruct (series_sub_nth _ _ _ Gdelay) as [Hlen Hrows].
  exists real, scheduled.
  split; [exact Greal | split; [exact Gsched|]].
  split.
  { unfold getitem; rewrite K by discriminate.
    rewrite (add_shipping_delay_frame _ _ _ S1') by discriminate.
    exact Greal. }
  split.
  { unfold getitem; rewrite K by discriminate.
    rewrite (add_shipping_delay_frame _ _ _ S1') by discriminate.
    exact Gsched. }
  split.
  { rewrite has_column_labelled, K by discriminate.
    rewrite <- has_column_labelled; apply has_column_setitem_same. }
  intros d Hd.
  apply In_labelled in Hd; rewrite K in Hd by discriminate.
  apply labelled_setitem_same in Hd; inversion Hd; subst d.
  split; [exact Hlen|].
  intros i a b Ha Hb.
  destruct (Hrows i a b Ha Hb) as [c [Hc Hi]].
  unfold cell_sub in Hc.
  destruct a, b; try exact I; simpl in Hc; ok_inv Hc; exact Hi.
Qed.


End DerivedFeatures.

Lemma shipping_delay_days_small_orders :
  (has_column "days_for_shipping_real" int_orders = true /\
   has_column "days_for_shipment_scheduled" int_orders = true /\
   wf int_orders /\ nrows int_orders <> 0 /\ derivable int_orders = true /\
   exists df',
     add_derived_features IsoLib.lib int_orders = Ok df' /\
     exists real scheduled,
       getitem int_orders "days_for_shipping_real" = Ok real /\
       getitem int_orders "days_for_shipment_scheduled" = Ok scheduled /\
       getitem df' "days_for_shipping_real" = Ok real /\
       getitem df' "days_for_shipment_scheduled" = Ok scheduled /\
       has_column "shipping_delay_days" df' = true /\
       forall delay, In ("shipping_delay_days", delay) (cols df') ->
         length delay = Nat.min (length real) (length scheduled) /\
         forall i a b,
           nth_error real i = Some a ->
           nth_error scheduled i = Some b ->
           match a, b with
           | Int m, Int n => nth_error delay i = Some (Int (wrap64 (m - n)))
           | Num x, Num y => nth_error delay i = Some (Num (x - y)%float)
           | Int m, Num y =>
               nth_error delay i = Some (Num (float_of_int m - y)%float)
           | Num x, Int n =>
               nth_error delay i = Some (Num (x - float_of_int n)%float)
           | _, _ => True
           end) /\
  (has_column "days_for_shipping_real" small_orders = true /\
   has_column "days_for_shipment_scheduled" small_orders = true /\
   exists df',
     add_derived_features IsoLib.lib small_orders = Ok df' /\
     getitem df' "shipping_delay_days"
     = Ok [Num 0%float; Num (-1)%float; Num 1%float; Num nan]).
Proof.
  split.
  - assert (Hwf : wf int_orders) by (repeat constructor).
    assert (Hn : nrows int_orders <> 0) by discriminate.
    split; [reflexivity|]; split; [reflexivity|].
    split; [exact Hwf|]; split; [exact Hn|]; split; [reflexivity|].
    destruct (shipping_delay_days_is_difference IsoLib.lib int_orders
                eq_refl eq_refl) as [Hreturns [_ Hrows]].
    destruct (Hreturns Hwf Hn eq_refl) as [df' Hdf'].
    exists df'; split; [exact Hdf' | exact (Hrows df' Hdf')].
  - split; [reflexivity|]; split; [reflexivity|].
    eexists; split; vm_compute; reflexivity.
Defined.

(** C8, as stated, fails at the edge of int64: the real days
    -9223372036854775808 minus the scheduled day 1 are not
    -9223372036854775809 in the table that [add_derived_features] returns,
    but 9223372036854775807. *)
Lemma shipping_delay_wraps_around :
  getitem edge_orders "days_for_shipping_real"
  = Ok [Int (-9223372036854775808); Int 3] /\
  getitem edge_orders "days_for_shipment_scheduled" = Ok [Int 1; Int 4] /\
  (-9223372036854775808 - 1 = -9223372036854775809)%Z /\
  exists df',
    add_derived_features IsoLib.lib edge_orders = Ok df' /\
    getitem df' "shipping_delay_days"
    = Ok [Int 9223372036854775807; Int (-1)].
Proof.
  split; [reflexivity|]; split; [reflexivity|]; split; [reflexivity|].
  eexists; split; vm_compute; reflexivity.
Qed.


(** ** Dropping the PII columns, and the missing-value audit *)

Lemma find_filter_none {A : Type} (p : A -> bool) (l : list A) :
  find (fun x => negb (p x)) (filter p l) = None.
Proof.
  induction l as [|x l IH]; simpl; [reflexivity|].
  destruct (p x) eqn:E; simpl; [now rewrite E | exact IH].
Qed.

Lemma existsb_eqb_In (c : string) (l : list string) :
  existsb (String.eqb c) l = true <-> In c l.
Proof.
  rewrite existsb_exists; split.
  - intros [x [Hx He]]; apply String.eqb_eq in He; now subst.
  - intros H; exists c; split; [exact H | apply String.eqb_refl].
Qed.

Lemma drop_redundant_columns_Ok (df : DataFrame) :
  drop_redundant_columns df
  = Ok (mkDataFrame (nrows df)
          (filter (fun c => negb (existsb (String.eqb (fst c)) cols_to_drop))
                  (cols df))).
Proof.
  unfold drop_redundant_columns, drop.
  rewrite find_filter_none; do 2 f_equal.
  apply filter_ext_in; intros x Hx; f_equal.
  apply eq_true_iff_eq; rewrite !existsb_eqb_In, filter_In, has_column_In.
  split; [tauto|]; intros H; split; [exact H|].
  unfold columns; now apply in_map.
Qed.

Lemma filter_labels_absent (df : DataFrame) (p : string -> bool) (c : string) :
  p c = false ->
  has_column c (mkDataFrame (nrows df) (filter (fun x => p (fst x)) (cols df)))
  = false.
Proof.
  intros Hp; apply not_true_is_false; intros H.
  apply has_column_In in H; unfold columns in H; simpl in H.
  apply in_map_iff in H; destruct H as [x [Hx Hin]].
  apply filter_In in Hin; destruct Hin as [_ Hpx].
  subst c; congruence.
Qed.


(** C10: [handle_missing_values] is a pure diagnostic: the table it
    returns is its input, with the same columns, the same rows in the same
    order and the same cell values. *)
Theorem handle_missing_values_identity (df : DataFrame) :
  handle_missing_values df = df.
Proof. reflexivity. Qed.

(** C2 (the code departs from it): on a table without rows, such as a file
    with a header line only, [remove_duplicates] raises
    [ZeroDivisionError] when it formats the share of removed rows, and so
    does the whole pipeline, whatever the library does. *)
Theorem remove_duplicates_raises_on_no_rows :
  remove_duplicates header_only = Err ZeroDivisionError /\
  forall L, run_full_cleaning_pipeline L header_only = Err ZeroDivisionError.
Proof. split; [reflexivity | intros L; reflexivity]. Qed.

Lemma remove_duplicates_no_rows (df : DataFrame) :
  nrows df = 0 -> remove_duplicates df = Err ZeroDivisionError.
Proof.
  intros H; unfold remove_duplicates, py_truediv, len; now rewrite H.
Qed.

(** ** The guards of the feature-engineering functions *)

Section FeatureGuards.

Variable L : PandasLib.

Lemma flag_high_discount_frame (d d' : DataFrame) (c : string) :
  flag_high_discount L d = Ok d' -> c <> "is_high_discount" ->
  labelled d' c = labelled d c.
Proof.
  unfold flag_high_discount; intros H Hc; destruct (has_column _ d).
  - repeat bind_inv H; ok_inv H; now apply labelled_setitem_other.
  - now ok_inv H.
Qed.

Lemma flag_bulk_order_frame (d d' : DataFrame) (c : string) :
  flag_bulk_order d = Ok d' -> c <> "is_bulk_order" ->
  labelled d' c = labelled d c.
Proof.
  unfold flag_bulk_order; intros H Hc; destruct (has_column _ d).
  - repeat bind_inv H; ok_inv H; now apply labelled_setitem_other.
  - now ok_inv H.
Qed.

Lemma flag_weekend_order_frame (d d' : DataFrame) (c : string) :
  flag_weekend_order d = Ok d' -> c <> "is_weekend_order" ->
  labelled d' c = labelled d c.
Proof.
  unfold flag_weekend_order; intros H Hc; destruct (has_column _ d).
  - repeat bind_inv H; ok_inv H; now apply labelled_setitem_other.
  - now ok_inv H.
Qed.

Lemma bucket_order_value_frame (d d' : DataFrame) (c : string) :
  bucket_order_value L d = Ok d' -> c <> "order_value_bucket" ->
  labelled d' c = labelled d c.
Proof.
  unfold bucket_order_value; intros H Hc.
  repeat bind_inv H; ok_inv H; now apply labelled_setitem_other.
Qed.

Lemma flag_extreme_margin_frame (d d' : DataFrame) (c : string) :
  flag_extreme_margin L d = Ok d' -> c <> "extreme_margin" ->
  labelled d' c = labelled d c.
Proof.
  unfold flag_extreme_margin; intros H Hc; destruct (has_column _ d).
  - repeat bind_inv H; ok_inv H; now apply labelled_setitem_other.
  - now ok_inv H.
Qed.

Lemma flag_fast_ship_frame (d d' : DataFrame) (c : string) :
  flag_fast_ship d = Ok d' -> c <> "fast_ship" ->
  labelled d' c = labelled d c.
Proof.
  unfold flag_fast_ship; intros H Hc; destruct (has_column _ d).
  - repeat bind_inv H; ok_inv H; now apply labelled_setitem_other.
  - now ok_inv H.
Qed.

Lemma flag_negative_profit_frame (d d' : DataFrame) (c : string) :
  flag_negative_profit d = Ok d' -> c <> "negative_profit" ->
  labelled d' c = labelled d c.
Proof.
  unfold flag_negative_profit; intros H Hc; destruct (has_column _ d).
  - repeat bind_inv H; ok_inv H; now apply labelled_setitem_other.
  - now ok_inv H.
Qed.

(** The unguarded lookup of [create_delivery_prediction_features]. *)
Lemma delivery_features_need_sales (df : DataFrame) :
  has_column "sales" df = false ->
  create_delivery_prediction_features L df = Err (KeyError "sales").
Proof.
  intros H; unfold create_delivery_prediction_features, copy,
    bucket_order_value, getitem.
  rewrite has_column_labelled in H.
  now destruct (labelled df "sales").
Qed.

(** A feature of [create_delivery_prediction_features] whose
    prerequisite is absent is not written. *)
Lemma delivery_features_skip (df df' : DataFrame) (need feature : string) :
  In (need, feature)
     [ ("order_item_discount", "is_high_discount");
       ("order_item_quantity", "is_bulk_order");
       ("order_day_of_week", "is_weekend_order") ] ->
  has_column need df = false ->
  create_delivery_prediction_features L df = Ok df' ->
  labelled df' feature = labelled df feature.
Proof.
  intros Hin Hneed H.
  unfold create_delivery_prediction_features, copy in H.
  bind_inv H; rename v into d1, E into S1.
  bind_inv H; rename v into d2, E into S2.
  bind_inv H; rename v into d3, E into S3.
  bind_inv H; rename v into d4, E into S4.
  ok_inv H.
  assert (N1 : forall c, c <> "order_value_bucket" ->
                         has_column c d1 = has_column c df)
    by (intros; now apply has_column_same_labelled, bucket_order_value_frame).
  assert (N2 : forall c, c <> "is_high_discount" ->
                         has_column c d2 = has_column c d1)
    by (intros; now apply has_column_same_labelled, flag_high_discount_frame).
  assert (N3 : forall c, c <> "is_bulk_order" ->
                         has_column c d3 = has_column c d2)
    by (intros; now apply has_column_same_labelled, flag_bulk_order_frame).
  simpl in Hin.
  destruct Hin as [Hin|[Hin|[Hin|[]]]]; inversion Hin; subst need feature;
    clear Hin.
  - rewrite (flag_weekend_order_frame _ _ _ S4) by discriminate.
    rewrite (flag_bulk_order_frame _ _ _ S3) by discriminate.
    unfold flag_high_discount in S2.
    rewrite N1, Hneed in S2 by discriminate; ok_inv S2.
    now apply bucket_order_value_frame.
  - rewrite (flag_weekend_order_frame _ _ _ S4) by discriminate.
    unfold flag_bulk_order in S3.
    rewrite N2, N1, Hneed in S3 by discriminate; ok_inv S3.
    rewrite (flag_high_discount_frame _ _ _ S2) by discriminate.
    now apply bucket_order_value_frame.
  - unfold flag_weekend_order in S4.
    rewrite N3, N2, N1, Hneed in S4 by discriminate; ok_inv S4.
    rewrite (flag_bulk_order_frame _ _ _ S3) by discriminate.
    rewrite (flag_high_discount_frame _ _ _ S2) by discriminate.
    now apply bucket_order_value_frame.
Qed.

(** A feature of [create_fraud_detection_features] whose prerequisite
    is absent is not written. *)
Lemma fraud_features_skip (df df' : DataFrame) (need feature : string) :
  In (need, feature)
     [ ("profit_margin_pct", "extreme_margin");
       ("days_for_shipping_real", "fast_ship");
       ("order_profit_per_order", "negative_profit") ] ->
  has_column need df = false ->
  create_fraud_detection_features L df = Ok df' ->
  labelled df' feature = labelled df feature.
Proof.
  intros Hin Hneed H.
  unfold create_fraud_detection_features, copy in H.
  bind_inv H; rename v into d1, E into S1.
  bind_inv H; rename v into d2, E into S2.
  bind_inv H; rename v into d3, E into S3.
  ok_inv H.
  assert (N1 : forall c, c <> "extreme_margin" ->
                         has_column c d1 = has_column c df)
    by (intros; now apply has_column_same_labelled, flag_extreme_margin_frame).
  assert (N2 : forall c, c <> "fast_ship" ->
                         has_column c d2 = has_column c d1)
    by (intros; now apply has_column_same_labelled, flag_fast_ship_frame).
  simpl in Hin.
  destruct Hin as [Hin|[Hin|[Hin|[]]]]; inversion Hin; subst need feature;
    clear Hin.
  - rewrite (flag_negative_profit_frame _ _ _ S3) by discriminate.
    rewrite (flag_fast_ship_frame _ _ _ S2) by discriminate.
    unfold flag_extreme_margin in S1; rewrite Hneed in S1; now ok_inv S1.
  - rewrite (flag_negative_profit_frame _ _ _ S3) by discriminate.
    unfold flag_fast_ship in S2.
    rewrite N1, Hneed in S2 by discriminate; ok_inv S2.
    now apply flag_extreme_margin_frame.
  - unfold flag_negative_profit in S3.
    rewrite N2, N1, Hneed in S3 by discriminate; ok_inv S3.
    rewrite (flag_fast_ship_frame _ _ _ S2) by discriminate.
    now apply flag_extreme_margin_frame.
Qed.

(** With none of its three prerequisites,
    [create_fraud_detection_features] returns the frame as it came. *)
Lemma fraud_features_nothing_to_do (df : DataFrame) :
  has_column "profit_margin_pct" df = false ->
  has_column "days_for_shipping_real" df = false ->
  has_column "order_profit_per_order" df = false ->
  create_fraud_detection_features L df = Ok df.
Proof.
  intros H1 H2 H3.
  unfold create_fraud_detection_features, copy, flag_extreme_margin,
    flag_fast_ship, flag_negative_profit.
  rewrite H1; simpl; rewrite H2; simpl; rewrite H3; reflexivity.
Qed.

(** A guarded step whose prerequisite is absent hands the frame on. *)
Lemma bind_ret {A : Type} (r : result A) : (x <- r ;; Ok x) = r.
Proof. now destruct r. Qed.

Lemma delivery_skips_discount (df : DataFrame) :
  has_column "order_item_discount" df = false ->
  create_delivery_prediction_features L df
  = (d <- bucket_order_value L df ;; d <- flag_bulk_order d ;;
     flag_weekend_order d).
Proof.
  intros Hn; unfold create_delivery_prediction_features, copy.
  destruct (bucket_order_value L df) as [d1|e] eqn:S1; simpl; [|reflexivity].
  assert (H1 : has_column "order_item_discount" d1 = false).
  { rewrite (has_column_same_labelled df); [exact Hn|].
    now apply bucket_order_value_frame. }
  unfold flag_high_discount at 1; rewrite H1; simpl.
  destruct (flag_bulk_order d1) as [d3|e]; simpl; [|reflexivity].
  apply bind_ret.
Qed.

Lemma delivery_skips_quantity (df : DataFrame) :
  has_column "order_item_quantity" df = false ->
  create_delivery_prediction_features L df
  = (d <- bucket_order_value L df ;; d <- flag_high_discount L d ;;
     flag_weekend_order d).
Proof.
  intros Hn; unfold create_delivery_prediction_features, copy.
  destruct (bucket_order_value L df) as [d1|e] eqn:S1; simpl; [|reflexivity].
  destruct (flag_high_discount L d1) as [d2|e] eqn:S2; simpl; [|reflexivity].
  assert (H2 : has_column "order_item_quantity" d2 = false).
  { rewrite (has_column_same_labelled df); [exact Hn|].
    rewrite (flag_high_discount_frame _ _ _ S2) by discriminate.
    now apply bucket_order_value_frame. }
  unfold flag_bulk_order at 1; rewrite H2; simpl.
  apply bind_ret.
Qed.

Lemma delivery_skips_day (df : DataFrame) :
  has_column "order_day_of_week" df = false ->
  create_delivery_prediction_features L df
  = (d <- bucket_order_value L df ;; d <- flag_high_discount L d ;;
     flag_bulk_order d).
Proof.
  intros Hn; unfold create_delivery_prediction_features, copy.
  destruct (bucket_order_value L df) as [d1|e] eqn:S1; simpl; [|reflexivity].
  destruct (flag_high_discount L d1) as [d2|e] eqn:S2; simpl; [|reflexivity].
  destruct (flag_bulk_order d2) as [d3|e] eqn:S3; simpl; [|reflexivity].
  assert (H3 : has_column "order_day_of_week" d3 = false).
  { rewrite (has_column_same_labelled df); [exact Hn|].
    rewrite (flag_bulk_order_frame _ _ _ S3) by discriminate.
    rewrite (flag_high_discount_frame _ _ _ S2) by discriminate.
    now apply bucket_order_value_frame. }
  unfold flag_weekend_order; now rewrite H3.
Qed.

Lemma fraud_skips_margin (df : DataFrame) :
  has_column "profit_margin_pct" df = false ->
  create_fraud_detection_features L df
  = (d <- flag_fast_ship df ;; flag_negative_profit d).
Proof.
  intros Hn; unfold create_fraud_detection_features, copy.
  unfold flag_extreme_margin; rewrite Hn; simpl.
  destruct (flag_fast_ship df) as [d2|e]; simpl; [|reflexivity].
  apply bind_ret.
Qed.

Lemma fraud_skips_days (df : DataFrame) :
  has_column "days_for_shipping_real" df = false ->
  create_fraud_detection_features L df
  = (d <- flag_extreme_margin L df ;; flag_negative_profit d).
Proof.
  intros Hn; unfold create_fraud_detection_features, copy.
  destruct (flag_extreme_margin L df) as [d1|e] eqn:S1; simpl; [|reflexivity].
  assert (H1 : has_column "days_for_shipping_real" d1 = false).
  { rewrite (has_column_same_labelled df); [exact Hn|].
    now apply flag_extreme_margin_frame. }
  unfold flag_fast_ship at 1; rewrite H1; simpl.
  apply bind_ret.
Qed.

Lemma fraud_skips_profit (df : DataFrame) :
  has_column "order_profit_per_order" df = false ->
  create_fraud_detection_features L df
  = (d <- flag_extreme_margin L df ;; flag_fast_ship d).
Proof.
  intros Hn; unfold create_fraud_detection_features, copy.
  destruct (flag_extreme_margin L df) as [d1|e] eqn:S1; simpl; [|reflexivity].
  destruct (flag_fast_ship d1) as [d2|e] eqn:S2; simpl; [|reflexivity].
  assert (H2 : has_column "order_profit_per_order" d2 = false).
  { rewrite (has_column_same_labelled df); [exact Hn|].
    rewrite (flag_fast_ship_frame _ _ _ S2) by discriminate.
    now apply flag_extreme_margin_frame. }
  unfold flag_negative_profit; now rewrite H2.
Qed.

(** With [sales] alone of the four source columns,
    [create_delivery_prediction_features] is its first step. *)
Lemma delivery_features_bucket_only (df : DataFrame) :
  has_column "order_item_discount" df = false ->
  has_column "order_item_quantity" df = false ->
  has_column "order_day_of_week" df = false ->
  create_delivery_prediction_features L df = bucket_order_value L df.
Proof.
  intros H1 H2 H3; rewrite (delivery_skips_discount _ H1).
  destruct (bucket_order_value L df) as [d1|e] eqn:S1; simpl; [|reflexivity].
  assert (K : forall c, c <> "order_value_bucket" ->
                        has_column c d1 = has_column c df)
    by (intros; now apply has_column_same_labelled,
                          bucket_order_value_frame).
  unfold flag_bulk_order, flag_weekend_order.
  rewrite K, H2 by discriminate; simpl.
  now rewrite K, H3 by discriminate.
Qed.

(** C9 (amended): only the lookup of [sales] in
    [create_delivery_prediction_features] is unguarded: without that column
    the function ends with the library's [KeyError].  Every other derived
    feature of the two functions is guarded by an existence check: when its
    prerequisite column is missing, no error is raised for it and the
    feature is skipped.  The function then does exactly what its other
    steps do, in their order; the columns under the feature's label are
    those of the input; with none of its prerequisites,
    [create_fraud_detection_features] returns its input, and with [sales]
    alone [create_delivery_prediction_features] only writes the bucket. *)
Theorem feature_functions_guards (df : DataFrame) :
  (has_column "sales" df = false ->
   create_delivery_prediction_features L df = Err (KeyError "sales")) /\
  (forall need feature df',
     In (need, feature)
        [ ("order_item_discount", "is_high_discount");
          ("order_item_quantity", "is_bulk_order");
          ("order_day_of_week", "is_weekend_order") ] ->
     has_column need df = false ->
     create_delivery_prediction_features L df = Ok df' ->
     labelled df' feature = labelled df feature) /\
  (forall need feature df',
     In (need, feature)
        [ ("profit_margin_pct", "extreme_margin");
          ("days_for_shipping_real", "fast_ship");
          ("order_profit_per_order", "negative_profit") ] ->
     has_column need df = false ->
     create_fraud_detection_features L df = Ok df' ->
     labelled df' feature = labelled df feature) /\
  (has_column "profit_margin_pct" df = false ->
   has_column "days_for_shipping_real" df = false ->
   has_column "order_profit_per_order" df = false ->
   create_fraud_detection_features L df = Ok df) /\
  (has_column "order_item_discount" df = false ->
   create_delivery_prediction_features L df
   = (d <- bucket_order_value L df ;; d <- flag_bulk_order d ;;
      flag_weekend_order d)) /\
  (has_column "order_item_quantity" df = false ->
   create_delivery_prediction_features L df
   = (d <- bucket_order_value L df ;; d <- flag_high_discount L d ;;
      flag_weekend_order d)) /\
  (has_column "order_day_of_week" df = false ->
   create_delivery_prediction_features L df
   = (d <- bucket_order_value L df ;; d <- flag_high_discount L d ;;
      flag_bulk_order d)) /\
  (has_column "order_item_discount" df = false ->
   has_column "order_item_quantity" df = false ->
   has_column "order_day_of_week" df = false ->
   create_delivery_prediction_features L df = bucket_order_value L df) /\
  (has_column "profit_margin_pct" df = false ->
   create_fraud_detection_features L df
   = (d <- flag_fast_ship df ;; flag_negative_profit d)) /\
  (has_column "days_for_shipping_real" df = false ->
   create_fraud_detection_features L df
   = (d <- flag_extreme_margin L df ;; flag_negative_profit d)) /\
  (has_column "order_profit_per_order" df = false ->
   create_fraud_detection_features L df
   = (d <- flag_extreme_margin L df ;; flag_fast_ship d)).
Proof.
  split; [apply delivery_features_need_sales|].
  split; [intros need feature df'; apply delivery_features_skip|].
  split; [intros need feature df'; apply fraud_features_skip|].
  split; [apply fraud_features_nothing_to_do|].
  split; [apply delivery_skips_discount|].
  split; [apply delivery_skips_quantity|].
  split; [apply delivery_skips_day|].
  split; [apply delivery_features_bucket_only|].
  split; [apply fraud_skips_margin|].
  split; [apply fraud_skips_days | apply fraud_skips_profit].
Qed.

End FeatureGuards.

(** C9, as stated, fails: a frame without [profit_margin_pct] (and
    without the other two prerequisites) goes through
    [create_fraud_detection_features] unchanged and without an error,
    whatever the library does. *)
Lemma fraud_features_skip_silently :
  has_column "profit_margin_pct" header_only = false /\
  forall L, create_fraud_detection_features L header_only = Ok header_only.
Proof. split; [reflexivity | intros L; reflexivity]. Qed.

Lemma feature_functions_guards_small_orders :
  (has_column "sales" two_rows_no_column = false /\
   create_delivery_prediction_features IsoLib.lib two_rows_no_column
   = Err (KeyError "sales")) /\
  (has_column "order_item_discount" small_orders = false /\
   exists df',
     create_delivery_prediction_features IsoLib.lib small_orders = Ok df' /\
     labelled df' "is_high_discount" = labelled small_orders "is_high_discount") /\
  (has_column "profit_margin_pct" small_orders = false /\
   exists df',
     create_fraud_detection_features IsoLib.lib small_orders = Ok df' /\
     labelled df' "extreme_margin" = labelled small_orders "extreme_margin") /\
  (has_column "order_item_discount" small_orders = false /\
   has_column "order_item_quantity" small_orders = false /\
   has_column "order_day_of_week" small_orders = false /\
   exists df',
     bucket_order_value IsoLib.lib small_orders = Ok df' /\
     create_delivery_prediction_features IsoLib.lib small_orders = Ok df') /\
  (has_column "profit_margin_pct" small_orders = false /\
   exists df',
     (d <- flag_fast_ship small_orders ;; flag_negative_profit d) = Ok df' /\
     create_fraud_detection_features IsoLib.lib small_orders = Ok df').
Proof.
  split; [split; [reflexivity|]|].
  { apply (feature_functions_guards IsoLib.lib two_rows_no_column);
      reflexivity. }
  split; [split; [reflexivity|]|].
  { eexists; split; [vm_compute; reflexivity|].
    apply (proj1 (proj2 (feature_functions_guards IsoLib.lib small_orders))
             "order_item_discount"); [simpl; auto | reflexivity | reflexivity]. }
  split; [split; [reflexivity|]|].
  { eexists; split; [vm_compute; reflexivity|].
    apply (proj1 (proj2 (proj2
             (feature_functions_guards IsoLib.lib small_orders)))
             "profit_margin_pct"); [simpl; auto | reflexivity | reflexivity]. }
  split.
  { do 3 (split; [reflexivity|]).
    eexists; split; [vm_compute; reflexivity|].
    rewrite (proj1 (proj2 (proj2 (proj2 (proj2 (proj2 (proj2 (proj2
               (feature_functions_guards IsoLib.lib small_orders))))))))
               eq_refl eq_refl eq_refl).
    vm_compute; reflexivity. }
  split; [reflexivity|].
  eexists; split; [vm_compute; reflexivity|].
  rewrite (proj1 (proj2 (proj2 (proj2 (proj2 (proj2 (proj2 (proj2 (proj2
             (feature_functions_guards IsoLib.lib small_orders)))))))))
             eq_refl).
  vm_compute; reflexivity.
Defined.

(** ** Duplicate values form an equivalence *)

Lemma SFeqb_canon (a b : spec_float) :
  SFeqb a b || (negb (SFeqb a a) && negb (SFeqb b b)) = true
  <-> canon a = canon b.
Proof.
  unfold SFeqb, SFcompare.
  destruct a as [sa|sa| |sa ma ea], b as [sb|sb| |sb mb eb]; simpl;
    rewrite ?Z.compare_refl;
    change PosDef.Pos.compare_cont with Pos.compare_cont;
    fold Pos.compare;
    rewrite ?Pos.compare_refl;
    repeat match goal with s : bool |- _ => destruct s end; simpl;
    try (split; intros H; (discriminate H || congruence || reflexivity)).
  all: destruct (Z.compare_spec ea eb) as [Ez|Ez|Ez],
                (Pos.compare_spec ma mb) as [Ep|Ep|Ep]; simpl;
      split; intros H; try discriminate H; try congruence; try reflexivity;
      inversion H; lia.
Qed.

Lemma float_dup_canon (x y : float) :
  float_dup x y = true <-> canon (Prim2SF x) = canon (Prim2SF y).
Proof.
  unfold float_dup, PrimFloat.is_nan; rewrite !eqb_spec; apply SFeqb_canon.
Qed.

Lemma float_dup_refl (x : float) : float_dup x x = true.
Proof. now apply float_dup_canon. Qed.

Lemma float_dup_sym (x y : float) : float_dup x y = float_dup y x.
Proof.
  apply eq_true_iff_eq; rewrite !float_dup_canon; split; congruence.
Qed.

Lemma float_dup_trans (x y z : float) :
  float_dup x y = true -> float_dup y z = true -> float_dup x z = true.
Proof. rewrite !float_dup_canon; congruence. Qed.

Lemma cell_dup_refl (a : cell) : cell_dup a a = true.
Proof.
  destruct a; simpl; auto using float_dup_refl, String.eqb_refl, Z.eqb_refl.
Qed.

Lemma cell_dup_sym (a b : cell) : cell_dup a b = cell_dup b a.
Proof.
  destruct a, b; simpl; auto using float_dup_sym, String.eqb_sym, Z.eqb_sym.
Qed.

Lemma cell_dup_trans (a b c : cell) :
  cell_dup a b = true -> cell_dup b c = true -> cell_dup a c = true.
Proof.
  destruct a, b; simpl; try discriminate; destruct c; simpl;
    try discriminate; auto.
  - apply float_dup_trans.
  - rewrite !Z.eqb_eq; congruence.
  - rewrite !String.eqb_eq; congruence.
  - rewrite !Z.eqb_eq; congruence.
  - rewrite !Z.eqb_eq; congruence.
Qed.

Lemma same_row_refl (df : DataFrame) (i : nat) : same_row df i i = true.
Proof.
  unfold same_row; apply forallb_forall; intros; apply cell_dup_refl.
Qed.

Lemma same_row_sym (df : DataFrame) (i j : nat) :
  same_row df i j = same_row df j i.
Proof.
  unfold same_row; induction (cols df) as [|c l IH]; simpl; [reflexivity|].
  now rewrite IH, cell_dup_sym.
Qed.

Lemma same_row_trans (df : DataFrame) (i j k : nat) :
  same_row df i j = true -> same_row df j k = true -> same_row df i k = true.
Proof.
  unfold same_row; rewrite !forallb_forall; intros H1 H2 c Hc.
  eapply cell_dup_trans; eauto.
Qed.


(** ** Boolean indexing *)

Lemma select_map {A B : Type} (f : A -> B) (mask : list bool) (xs : list A) :
  select mask (map f xs) = map f (select mask xs).
Proof.
  revert xs; induction mask as [|b mask IH]; intros [|x xs]; simpl; auto.
  destruct b; simpl; now rewrite IH.
Qed.

Lemma length_select {A : Type} (mask : list bool) (xs : list A) :
  length xs = length mask ->
  length (select mask xs) = length (filter (fun b => b) mask).
Proof.
  revert xs; induction mask as [|b mask IH]; intros [|x xs]; simpl;
    try discriminate; auto.
  intros H; injection H as H; destruct b; simpl; now rewrite IH.
Qed.

Lemma length_filter_le {A : Type} (p : A -> bool) (l : list A) :
  length (filter p l) <= length l.
Proof.
  induction l as [|x l IH]; simpl; [lia|]; destruct (p x); simpl; lia.
Qed.


Lemma In_select_seq (mask : list bool) (a i : nat) :
  In i (select mask (seq a (length mask)))
  <-> a <= i < a + length mask /\ nth (i - a) mask false = true.
Proof.
  revert a; induction mask as [|b mask IH]; intros a; simpl.
  - split; [tauto | lia].
  - assert (Hrest : In i (select mask (seq (S a) (length mask)))
                    <-> S a <= i < a + S (length mask)
                        /\ nth (i - a) (b :: mask) false = true).
    { rewrite IH; split; intros [Hr Hn]; (split; [lia|]).
      - replace (i - a) with (S (i - S a)) by lia; exact Hn.
      - replace (i - a) with (S (i - S a)) in Hn by lia; exact Hn. }
    destruct b; simpl In; rewrite Hrest; clear Hrest IH.
    + split.
      * intros [<-|[Hr Hn]]; [|split; [lia | exact Hn]].
        split; [lia|]; now rewrite Nat.sub_diag.
      * intros [Hr Hn].
        destruct (Nat.eq_dec a i) as [->|Hne]; [now left | right].
        split; [lia | exact Hn].
    + split; [intros [Hr Hn]; split; [lia | exact Hn]|].
      intros [Hr Hn].
      destruct (Nat.eq_dec a i) as [->|Hne].
      * rewrite Nat.sub_diag in Hn; discriminate.
      * split; [lia | exact Hn].
Qed.

Lemma select_seq_sorted (mask : list bool) (a : nat) :
  StronglySorted lt (select mask (seq a (length mask))).
Proof.
  revert a; induction mask as [|b mask IH]; intros a; simpl; [constructor|].
  destruct b; [|apply IH].
  constructor; [apply IH|].
  apply Forall_forall; intros i Hi; apply In_select_seq in Hi; lia.
Qed.

Lemma StronglySorted_nth_lt (l : list nat) :
  StronglySorted lt l ->
  forall k1 k2, k1 < k2 -> k2 < length l -> nth k1 l 0 < nth k2 l 0.
Proof.
  induction 1 as [|x l Hs IH Hall]; intros k1 k2 Hk Hlen; simpl in *; [lia|].
  destruct k2 as [|k2]; [lia|].
  destruct k1 as [|k1].
  - rewrite Forall_forall in Hall; apply Hall, nth_In; lia.
  - apply IH; lia.
Qed.

Lemma length_kept_rows (mask : list bool) :
  length (kept_rows mask) = length (filter (fun b => b) mask).
Proof. unfold kept_rows; apply length_select, length_seq. Qed.

Lemma In_kept_rows (mask : list bool) (i : nat) :
  In i (kept_rows mask) <-> i < length mask /\ nth i mask false = true.
Proof.
  unfold kept_rows; rewrite In_select_seq, Nat.sub_0_r; simpl.
  split; intros [H1 H2]; (split; [lia | exact H2]).
Qed.

Lemma kept_rows_lt (mask : list bool) (k1 k2 : nat) :
  k1 < k2 -> k2 < length (kept_rows mask) ->
  nth k1 (kept_rows mask) 0 < nth k2 (kept_rows mask) 0.
Proof. apply StronglySorted_nth_lt, select_seq_sorted. Qed.

Lemma series_as_map (xs : Series) :
  xs = map (cell_at xs) (seq 0 (length xs)).
Proof.
  induction xs as [|x xs IH]; simpl; [reflexivity|].
  f_equal; rewrite <- seq_shift, map_map; exact IH.
Qed.

Lemma select_series (mask : list bool) (xs : Series) :
  length xs = length mask ->
  select mask xs = map (cell_at xs) (kept_rows mask).
Proof.
  intros H; unfold kept_rows; rewrite <- H, <- select_map.
  now rewrite <- series_as_map.
Qed.

Lemma cell_at_select (mask : list bool) (xs : Series) (k : nat) :
  length xs = length mask -> k < length (kept_rows mask) ->
  cell_at (select mask xs) k = cell_at xs (nth k (kept_rows mask) 0).
Proof.
  intros H Hk; rewrite (select_series _ _ H); unfold cell_at at 1.
  rewrite (nth_indep _ _ (cell_at xs 0)) by (now rewrite length_map).
  apply map_nth.
Qed.

Lemma nth_error_cell_at (xs : Series) (i : nat) :
  i < length xs -> nth_error xs i = Some (cell_at xs i).
Proof. intros H; now apply nth_error_nth'. Qed.


(** ** Dropping duplicate rows *)

Lemma empty_false (df : DataFrame) :
  cols df <> [] -> nrows df <> 0 -> empty df = false.
Proof.
  unfold empty; intros Hc Hn.
  destruct (cols df); [contradiction|].
  destruct (nrows df); [contradiction | reflexivity].
Qed.

Lemma length_duplicated (df : DataFrame) :
  empty df = false -> length (duplicated df) = nrows df.
Proof.
  intros H; unfold duplicated; rewrite H.
  now rewrite length_map, length_seq.
Qed.

Lemma keep_mask_nth (df : DataFrame) (i : nat) :
  empty df = false -> i < nrows df ->
  nth i (map negb (duplicated df)) false
  = negb (existsb (fun j => same_row df j i) (seq 0 i)).
Proof.
  intros H Hi; unfold duplicated; rewrite H, map_map.
  rewrite (nth_indep _ _ (negb (existsb (fun j => same_row df j 0) (seq 0 0))))
    by (now rewrite length_map, length_seq).
  rewrite (map_nth (fun i => negb (existsb (fun j => same_row df j i) (seq 0 i)))).
  now rewrite seq_nth.
Qed.

Lemma wf_select_rows (mask : list bool) (df : DataFrame) :
  wf df -> length mask = nrows df -> wf (select_rows mask df).
Proof.
  unfold wf, select_rows; simpl; intros H Hm.
  apply Forall_map; simpl.
  eapply Forall_impl; [|exact H]; simpl; intros c Hc.
  apply length_select; congruence.
Qed.

Lemma same_row_select_rows (mask : list bool) (df : DataFrame) (k1 k2 : nat) :
  wf df -> length mask = nrows df ->
  k1 < length (kept_rows mask) -> k2 < length (kept_rows mask) ->
  same_row (select_rows mask df) k1 k2
  = same_row df (nth k1 (kept_rows mask) 0) (nth k2 (kept_rows mask) 0).
Proof.
  unfold wf, same_row, select_rows; simpl; intros H Hm H1 H2.
  induction H as [|c l Hc Hl IH]; simpl; [reflexivity|].
  rewrite IH, !cell_at_select by congruence; reflexivity.
Qed.


Lemma columns_select_rows (mask : list bool) (df : DataFrame) :
  columns (select_rows mask df) = columns df.
Proof.
  unfold columns, select_rows; simpl; rewrite map_map; reflexivity.
Qed.

(** What [remove_duplicates] returns on a frame with rows and columns. *)
Lemma remove_duplicates_Ok (df : DataFrame) :
  empty df = false ->
  remove_duplicates df = Ok (select_rows (map negb (duplicated df)) df).
Proof.
  intros H; unfold remove_duplicates, drop_duplicates, py_truediv, len.
  rewrite H; unfold empty in H; apply orb_false_elim in H.
  destruct H as [H _]; now rewrite H.
Qed.

(** A kept row duplicates no earlier row. *)
Lemma kept_row_is_first (df : DataFrame) (a b : nat) :
  empty df = false -> a < b ->
  In b (kept_rows (map negb (duplicated df))) ->
  same_row df a b = false.
Proof.
  intros H Hab Hb; apply In_kept_rows in Hb; destruct Hb as [Hlen Hb].
  rewrite length_map, (length_duplicated _ H) in Hlen.
  rewrite (keep_mask_nth _ _ H Hlen) in Hb.
  apply negb_true_iff in Hb.
  apply not_true_is_false; intros Hs.
  assert (Hex : existsb (fun j => same_row df j b) (seq 0 b) = true).
  { apply existsb_exists; exists a; split; [apply in_seq; lia | exact Hs]. }
  congruence.
Qed.

(** Every row has a kept row with the same values. *)
Lemma every_row_has_a_kept_one (df : DataFrame) (i : nat) :
  empty df = false -> i < nrows df ->
  exists k, k < length (kept_rows (map negb (duplicated df))) /\
            same_row df (nth k (kept_rows (map negb (duplicated df))) 0) i
            = true.
Proof.
  intros H; induction i as [i IH] using lt_wf_ind; intros Hi.
  destruct (existsb (fun j => same_row df j i) (seq 0 i)) eqn:Ex.
  - apply existsb_exists in Ex; destruct Ex as [j [Hj Hs]].
    apply in_seq in Hj.
    destruct (IH j) as [k [Hk Hkj]]; [lia | lia |].
    exists k; split; [exact Hk|].
    eapply same_row_trans; eauto.
  - assert (Hin : In i (kept_rows (map negb (duplicated df)))).
    { apply In_kept_rows; rewrite length_map, (length_duplicated _ H).
      split; [exact Hi|].
      now rewrite (keep_mask_nth _ _ H Hi), Ex. }
    apply In_nth with (d := 0) in Hin; destruct Hin as [k [Hk Hn]].
    exists k; split; [exact Hk|].
    rewrite Hn; apply same_row_refl.
Qed.

(** C7 (amended): for every input table with at least one column and at
    least one row, [remove_duplicates] returns a table with the same
    columns, in which no two different rows hold duplicate values in all
    columns, and which has at most as many rows as the input. *)
Theorem remove_duplicates_no_duplicates (df : DataFrame) :
  wf df -> cols df <> [] -> nrows df <> 0 ->
  exists df',
    remove_duplicates df = Ok df' /\
    nrows df' <= nrows df /\
    columns df' = columns df /\
    forall i j, i < nrows df' -> j < nrows df' -> i <> j ->
                same_row df' i j = false.
Proof.
  intros Hwf Hc Hn.
  pose proof (empty_false df Hc Hn) as He.
  exists (select_rows (map negb (duplicated df)) df).
  split; [now apply remove_duplicates_Ok|].
  assert (Hm : length (map negb (duplicated df)) = nrows df)
    by (now rewrite length_map, length_duplicated).
  split.
  { pose proof (length_filter_le (fun b => b) (map negb (duplicated df))).
    simpl; lia. }
  split; [apply columns_select_rows|].
  simpl; rewrite <- length_kept_rows.
  assert (Hlt : forall i j, i < j ->
            j < length (kept_rows (map negb (duplicated df))) ->
            same_row (select_rows (map negb (duplicated df)) df) i j = false).
  { intros i j Hij Hj.
    rewrite same_row_select_rows by (assumption || lia).
    apply kept_row_is_first; [exact He | now apply kept_rows_lt |].
    now apply nth_In. }
  intros i j Hi Hj Hij.
  destruct (Nat.lt_ge_cases i j) as [Hlt'|Hge].
  - now apply Hlt.
  - rewrite same_row_sym; apply Hlt; lia.
Qed.

Lemma remove_duplicates_no_duplicates_orders :
  wf orders10 /\ cols orders10 <> [] /\ nrows orders10 <> 0 /\
  exists df',
    remove_duplicates orders10 = Ok df' /\
    nrows df' <= nrows orders10 /\
    columns df' = columns orders10 /\
    forall i j, i < nrows df' -> j < nrows df' -> i <> j ->
                same_row df' i j = false.
Proof.
  assert (H1 : wf orders10) by (repeat constructor).
  assert (H2 : cols orders10 <> []) by discriminate.
  assert (H3 : nrows orders10 <> 0) by discriminate.
  repeat (split; [assumption|]).
  exact (remove_duplicates_no_duplicates orders10 H1 H2 H3).
Defined.

(** C7, as stated, fails on a frame without columns: pandas returns an
    empty frame as it is, so both rows come back, and with no column to
    tell them apart they are duplicates in all columns. *)
Lemma remove_duplicates_keeps_rows_without_columns :
  remove_duplicates two_rows_no_column = Ok two_rows_no_column /\
  nrows two_rows_no_column = 2 /\
  same_row two_rows_no_column 0 1 = true.
Proof. repeat split. Qed.

(** ** The pipeline, end to end *)

Lemma getitem_length (df : DataFrame) (c : string) (s : Series) :
  wf df -> getitem df c = Ok s -> length s = nrows df.
Proof.
  intros Hwf H; apply getitem_In in H.
  unfold wf in Hwf; rewrite Forall_forall in Hwf.
  exact (Hwf _ H).
Qed.

Lemma wf_setitem (df : DataFrame) (c : string) (s : Series) :
  wf df -> length s = nrows df -> wf (setitem df c s).
Proof.
  unfold wf, setitem; intros Hwf Hs.
  destruct (has_column c df); simpl.
  - apply Forall_map; eapply Forall_impl; [|exact Hwf]; simpl.
    intros x Hx; now destruct (String.eqb c (fst x)).
  - apply Forall_app; split; [exact Hwf | now constructor].
Qed.

Lemma wf_standardize_columns (df : DataFrame) :
  wf df -> wf (standardize_columns df).
Proof.
  unfold wf, standardize_columns, copy; simpl; intros H.
  apply Forall_map; eapply Forall_impl; [|exact H]; auto.
Qed.


Lemma labelled_filter_labels (df : DataFrame) (p : string -> bool) (c : string) :
  p c = true ->
  labelled (mkDataFrame (nrows df) (filter (fun x => p (fst x)) (cols df))) c
  = labelled df c.
Proof.
  intros Hp; unfold labelled; cbn [cols].
  induction (cols df) as [|x l IH]; [reflexivity|].
  cbn [filter].
  destruct (p (fst x)) eqn:Ex; cbn [filter].
  - now rewrite IH.
  - destruct (String.eqb_spec c (fst x)) as [->|_]; [congruence | exact IH].
Qed.

Lemma labelled_drop_redundant (df df' : DataFrame) (c : string) :
  drop_redundant_columns df = Ok df' -> ~ In c cols_to_drop ->
  labelled df' c = labelled df c.
Proof.
  rewrite drop_redundant_columns_Ok; intros H Hc.
  injection H as <-.
  apply (labelled_filter_labels df
           (fun l => negb (existsb (String.eqb l) cols_to_drop))).
  apply negb_true_iff, not_true_is_false.
  now rewrite existsb_eqb_In.
Qed.

Section EndToEnd.

Variable L : PandasLib.

Lemma convert_date_column_frame (d d' : DataFrame) (col c : string) :
  convert_date_column L d col = Ok d' -> c <> col ->
  labelled d' c = labelled d c.
Proof.
  unfold convert_date_column; intros H Hc; destruct (has_column col d).
  - repeat bind_inv H; ok_inv H; now apply labelled_setitem_other.
  - now ok_inv H.
Qed.

Lemma convert_date_column_shape (d d' : DataFrame) (col : string) :
  convert_date_column L d col = Ok d' ->
  nrows d' = nrows d /\ columns d' = columns d /\ (wf d -> wf d').
Proof.
  unfold convert_date_column; intros H; destruct (has_column col d) eqn:Hc.
  - bind_inv H; rename v into s, E into Gs.
    bind_inv H; rename v into s', E into Cs.
    ok_inv H.
    split; [apply nrows_setitem|].
    split; [now apply columns_setitem_old|].
    intros Hwf; apply wf_setitem; [exact Hwf|].
    rewrite (to_datetime_length L _ _ Cs).
    now apply getitem_length with (c := col).
  - ok_inv H; auto.
Qed.

Lemma convert_date_columns_steps (d d' : DataFrame) :
  convert_date_columns L d = Ok d' ->
  exists d1,
    convert_date_column L d "order_date_dateorders" = Ok d1 /\
    convert_date_column L d1 "shipping_date_dateorders" = Ok d'.
Proof.
  unfold convert_date_columns, date_cols, copy; simpl; intros H.
  repeat bind_inv H; ok_inv H; eauto.
Qed.

(** What the cleaning steps before the deduplication keep. *)
Lemma cleaned_before_dedup_frame (raw dated : DataFrame) :
  cleaned_before_dedup L raw = Ok dated ->
  nrows dated = nrows raw /\
  (wf raw -> wf dated) /\
  (forall c, In c cols_to_drop -> has_column c dated = false) /\
  (forall c, ~ In c cols_to_drop -> ~ In c date_cols ->
             labelled dated c = labelled (standardize_columns raw) c).
Proof.
  unfold cleaned_before_dedup, handle_missing_values; intros H.
  bind_inv H; rename v into d0, E into D0.
  bind_inv H; rename v into d2, E into D2.
  ok_inv H.
  destruct (convert_date_columns_steps _ _ D2) as [d1 [C1 C2]].
  destruct (convert_date_column_shape _ _ _ C1) as [N1 [K1 W1]].
  destruct (convert_date_column_shape _ _ _ C2) as [N2 [K2 W2]].
  pose proof D0 as D0'; rewrite drop_redundant_columns_Ok in D0'.
  split; [rewrite N2, N1; now ok_inv D0'|].
  split.
  { intros Hwf; apply W2, W1; ok_inv D0'.
    apply wf_standardize_columns in Hwf.
    unfold wf in *; simpl.
    rewrite Forall_forall in *; intros x Hx.
    apply filter_In in Hx; now apply Hwf. }
  split.
  { intros c Hc; unfold has_column; rewrite K2, K1; ok_inv D0'.
    apply (filter_labels_absent (standardize_columns raw)
             (fun l => negb (existsb (String.eqb l) cols_to_drop))).
    apply existsb_eqb_In in Hc; now rewrite Hc. }
  intros c Hc Hd.
  rewrite (convert_date_column_frame _ _ _ c C2)
    by (intros ->; apply Hd; simpl; auto).
  rewrite (convert_date_column_frame _ _ _ c C1)
    by (intros ->; apply Hd; simpl; auto).
  now apply labelled_drop_redundant.
Qed.

Lemma as_datetimes_map_Time (ts : list Z) :
  as_datetimes (map Time ts) = Ok (map Some ts).
Proof. induction ts as [|t ts IH]; simpl; [reflexivity | now rewrite IH]. Qed.

Lemma add_shipping_delay_nrows (d d' : DataFrame) :
  add_shipping_delay d = Ok d' -> nrows d' = nrows d.
Proof.
  unfold add_shipping_delay; intros H; destruct (_ && _).
  - repeat bind_inv H; ok_inv H; apply nrows_setitem.
  - now ok_inv H.
Qed.

Lemma add_profit_margin_nrows (d d' : DataFrame) :
  add_profit_margin d = Ok d' -> nrows d' = nrows d.
Proof.
  unfold add_profit_margin; intros H; destruct (_ && _).
  - repeat bind_inv H; ok_inv H; apply nrows_setitem.
  - now ok_inv H.
Qed.

Lemma add_order_calendar_nrows (d d' : DataFrame) :
  add_order_calendar L d = Ok d' -> nrows d' = nrows d.
Proof.
  unfold add_order_calendar; intros H; destruct (has_column _ d).
  - repeat bind_inv H; ok_inv H; now rewrite !nrows_setitem.
  - now ok_inv H.
Qed.

Lemma numeric_column_map_Num (d : DataFrame) (c : string) (xs : list float) :
  getitem d c = Ok (map Num xs) -> numeric_column d c = true.
Proof.
  intros G; unfold numeric_column; rewrite G.
  apply orb_true_iff; left.
  apply forallb_forall; intros x Hx.
  apply in_map_iff in Hx; destruct Hx as [y [<- _]]; reflexivity.
Qed.











End EndToEnd.



(* ================================================================== *)
(** * Further properties of the cleaning functions *)
(* ================================================================== *)

(** ** [remove_duplicates]: which rows it keeps *)

Lemma remove_duplicates_cases (df : DataFrame) :
  (nrows df = 0 /\ remove_duplicates df = Err ZeroDivisionError) \/
  (nrows df <> 0 /\ remove_duplicates df = Ok (drop_duplicates df)).
Proof.
  unfold remove_duplicates, py_truediv, len.
  destruct (nrows df) as [|n] eqn:E; [left | right]; split; auto.
Qed.

Lemma first_row_is_kept (df : DataFrame) :
  empty df = false -> In 0 (kept_rows (map negb (duplicated df))).
Proof.
  intros He; apply In_kept_rows.
  rewrite length_map, (length_duplicated _ He).
  assert (H0 : 0 < nrows df).
  { unfold empty in He; apply orb_false_elim in He; destruct He as [He _].
    apply Nat.eqb_neq in He; lia. }
  split; [exact H0 | now rewrite (keep_mask_nth _ _ He H0)].
Qed.

Lemma nrows_drop_duplicates (df : DataFrame) :
  nrows df <> 0 ->
  1 <= nrows (drop_duplicates df) <= nrows df.
Proof.
  intros Hn; unfold drop_duplicates, copy.
  destruct (empty df) eqn:He; [lia|]; simpl.
  rewrite <- length_kept_rows; split.
  - pose proof (first_row_is_kept df He) as H0.
    destruct (kept_rows (map negb (duplicated df))); [contradiction | simpl; lia].
  - rewrite length_kept_rows.
    pose proof (length_filter_le (fun b => b) (map negb (duplicated df))) as H.
    now rewrite length_map, (length_duplicated _ He) in H.
Qed.

Lemma columns_drop_duplicates (df : DataFrame) :
  columns (drop_duplicates df) = columns df.
Proof.
  unfold drop_duplicates, copy; destruct (empty df); [reflexivity|].
  apply columns_select_rows.
Qed.

(** X1: [remove_duplicates] returns a table exactly when its input has
    at least one row.  Without rows it ends with [ZeroDivisionError]; with
    rows it returns a table with the same column labels, at least one row
    and at most as many rows as the input. *)
Theorem remove_duplicates_needs_rows (df : DataFrame) :
  (nrows df = 0 -> remove_duplicates df = Err ZeroDivisionError) /\
  (nrows df <> 0 ->
   exists df', remove_duplicates df = Ok df' /\
               columns df' = columns df /\
               1 <= nrows df' <= nrows df).
Proof.
  destruct (remove_duplicates_cases df) as [[Hn H]|[Hn H]]; split;
    intros Hn'; try contradiction; try lia; [exact H|].
  exists (drop_duplicates df); split; [exact H|].
  split; [apply columns_drop_duplicates | now apply nrows_drop_duplicates].
Qed.

Lemma remove_duplicates_needs_rows_examples :
  (nrows header_only = 0 /\
   remove_duplicates header_only = Err ZeroDivisionError) /\
  (nrows orders10 <> 0 /\
   exists df', remove_duplicates orders10 = Ok df' /\
               columns df' = columns orders10 /\
               1 <= nrows df' <= nrows orders10).
Proof.
  split.
  - split; [reflexivity|].
    exact (proj1 (remove_duplicates_needs_rows header_only) eq_refl).
  - assert (H : nrows orders10 <> 0) by discriminate.
    split; [exact H|].
    exact (proj2 (remove_duplicates_needs_rows orders10) H).
Defined.

Lemma take_rows_kept (df : DataFrame) :
  wf df -> empty df = false ->
  select_rows (map negb (duplicated df)) df
  = take_rows (kept_rows (map negb (duplicated df))) df.
Proof.
  intros Hwf He; unfold select_rows, take_rows.
  rewrite length_kept_rows; f_equal.
  apply map_ext_in; intros c Hc; f_equal.
  apply select_series.
  unfold wf in Hwf; rewrite Forall_forall in Hwf.
  now rewrite length_map, (length_duplicated _ He), (Hwf _ Hc).
Qed.

Lemma take_rows_all (df : DataFrame) :
  wf df -> take_rows (seq 0 (nrows df)) df = df.
Proof.
  intros Hwf; unfold take_rows; rewrite length_seq.
  destruct df as [n cs]; simpl in *; f_equal.
  unfold wf in Hwf; simpl in Hwf.
  induction Hwf as [|c l Hc Hl IH]; simpl; [reflexivity|].
  rewrite IH; f_equal.
  destruct c as [label s]; simpl in *; f_equal.
  rewrite <- Hc; symmetry; apply series_as_map.
Qed.

Lemma seq_sorted (a n : nat) : StronglySorted lt (seq a n).
Proof.
  revert a; induction n as [|n IH]; intros a; simpl; constructor; [apply IH|].
  apply Forall_forall; intros i Hi; apply in_seq in Hi; lia.
Qed.

(** X2: the table that [remove_duplicates] returns consists of rows of
    the input, unaltered and in their original order, the first row among
    them; and when the frame has a column, each of them is the first of
    its kind: no earlier input row holds the same values. *)
Theorem remove_duplicates_keeps_first_rows (df df' : DataFrame) :
  wf df ->
  remove_duplicates df = Ok df' ->
  exists rows,
    df' = take_rows rows df /\
    StronglySorted lt rows /\
    In 0 rows /\
    Forall (fun i => i < nrows df) rows /\
    (cols df <> [] ->
     forall i j, In i rows -> j < i -> same_row df j i = false).
Proof.
  intros Hwf H.
  destruct (remove_duplicates_cases df) as [[Hn H']|[Hn H']];
    rewrite H' in H; [discriminate|].
  injection H as <-; unfold drop_duplicates, copy.
  destruct (empty df) eqn:He.
  - exists (seq 0 (nrows df)).
    split; [symmetry; now apply take_rows_all|].
    split; [apply seq_sorted|].
    split; [apply in_seq; lia|].
    split; [apply Forall_forall; intros i Hi; apply in_seq in Hi; lia|].
    intros Hc; exfalso.
    rewrite (empty_false df Hc Hn) in He; discriminate.
  - exists (kept_rows (map negb (duplicated df))).
    split; [now apply take_rows_kept|].
    split; [apply select_seq_sorted|].
    split; [now apply first_row_is_kept|].
    split.
    + apply Forall_forall; intros i Hi; apply In_kept_rows in Hi.
      now rewrite length_map, (length_duplicated _ He) in Hi.
    + intros _ i j Hi Hj; now apply kept_row_is_first.
Qed.

Lemma remove_duplicates_keeps_first_rows_orders :
  wf orders10 /\
  exists df',
    remove_duplicates orders10 = Ok df' /\
    exists rows,
      df' = take_rows rows orders10 /\
      StronglySorted lt rows /\
      In 0 rows /\
      Forall (fun i => i < nrows orders10) rows /\
      (cols orders10 <> [] ->
       forall i j, In i rows -> j < i -> same_row orders10 j i = false).
Proof.
  assert (H1 : wf orders10) by (repeat constructor).
  split; [exact H1|].
  eexists; split; [vm_compute; reflexivity|].
  apply (remove_duplicates_keeps_first_rows orders10 _ H1).
  vm_compute; reflexivity.
Defined.

Lemma row_matches_kept (df : DataFrame) (k i : nat) :
  wf df -> empty df = false ->
  k < length (kept_rows (map negb (duplicated df))) ->
  same_row df (nth k (kept_rows (map negb (duplicated df))) 0) i = true ->
  row_matches (select_rows (map negb (duplicated df)) df) df k i.
Proof.
  intros Hwf He Hk Hs; unfold row_matches, select_rows; simpl.
  unfold same_row in Hs; rewrite forallb_forall in Hs.
  unfold wf in Hwf; rewrite Forall_forall in Hwf.
  assert (Hm : length (map negb (duplicated df)) = nrows df)
    by (now rewrite length_map, length_duplicated).
  induction (cols df) as [|c l IH]; simpl; constructor.
  - split; [reflexivity|]; simpl.
    rewrite cell_at_select; [apply Hs; now left | rewrite Hm | exact Hk].
    apply Hwf; now left.
  - apply IH; intros; [apply Hwf | apply Hs]; now right.
Qed.

(** X3: [remove_duplicates] loses no information: for every row of the
    input, the returned table has a row with duplicate values in every
    column. *)
Theorem remove_duplicates_represents_every_row (df df' : DataFrame) :
  wf df ->
  remove_duplicates df = Ok df' ->
  forall i, i < nrows df -> exists k, k < nrows df' /\ row_matches df' df k i.
Proof.
  intros Hwf H i Hi.
  destruct (remove_duplicates_cases df) as [[Hn H']|[Hn H']];
    rewrite H' in H; [discriminate|].
  injection H as <-; unfold drop_duplicates, copy.
  destruct (empty df) eqn:He.
  - exists i; split; [exact Hi|].
    unfold row_matches.
    induction (cols df) as [|c l IH]; constructor; [|exact IH].
    split; [reflexivity | apply cell_dup_refl].
  - destruct (every_row_has_a_kept_one df i He Hi) as [k [Hk Hs]].
    exists k; split; [simpl; now rewrite <- length_kept_rows|].
    now apply row_matches_kept.
Qed.

Lemma remove_duplicates_represents_every_row_orders :
  wf orders10 /\
  exists df',
    remove_duplicates orders10 = Ok df' /\
    forall i, i < nrows orders10 ->
              exists k, k < nrows df' /\ row_matches df' orders10 k i.
Proof.
  assert (H1 : wf orders10) by (repeat constructor).
  split; [exact H1|].
  eexists; split; [vm_compute; reflexivity|].
  apply (remove_duplicates_represents_every_row orders10 _ H1).
  vm_compute; reflexivity.
Defined.

Lemma kept_rows_differ (df : DataFrame) (j k : nat) :
  wf df -> empty df = false -> j < k ->
  k < length (kept_rows (map negb (duplicated df))) ->
  same_row (select_rows (map negb (duplicated df)) df) j k = false.
Proof.
  intros Hwf He Hjk Hk.
  assert (Hm : length (map negb (duplicated df)) = nrows df)
    by (now rewrite length_map, length_duplicated).
  rewrite same_row_select_rows by (assumption || lia).
  apply kept_row_is_first; [exact He | now apply kept_rows_lt |].
  now apply nth_In.
Qed.

Lemma duplicated_none (df : DataFrame) :
  empty df = false ->
  (forall j k, j < k -> k < nrows df -> same_row df j k = false) ->
  map negb (duplicated df) = repeat true (nrows df).
Proof.
  intros He H; unfold duplicated; rewrite He, map_map.
  assert (G : forall a n, a + n <= nrows df ->
            map (fun i => negb (existsb (fun j => same_row df j i) (seq 0 i)))
                (seq a n) = repeat true n).
  { intros a n; revert a; induction n as [|n IH]; intros a Ha; simpl;
      [reflexivity|].
    rewrite IH by lia; f_equal.
    apply negb_true_iff, not_true_is_false; intros Hex.
    apply existsb_exists in Hex; destruct Hex as [j [Hj Hs]].
    apply in_seq in Hj; rewrite H in Hs by lia; discriminate. }
  apply G; lia.
Qed.

Lemma select_all {A : Type} (xs : list A) :
  select (repeat true (length xs)) xs = xs.
Proof. induction xs as [|x xs IH]; simpl; [reflexivity | now rewrite IH]. Qed.

Lemma select_rows_all (df : DataFrame) :
  wf df -> select_rows (repeat true (nrows df)) df = df.
Proof.
  intros Hwf; unfold select_rows.
  destruct df as [n cs]; unfold wf in Hwf; simpl in *; f_equal.
  - clear Hwf; induction n as [|n IH]; simpl; [reflexivity | now rewrite IH].
  - induction Hwf as [|c l Hc Hl IH]; simpl; [reflexivity|].
    rewrite IH; f_equal.
    destruct c as [label s]; simpl in *; f_equal.
    rewrite <- Hc; apply select_all.
Qed.

(** A frame without duplicate rows comes back as it is. *)
Lemma remove_duplicates_nothing_to_remove (df : DataFrame) :
  wf df -> nrows df <> 0 ->
  (forall j k, j < k -> k < nrows df -> same_row df j k = false) ->
  remove_duplicates df = Ok df.
Proof.
  intros Hwf Hn H.
  destruct (remove_duplicates_cases df) as [[Hn' _]|[_ ->]]; [contradiction|].
  f_equal; unfold drop_duplicates, copy.
  destruct (empty df) eqn:He; [reflexivity|].
  rewrite (duplicated_none _ He H); now apply select_rows_all.
Qed.

(** X4: [remove_duplicates] is idempotent: the table it returns goes
    through it unchanged. *)
Theorem remove_duplicates_idempotent (df df' : DataFrame) :
  wf df ->
  remove_duplicates df = Ok df' ->
  remove_duplicates df' = Ok df'.
Proof.
  intros Hwf H.
  destruct (remove_duplicates_cases df) as [[Hn H']|[Hn H']];
    rewrite H' in H; [discriminate|].
  injection H as <-.
  pose proof (nrows_drop_duplicates df Hn) as Hrows.
  unfold drop_duplicates, copy in *.
  destruct (empty df) eqn:He.
  - destruct (remove_duplicates_cases df) as [[Hn' _]|[_ ->]];
      [contradiction|].
    unfold drop_duplicates, copy; now rewrite He.
  - assert (Hm : length (map negb (duplicated df)) = nrows df)
      by (now rewrite length_map, length_duplicated).
    apply remove_duplicates_nothing_to_remove.
    + now apply wf_select_rows.
    + lia.
    + intros j k Hjk Hk; apply kept_rows_differ; auto.
      simpl in Hk; now rewrite length_kept_rows.
Qed.

Lemma remove_duplicates_idempotent_orders :
  wf orders10 /\
  exists df',
    remove_duplicates orders10 = Ok df' /\ remove_duplicates df' = Ok df'.
Proof.
  assert (H1 : wf orders10) by (repeat constructor).
  split; [exact H1|].
  eexists; split; [vm_compute; reflexivity|].
  apply (remove_duplicates_idempotent orders10 _ H1).
  vm_compute; reflexivity.
Defined.

(** ** [convert_date_columns] and [add_derived_features]: what they write
       and what they leave alone *)

Lemma labelled_setitem_present (df : DataFrame) (c : string) (v : Series) :
  has_column c df = true ->
  labelled (setitem df c v) c = map (fun _ => (c, v)) (labelled df c).
Proof.
  intros H; unfold labelled, setitem; rewrite H; simpl.
  induction (cols df) as [|x l IH]; simpl; [reflexivity|].
  destruct (String.eqb_spec c (fst x)) as [E|E]; simpl.
  - rewrite <- E, String.eqb_refl; simpl; now rewrite IH.
  - destruct (String.eqb_spec c (fst x)); [contradiction | exact IH].
Qed.

Lemma getitem_setitem_same (df : DataFrame) (c : string) (s v : Series) :
  getitem df c = Ok s -> getitem (setitem df c v) c = Ok v.
Proof.
  intros G; unfold getitem.
  rewrite (labelled_setitem_present _ _ _ (getitem_has_column _ _ _ G)).
  unfold getitem in G.
  destruct (labelled df c) as [|x [|y l]]; try discriminate; reflexivity.
Qed.

Section CleaningSteps.

Variable L : PandasLib.

(** X5: when [convert_date_columns] returns, the table has the same rows
    count, the same column labels in the same order and, under every label
    other than the two date labels, the same columns; each date column
    that was present now holds what [pd.to_datetime] made of it. *)
Theorem convert_date_columns_replaces_dates (df df' : DataFrame) :
  convert_date_columns L df = Ok df' ->
  nrows df' = nrows df /\
  columns df' = columns df /\
  (wf df -> wf df') /\
  (forall c, ~ In c date_cols -> labelled df' c = labelled df c) /\
  (forall c, In c date_cols -> has_column c df = true ->
     exists s s',
       getitem df c = Ok s /\ to_datetime L s = Ok s' /\
       getitem df' c = Ok s').
Proof.
  intros H.
  destruct (convert_date_columns_steps L _ _ H) as [d1 [C1 C2]].
  destruct (convert_date_column_shape L _ _ _ C1) as [N1 [K1 W1]].
  destruct (convert_date_column_shape L _ _ _ C2) as [N2 [K2 W2]].
  split; [congruence|].
  split; [congruence|].
  split; [auto|].
  split.
  { intros c Hc.
    rewrite (convert_date_column_frame L _ _ _ c C2)
      by (intros ->; apply Hc; simpl; auto).
    apply (convert_date_column_frame L _ _ _ c C1).
    intros ->; apply Hc; simpl; auto. }
  intros c [<-|[<-|[]]] Hhas.
  - unfold convert_date_column in C1; rewrite Hhas in C1.
    bind_inv C1; rename v into s, E into Gs.
    bind_inv C1; rename v into s', E into Cs.
    ok_inv C1.
    exists s, s'; repeat split; auto.
    rewrite (getitem_same_labelled (setitem df "order_date_dateorders" s'))
      by (apply (convert_date_column_frame L _ _ _ _ C2); discriminate).
    now apply getitem_setitem_same with (s := s).
  - assert (Hl : labelled d1 "shipping_date_dateorders"
                 = labelled df "shipping_date_dateorders")
      by (apply (convert_date_column_frame L _ _ _ _ C1); discriminate).
    unfold convert_date_column in C2.
    rewrite (has_column_same_labelled _ _ _ Hl), Hhas in C2.
    bind_inv C2; rename v into s, E into Gs.
    bind_inv C2; rename v into s', E into Cs.
    ok_inv C2.
    exists s, s'; repeat split; auto.
    + now rewrite <- (getitem_same_labelled _ _ _ Hl).
    + now apply getitem_setitem_same with (s := s).
Qed.

Lemma as_datetimes_nth (s : Series) (ts : list (option Z)) (i : nat) :
  as_datetimes s = Ok ts ->
  (forall t, nth_error s i = Some (Time t) -> nth_error ts i = Some (Some t)) /\
  (nth_error s i = Some NaT -> nth_error ts i = Some None).
Proof.
  revert ts i; induction s as [|c s IH]; intros ts i H.
  - destruct i; split; intros; discriminate.
  - simpl in H; destruct c; try discriminate;
      bind_inv H; ok_inv H; destruct i as [|i]; simpl;
      try (split; [intros t0 Ht; now inversion Ht | intros Ht; now inversion Ht]);
      apply (IH _ i E).
Qed.

Lemma as_datetimes_length (s : Series) (ts : list (option Z)) :
  as_datetimes s = Ok ts -> length ts = length s.
Proof.
  revert ts; induction s as [|c s IH]; intros ts H; simpl in H.
  - now ok_inv H.
  - destruct c; try discriminate; bind_inv H; ok_inv H; simpl;
      now rewrite (IH _ E).
Qed.

(** Every cell of a column that the [.dt] accessor takes is a timestamp
    or the missing timestamp. *)
Lemma as_datetimes_row (s : Series) (ts : list (option Z)) (i : nat)
  (c : cell) :
  as_datetimes s = Ok ts -> nth_error s i = Some c ->
  match c with
  | Time t => nth_error ts i = Some (Some t)
  | NaT => nth_error ts i = Some None
  | _ => False
  end.
Proof.
  revert ts i; induction s as [|x s IH]; intros ts i H Hi.
  - destruct i; discriminate.
  - simpl in H; destruct x; try discriminate;
      bind_inv H; ok_inv H; destruct i as [|i]; simpl in *;
      try (inversion Hi; subst; reflexivity);
      now apply (IH _ i E).
Qed.

(** No timestamp of the column is missing. *)
Lemma as_datetimes_whole (s : Series) (ts : list (option Z)) :
  as_datetimes s = Ok ts ->
  forallb is_some ts = forallb (fun c => negb (isnull c)) s.
Proof.
  revert ts; induction s as [|x s IH]; intros ts H; simpl in H.
  - now ok_inv H.
  - destruct x; try discriminate; bind_inv H; ok_inv H; simpl;
      rewrite ?(IH _ E); reflexivity.
Qed.

(** X6: for every table with an [order_date_dateorders] column, the
    table that [add_derived_features] returns keeps that column as it was
    and has the columns [order_month], [order_year] and
    [order_day_of_week], each with one cell for every row of the input;
    every cell of the input column is a timestamp or missing; in a row with
    a timestamp the three columns hold its monthly period, its year and the
    name of its weekday, in a row with a missing timestamp they hold [NaT],
    nan and nan.  The year is an integer when no timestamp of the column is
    missing, and the float64 of that integer otherwise. *)
Theorem order_calendar_by_row (df df' : DataFrame) :
  has_column "order_date_dateorders" df = true ->
  add_derived_features L df = Ok df' ->
  exists dates,
    getitem df "order_date_dateorders" = Ok dates /\
    getitem df' "order_date_dateorders" = Ok dates /\
    has_column "order_month" df' = true /\
    has_column "order_year" df' = true /\
    has_column "order_day_of_week" df' = true /\
    forall month year day,
      In ("order_month", month) (cols df') ->
      In ("order_year", year) (cols df') ->
      In ("order_day_of_week", day) (cols df') ->
      length month = length dates /\
      length year = length dates /\
      length day = length dates /\
      forall i c, nth_error dates i = Some c ->
        match c with
        | Time t =>
            nth_error month i = Some (Period (to_period_M L t)) /\
            nth_error year i
            = Some (if forallb (fun c => negb (isnull c)) dates
                    then Int (dt_year L t)
                    else Num (float_of_int (dt_year L t))) /\
            nth_error day i = Some (Str (dt_day_name L t))
        | NaT =>
            nth_error month i = Some NaT /\
            nth_error year i = Some (Num nan) /\
            nth_error day i = Some (Num nan)
        | _ => False
        end.
Proof.
  intros Hd H.
  destruct (add_derived_features_steps L _ _ H) as [d1 [d2 [S1 [S2 S3]]]].
  assert (K1 : forall c, c <> "shipping_delay_days" ->
                         labelled d1 c = labelled df c)
    by (intros c Hc; now apply add_shipping_delay_frame).
  assert (K3 : forall c, c <> "profit_margin_pct" ->
                         labelled df' c = labelled d2 c)
    by (intros c Hc; now apply add_profit_margin_frame).
  unfold add_order_calendar in S2.
  rewrite (has_column_same_labelled df), Hd in S2 by (apply K1; discriminate).
  bind_inv S2; rename v into dates, E into G1.
  bind_inv S2; rename v into ts, E into T1.
  rewrite getitem_setitem_other, G1 in S2 by discriminate; simpl in S2.
  rewrite T1 in S2; simpl in S2.
  rewrite getitem_setitem_other in S2 by discriminate.
  rewrite getitem_setitem_other, G1 in S2 by discriminate; simpl in S2.
  rewrite T1 in S2; simpl in S2; ok_inv S2.
  exists dates.
  split.
  { now rewrite <- (getitem_same_labelled df d1) by (apply K1; discriminate). }
  split.
  { rewrite (getitem_same_labelled d1); [exact G1|].
    rewrite K3 by discriminate.
    now rewrite !labelled_setitem_other by discriminate. }
  split.
  { rewrite has_column_labelled, K3, <- has_column_labelled by discriminate.
    rewrite !has_column_setitem.
    now destruct (has_column "order_month" d1). }
  split.
  { rewrite has_column_labelled, K3, <- has_column_labelled by discriminate.
    rewrite !has_column_setitem.
    now destruct (has_column "order_year" _). }
  split.
  { rewrite has_column_labelled, K3, <- has_column_labelled by discriminate.
    apply has_column_setitem_same. }
  intros month year day Hm Hy Hw.
  apply In_labelled in Hm, Hy, Hw.
  rewrite K3 in Hm, Hy, Hw by discriminate.
  rewrite !labelled_setitem_other in Hm by discriminate.
  rewrite labelled_setitem_other in Hy by discriminate.
  apply labelled_setitem_same in Hm, Hy, Hw.
  inversion Hm; inversion Hy; inversion Hw; subst month year day.
  rewrite !length_map, (as_datetimes_length _ _ T1).
  repeat (split; [reflexivity|]).
  intros i c Hi.
  pose proof (as_datetimes_row _ _ i c T1 Hi) as Hc.
  rewrite <- (as_datetimes_whole _ _ T1).
  destruct c; try contradiction;
    rewrite !nth_error_map, Hc; simpl; auto.
Qed.

End CleaningSteps.

Lemma convert_date_columns_replaces_dates_orders :
  exists df',
    convert_date_columns IsoLib.lib (standardize_columns orders10) = Ok df' /\
    nrows df' = nrows (standardize_columns orders10) /\
    columns df' = columns (standardize_columns orders10) /\
    (wf (standardize_columns orders10) -> wf df') /\
    (forall c, ~ In c date_cols ->
               labelled df' c = labelled (standardize_columns orders10) c) /\
    (forall c, In c date_cols ->
       has_column c (standardize_columns orders10) = true ->
       exists s s',
         getitem (standardize_columns orders10) c = Ok s /\
         to_datetime IsoLib.lib s = Ok s' /\
         getitem df' c = Ok s').
Proof.
  eexists; split; [vm_compute; reflexivity|].
  apply (convert_date_columns_replaces_dates IsoLib.lib
           (standardize_columns orders10)).
  vm_compute; reflexivity.
Defined.

Lemma order_calendar_by_row_orders :
  has_column "order_date_dateorders" orders10_cleaned = true /\
  exists df',
    add_derived_features IsoLib.lib orders10_cleaned = Ok df' /\
    exists dates,
      getitem orders10_cleaned "order_date_dateorders" = Ok dates /\
      getitem df' "order_date_dateorders" = Ok dates /\
      has_column "order_month" df' = true /\
      has_column "order_year" df' = true /\
      has_column "order_day_of_week" df' = true /\
      forall month year day,
        In ("order_month", month) (cols df') ->
        In ("order_year", year) (cols df') ->
        In ("order_day_of_week", day) (cols df') ->
        length month = length dates /\
        length year = length dates /\
        length day = length dates /\
        forall i c, nth_error dates i = Some c ->
          match c with
          | Time t =>
              nth_error month i = Some (Period (to_period_M IsoLib.lib t)) /\
              nth_error year i
              = Some (if forallb (fun c => negb (isnull c)) dates
                      then Int (dt_year IsoLib.lib t)
                      else Num (float_of_int (dt_year IsoLib.lib t))) /\
              nth_error day i = Some (Str (dt_day_name IsoLib.lib t))
          | NaT =>
              nth_error month i = Some NaT /\
              nth_error year i = Some (Num nan) /\
              nth_error day i = Some (Num nan)
          | _ => False
          end.
Proof.
  split; [reflexivity|].
  eexists; split; [vm_compute; reflexivity|].
  apply (order_calendar_by_row IsoLib.lib orders10_cleaned);
    [reflexivity | vm_compute; reflexivity].
Defined.

Lemma In_columns_setitem (df : DataFrame) (c c' : string) (s : Series) :
  In c (columns (setitem df c' s)) <-> In c (columns df) \/ c = c'.
Proof.
  rewrite <- !has_column_In, has_column_setitem, orb_true_iff.
  now rewrite String.eqb_eq.
Qed.


Section DerivedFeaturesFrame.

Variable L : PandasLib.

Lemma add_shipping_delay_shape (d d' : DataFrame) :
  add_shipping_delay d = Ok d' ->
  (wf d -> wf d') /\
  (forall c, In c (columns d') <->
             In c (columns d) \/
             (c = "shipping_delay_days" /\
              has_column "days_for_shipping_real" d
              && has_column "days_for_shipment_scheduled" d = true)).
Proof.
  unfold add_shipping_delay; intros H.
  destruct (_ && _) eqn:Hb.
  - bind_inv H; rename v into r, E into Gr.
    bind_inv H; rename v into s, E into Gs.
    bind_inv H; rename v into xs, E into Fx.
    ok_inv H; split.
    + intros Hwf; apply wf_setitem; [exact Hwf|].
      rewrite (proj1 (series_sub_nth _ _ _ Fx)).
      rewrite (getitem_length _ _ _ Hwf Gr), (getitem_length _ _ _ Hwf Gs).
      apply Nat.min_id.
    + intros c; rewrite In_columns_setitem; tauto.
  - ok_inv H; split; [auto|].
    intros c; split; [auto | intros [Hc|[_ Hc]]; [exact Hc | discriminate]].
Qed.

Lemma add_order_calendar_shape (d d' : DataFrame) :
  add_order_calendar L d = Ok d' ->
  (wf d -> wf d') /\
  (forall c, In c (columns d') <->
             In c (columns d) \/
             (In c ["order_month"; "order_year"; "order_day_of_week"] /\
              has_column "order_date_dateorders" d = true)).
Proof.
  unfold add_order_calendar; intros H.
  destruct (has_column _ d) eqn:Hb.
  - bind_inv H; rename v into dates, E into G1.
    bind_inv H; rename v into ts, E into T1.
    rewrite getitem_setitem_other, G1 in H by discriminate; simpl in H.
    rewrite T1 in H; simpl in H.
    rewrite getitem_setitem_other in H by discriminate.
    rewrite getitem_setitem_other, G1 in H by discriminate; simpl in H.
    rewrite T1 in H; simpl in H; ok_inv H; split.
    + intros Hwf.
      assert (Hlen : length ts = nrows d)
        by (rewrite (as_datetimes_length _ _ T1);
            now apply getitem_length with (c := "order_date_dateorders")).
      repeat (apply wf_setitem;
              [|rewrite length_map, ?nrows_setitem; exact Hlen]).
      exact Hwf.
    + intros c; rewrite !In_columns_setitem; simpl; intuition.
  - ok_inv H; split; [auto|].
    intros c; split; [auto | intros [Hc|[_ Hc]]; [exact Hc | discriminate]].
Qed.

Lemma add_profit_margin_shape (d d' : DataFrame) :
  add_profit_margin d = Ok d' ->
  (wf d -> wf d') /\
  (forall c, In c (columns d') <->
             In c (columns d) \/
             (c = "profit_margin_pct" /\
              has_column "order_profit_per_order" d
              && has_column "sales" d = true)).
Proof.
  unfold add_profit_margin; intros H.
  destruct (_ && _) eqn:Hb.
  - bind_inv H; rename v into s, E into Gs.
    bind_inv H; rename v into p, E into Gp.
    rewrite Gs in H; simpl in H.
    bind_inv H; rename v into ratio, E into Fr.
    ok_inv H; split.
    + intros Hwf; apply wf_setitem; [exact Hwf|].
      unfold series_truediv in Fr.
      bind_inv Fr; bind_inv Fr; ok_inv Fr.
      unfold np_where; rewrite length_map, length_map2, !length_map.
      rewrite length_map2.
      rewrite (as_floats_length _ _ E), (as_floats_length _ _ E0).
      rewrite (getitem_length _ _ _ Hwf Gp), (getitem_length _ _ _ Hwf Gs).
      lia.
    + intros c; rewrite In_columns_setitem; tauto.
  - ok_inv H; split; [auto|].
    intros c; split; [auto | intros [Hc|[_ Hc]]; [exact Hc | discriminate]].
Qed.

Lemma add_derived_features_shape (df df' : DataFrame) :
  add_derived_features L df = Ok df' ->
  nrows df' = nrows df /\
  (wf df -> wf df') /\
  (forall c, In c (columns df) -> In c (columns df')) /\
  (forall c, In c (columns df') -> In c (columns df) \/ In c derived_labels) /\
  (forall c, ~ In c derived_labels -> labelled df' c = labelled df c).
Proof.
  intros H.
  destruct (add_derived_features_steps L _ _ H) as [d1 [d2 [S1 [S2 S3]]]].
  destruct (add_shipping_delay_shape _ _ S1) as [W1 C1].
  destruct (add_order_calendar_shape _ _ S2) as [W2 C2].
  destruct (add_profit_margin_shape _ _ S3) as [W3 C3].
  split.
  { rewrite (add_profit_margin_nrows _ _ S3),
      (add_order_calendar_nrows L _ _ S2).
    now apply add_shipping_delay_nrows. }
  split; [auto|].
  split; [intros c Hc; apply C3; left; apply C2; left; apply C1; now left|].
  split.
  { intros c Hc; unfold derived_labels.
    apply C3 in Hc; destruct Hc as [Hc|[-> _]]; [|right; simpl; tauto].
    apply C2 in Hc; destruct Hc as [Hc|[Hc _]];
      [|right; simpl in *; tauto].
    apply C1 in Hc; destruct Hc as [Hc|[-> _]];
      [now left | right; simpl; tauto]. }
  intros c Hc; unfold derived_labels in Hc; simpl in Hc.
  rewrite (add_profit_margin_frame _ _ c S3) by (intros ->; tauto).
  rewrite (add_order_calendar_frame L _ _ c S2) by (intros ->; tauto).
  apply (add_shipping_delay_frame _ _ c S1); intros ->; tauto.
Qed.

(** X7: [add_derived_features] only adds: the table it returns has the
    same number of rows, keeps every column label of its input, has no
    label beyond those and its five derived labels, and holds the same
    columns as the input under every label that is not a derived one; a
    well-formed table stays well-formed. *)
Theorem add_derived_features_only_adds (df df' : DataFrame) :
  add_derived_features L df = Ok df' ->
  nrows df' = nrows df /\
  (wf df -> wf df') /\
  (forall c, In c (columns df) -> In c (columns df')) /\
  (forall c, In c (columns df') -> In c (columns df) \/ In c derived_labels) /\
  (forall c, ~ In c derived_labels -> labelled df' c = labelled df c).
Proof. apply add_derived_features_shape. Qed.

(** X8: [add_derived_features] skips silently what it cannot derive.
    When one of the two day-count columns is missing, the function does
    exactly what its calendar and margin blocks do, and no
    [shipping_delay_days] column is written; without
    [order_date_dateorders] it does what the delay and margin blocks do,
    and writes none of the three calendar columns; without
    [order_profit_per_order] or [sales] it does what the delay and calendar
    blocks do, and writes no [profit_margin_pct] (under each of these
    labels the columns are those of the input); with none of the source
    columns it returns the table as it came.  No error is raised for a
    missing column. *)
Theorem add_derived_features_skips (df : DataFrame) :
  (has_column "days_for_shipping_real" df
   && has_column "days_for_shipment_scheduled" df = false ->
   add_derived_features L df
   = (d <- add_order_calendar L df ;; add_profit_margin d) /\
   forall df', add_derived_features L df = Ok df' ->
     labelled df' "shipping_delay_days" = labelled df "shipping_delay_days") /\
  (has_column "order_date_dateorders" df = false ->
   add_derived_features L df
   = (d <- add_shipping_delay df ;; add_profit_margin d) /\
   forall df' c, add_derived_features L df = Ok df' ->
     In c ["order_month"; "order_year"; "order_day_of_week"] ->
     labelled df' c = labelled df c) /\
  (has_column "order_profit_per_order" df && has_column "sales" df = false ->
   add_derived_features L df
   = (d <- add_shipping_delay df ;; add_order_calendar L d) /\
   forall df', add_derived_features L df = Ok df' ->
     labelled df' "profit_margin_pct" = labelled df "profit_margin_pct") /\
  (has_column "days_for_shipping_real" df
   && has_column "days_for_shipment_scheduled" df = false ->
   has_column "order_date_dateorders" df = false ->
   has_column "order_profit_per_order" df && has_column "sales" df = false ->
   add_derived_features L df = Ok df).
Proof.
  assert (K1 : forall d1 c, add_shipping_delay df = Ok d1 ->
                 c <> "shipping_delay_days" -> labelled d1 c = labelled df c)
    by (intros d1 c S1 Hc; now apply add_shipping_delay_frame).
  assert (E1 : has_column "days_for_shipping_real" df
               && has_column "days_for_shipment_scheduled" df = false ->
               add_derived_features L df
               = (d <- add_order_calendar L df ;; add_profit_margin d)).
  { intros Hb; unfold add_derived_features, copy.
    unfold add_shipping_delay; rewrite Hb; simpl.
    destruct (add_order_calendar L df) as [d2|e]; simpl; [|reflexivity].
    apply bind_ret. }
  assert (E2 : has_column "order_date_dateorders" df = false ->
               add_derived_features L df
               = (d <- add_shipping_delay df ;; add_profit_margin d)).
  { intros Hb; unfold add_derived_features, copy.
    destruct (add_shipping_delay df) as [d1|e] eqn:S1; simpl; [|reflexivity].
    unfold add_order_calendar.
    rewrite (has_column_same_labelled df d1), Hb
      by (apply (add_shipping_delay_frame _ _ _ S1); discriminate).
    simpl; apply bind_ret. }
  assert (E3 : has_column "order_profit_per_order" df
               && has_column "sales" df = false ->
               add_derived_features L df
               = (d <- add_shipping_delay df ;; add_order_calendar L d)).
  { intros Hb; unfold add_derived_features, copy.
    destruct (add_shipping_delay df) as [d1|e] eqn:S1; simpl; [|reflexivity].
    destruct (add_order_calendar L d1) as [d2|e] eqn:S2; simpl;
      [|reflexivity].
    assert (K2 : forall c, c <> "shipping_delay_days" -> c <> "order_month" ->
                   c <> "order_year" -> c <> "order_day_of_week" ->
                   labelled d2 c = labelled df c).
    { intros c ? ? ? ?.
      rewrite (add_order_calendar_frame L _ _ c S2) by assumption.
      now apply (add_shipping_delay_frame _ _ _ S1). }
    unfold add_profit_margin.
    rewrite (has_column_same_labelled df d2 "order_profit_per_order"),
      (has_column_same_labelled df d2 "sales"), Hb
      by (apply K2; discriminate).
    reflexivity. }
  split; [|split; [|split]].
  - intros Hb; split; [now apply E1|].
    intros df' H; rewrite (E1 Hb) in H.
    bind_inv H; rename v into d2, E into S2.
    rewrite (add_profit_margin_frame _ _ _ H) by discriminate.
    now rewrite (add_order_calendar_frame L _ _ _ S2) by discriminate.
  - intros Hb; split; [now apply E2|].
    intros df' c H Hc; rewrite (E2 Hb) in H.
    bind_inv H; rename v into d1, E into S1.
    assert (Hc' : c <> "profit_margin_pct" /\ c <> "shipping_delay_days")
      by (simpl in Hc; intuition (subst; discriminate)).
    rewrite (add_profit_margin_frame _ _ _ H) by tauto.
    apply (K1 _ _ S1); tauto.
  - intros Hb; split; [now apply E3|].
    intros df' H; rewrite (E3 Hb) in H.
    bind_inv H; rename v into d1, E into S1.
    rewrite (add_order_calendar_frame L _ _ _ H) by discriminate.
    apply (K1 _ _ S1); discriminate.
  - intros H1 H2 H3; rewrite (E1 H1).
    unfold add_order_calendar; rewrite H2; simpl.
    unfold add_profit_margin; now rewrite H3.
Qed.

End DerivedFeaturesFrame.

Lemma add_derived_features_only_adds_small_orders :
  exists df',
    add_derived_features IsoLib.lib small_orders = Ok df' /\
    nrows df' = nrows small_orders /\
    (wf small_orders -> wf df') /\
    (forall c, In c (columns small_orders) -> In c (columns df')) /\
    (forall c, In c (columns df') ->
               In c (columns small_orders) \/ In c derived_labels) /\
    (forall c, ~ In c derived_labels ->
               labelled df' c = labelled small_orders c).
Proof.
  eexists; split; [vm_compute; reflexivity|].
  apply (add_derived_features_only_adds IsoLib.lib small_orders).
  vm_compute; reflexivity.
Defined.

Lemma add_derived_features_skips_small_orders :
  (has_column "days_for_shipping_real" shipments
   && has_column "days_for_shipment_scheduled" shipments = false /\
   exists df',
     (d <- add_order_calendar IsoLib.lib shipments ;; add_profit_margin d)
     = Ok df' /\
     add_derived_features IsoLib.lib shipments = Ok df' /\
     labelled df' "shipping_delay_days"
     = labelled shipments "shipping_delay_days") /\
  (has_column "order_date_dateorders" small_orders = false /\
   exists df',
     (d <- add_shipping_delay small_orders ;; add_profit_margin d) = Ok df' /\
     add_derived_features IsoLib.lib small_orders = Ok df' /\
     forall c, In c ["order_month"; "order_year"; "order_day_of_week"] ->
               labelled df' c = labelled small_orders c) /\
  (has_column "order_profit_per_order" edge_orders
   && has_column "sales" edge_orders = false /\
   exists df',
     (d <- add_shipping_delay edge_orders ;; add_order_calendar IsoLib.lib d)
     = Ok df' /\
     add_derived_features IsoLib.lib edge_orders = Ok df' /\
     labelled df' "profit_margin_pct"
     = labelled edge_orders "profit_margin_pct") /\
  add_derived_features IsoLib.lib two_rows_no_column = Ok two_rows_no_column.
Proof.
  split.
  { split; [reflexivity|].
    destruct (proj1 (add_derived_features_skips IsoLib.lib shipments) eq_refl)
      as [E K].
    eexists; split; [vm_compute; reflexivity|].
    split; [rewrite E; vm_compute; reflexivity|].
    apply K; rewrite E; vm_compute; reflexivity. }
  split.
  { split; [reflexivity|].
    destruct (proj1 (proj2 (add_derived_features_skips IsoLib.lib
                              small_orders)) eq_refl) as [E K].
    eexists; split; [vm_compute; reflexivity|].
    split; [rewrite E; vm_compute; reflexivity|].
    intros c; apply K; rewrite E; vm_compute; reflexivity. }
  split.
  { split; [reflexivity|].
    destruct (proj1 (proj2 (proj2 (add_derived_features_skips IsoLib.lib
                                     edge_orders))) eq_refl) as [E K].
    eexists; split; [vm_compute; reflexivity|].
    split; [rewrite E; vm_compute; reflexivity|].
    apply K; rewrite E; vm_compute; reflexivity. }
  exact (proj2 (proj2 (proj2 (add_derived_features_skips IsoLib.lib
                                two_rows_no_column))) eq_refl eq_refl eq_refl).
Defined.

(** ** The pipeline as a whole *)

Lemma wf_drop_duplicates (df : DataFrame) : wf df -> wf (drop_duplicates df).
Proof.
  intros Hwf; unfold drop_duplicates, copy.
  destruct (empty df) eqn:He; [exact Hwf|].
  apply wf_select_rows; [exact Hwf|].
  now rewrite length_map, length_duplicated.
Qed.

Lemma derived_labels_allowed :
  Forall (fun l => PyStr.all_chars (fun c => negb (forbidden c)) l = true)
         derived_labels.
Proof. repeat constructor. Qed.

Section WholePipeline.

Variable L : PandasLib.

Lemma run_full_cleaning_pipeline_unfold (raw : DataFrame) :
  run_full_cleaning_pipeline L raw
  = (dated <- cleaned_before_dedup L raw ;;
     df <- remove_duplicates dated ;;
     add_derived_features L df).
Proof.
  unfold run_full_cleaning_pipeline, cleaned_before_dedup.
  destruct (drop_redundant_columns (standardize_columns raw)) as [d0|e];
    [|reflexivity]; simpl.
  destruct (convert_date_columns L d0) as [d1|e]; [|reflexivity]; simpl.
  destruct (remove_duplicates (handle_missing_values d1)) as [d2|e];
    [|reflexivity]; simpl.
  now destruct (add_derived_features L d2).
Qed.

Lemma cleaned_before_dedup_columns (raw dated : DataFrame) :
  cleaned_before_dedup L raw = Ok dated ->
  forall c, In c (columns dated) ->
            In c (map standardize_name (columns raw)).
Proof.
  unfold cleaned_before_dedup, handle_missing_values; intros H c Hc.
  bind_inv H; rename v into d0, E into D0.
  bind_inv H; rename v into d2, E into D2.
  ok_inv H.
  destruct (convert_date_columns_steps L _ _ D2) as [d1 [C1 C2]].
  destruct (convert_date_column_shape L _ _ _ C1) as [_ [K1 _]].
  destruct (convert_date_column_shape L _ _ _ C2) as [_ [K2 _]].
  rewrite K2, K1 in Hc.
  rewrite drop_redundant_columns_Ok in D0; ok_inv D0.
  unfold columns in Hc; simpl in Hc.
  apply in_map_iff in Hc; destruct Hc as [x [<- Hx]].
  apply filter_In in Hx; destruct Hx as [Hx _].
  unfold standardize_columns, copy in Hx; simpl in Hx.
  apply in_map_iff in Hx; destruct Hx as [y [<- Hy]]; simpl.
  apply in_map; unfold columns; now apply in_map.
Qed.

(** X9: whatever table the full cleaning pipeline returns, for whatever
    input and library, it has none of the five PII columns, at least one
    row and at most as many rows as were loaded, and every column label is
    a standardized label of the input or one of the five derived labels,
    so none contains a space, a parenthesis, a period or an uppercase
    letter; a well-formed input gives a well-formed table. *)
Theorem pipeline_output_invariants (raw out : DataFrame) :
  run_full_cleaning_pipeline L raw = Ok out ->
  (forall c, In c cols_to_drop -> has_column c out = false) /\
  1 <= nrows out <= nrows raw /\
  (wf raw -> wf out) /\
  (forall c, In c (columns out) ->
             In c (map standardize_name (columns raw)) \/ In c derived_labels) /\
  Forall (fun l => PyStr.all_chars (fun c => negb (forbidden c)) l = true)
         (columns out).
Proof.
  rewrite run_full_cleaning_pipeline_unfold; intros H.
  bind_inv H; rename v into dated, E into Hclean.
  bind_inv H; rename v into d5, E into Hdedup.
  destruct (cleaned_before_dedup_frame L _ _ Hclean)
    as [Nd [Wd [Hpii Hkeep]]].
  destruct (remove_duplicates_cases dated) as [[Hn H']|[Hn H']];
    rewrite H' in Hdedup; [discriminate|]; injection Hdedup as <-.
  destruct (add_derived_features_shape L _ _ H) as [N [W [_ [Hcols Hlab]]]].
  assert (Hfrom : forall c, In c (columns out) ->
            In c (map standardize_name (columns raw)) \/ In c derived_labels).
  { intros c Hc; destruct (Hcols c Hc) as [Hc'|Hc']; [left | now right].
    rewrite columns_drop_duplicates in Hc'.
    now apply (cleaned_before_dedup_columns raw dated). }
  split.
  { intros c Hc.
    assert (Hl : labelled out c = labelled (drop_duplicates dated) c).
    { apply Hlab; unfold derived_labels; simpl in *.
      intuition (subst; discriminate). }
    rewrite (has_column_same_labelled _ _ _ Hl).
    unfold has_column; rewrite columns_drop_duplicates; now apply Hpii. }
  split.
  { pose proof (nrows_drop_duplicates dated Hn); lia. }
  split.
  { intros Hwf; apply W, wf_drop_duplicates, Wd, Hwf. }
  split; [exact Hfrom|].
  apply Forall_forall; intros c Hc.
  destruct (Hfrom c Hc) as [Hc'|Hc'].
  - apply in_map_iff in Hc'; destruct Hc' as [l [<- _]].
    apply standardize_name_allowed.
  - pose proof derived_labels_allowed as Hd.
    rewrite Forall_forall in Hd; now apply Hd.
Qed.

(** X10: on a loaded table without rows the full cleaning pipeline never
    returns a table, whatever the library: either a cleaning step before
    the deduplication has already failed, or [remove_duplicates] ends the
    run with [ZeroDivisionError]. *)
Theorem pipeline_fails_without_rows (raw : DataFrame) :
  nrows raw = 0 ->
  run_full_cleaning_pipeline L raw = Err ZeroDivisionError \/
  exists e, cleaned_before_dedup L raw = Err e /\
            run_full_cleaning_pipeline L raw = Err e.
Proof.
  intros Hn; rewrite run_full_cleaning_pipeline_unfold.
  destruct (cleaned_before_dedup L raw) as [dated|e] eqn:Hclean;
    [left | right; eauto].
  destruct (cleaned_before_dedup_frame L _ _ Hclean) as [Nd _].
  simpl; rewrite remove_duplicates_no_rows; [reflexivity | congruence].
Qed.

End WholePipeline.

Lemma pipeline_output_invariants_orders :
  exists out,
    run_full_cleaning_pipeline IsoLib.lib orders10 = Ok out /\
    (forall c, In c cols_to_drop -> has_column c out = false) /\
    1 <= nrows out <= nrows orders10 /\
    (wf orders10 -> wf out) /\
    (forall c, In c (columns out) ->
               In c (map standardize_name (columns orders10))
               \/ In c derived_labels) /\
    Forall (fun l => PyStr.all_chars (fun c => negb (forbidden c)) l = true)
           (columns out).
Proof.
  eexists; split; [vm_compute; reflexivity|].
  apply (pipeline_output_invariants IsoLib.lib orders10).
  vm_compute; reflexivity.
Defined.

Lemma pipeline_fails_without_rows_header_only :
  nrows header_only = 0 /\
  (run_full_cleaning_pipeline IsoLib.lib header_only = Err ZeroDivisionError \/
   exists e, cleaned_before_dedup IsoLib.lib header_only = Err e /\
             run_full_cleaning_pipeline IsoLib.lib header_only = Err e).
Proof.
  split; [reflexivity|].
  exact (pipeline_fails_without_rows IsoLib.lib header_only eq_refl).
Defined.

(** ** [drop_redundant_columns], [standardize_columns] and the
       missing-value report *)

Lemma filter_idempotent {A : Type} (p : A -> bool) (l : list A) :
  filter p (filter p l) = filter p l.
Proof.
  induction l as [|x l IH]; simpl; [reflexivity|].
  destruct (p x) eqn:E; simpl; [now rewrite E, IH | exact IH].
Qed.

Lemma filter_all {A : Type} (p : A -> bool) (l : list A) :
  (forall x, In x l -> p x = true) -> filter p l = l.
Proof.
  induction l as [|x l IH]; simpl; intros H; [reflexivity|].
  rewrite (H x) by now left.
  f_equal; apply IH; intros; apply H; now right.
Qed.

(** X11: [drop_redundant_columns] removes the PII columns and nothing
    else: under every other label the columns are those of the input, the
    labels that remain keep their order, a well-formed table stays
    well-formed; a second application changes nothing, and a table without
    any of the five columns comes back as it is. *)
Theorem drop_redundant_columns_keeps_the_rest (df : DataFrame) :
  exists df',
    drop_redundant_columns df = Ok df' /\
    columns df'
    = filter (fun l => negb (existsb (String.eqb l) cols_to_drop)) (columns df) /\
    (forall c, ~ In c cols_to_drop -> labelled df' c = labelled df c) /\
    (wf df -> wf df') /\
    drop_redundant_columns df' = Ok df' /\
    ((forall c, In c cols_to_drop -> has_column c df = false) -> df' = df).
Proof.
  eexists; split; [apply drop_redundant_columns_Ok|].
  split.
  { unfold columns; simpl.
    induction (cols df) as [|x l IH]; simpl; [reflexivity|].
    destruct (negb _); simpl; now rewrite IH. }
  split.
  { intros c Hc; apply labelled_drop_redundant with (df := df);
      [apply drop_redundant_columns_Ok | exact Hc]. }
  split.
  { unfold wf; simpl; rewrite !Forall_forall; intros Hwf x Hx.
    apply filter_In in Hx; now apply Hwf. }
  split.
  { rewrite drop_redundant_columns_Ok; simpl; now rewrite filter_idempotent. }
  intros Hnone; destruct df as [n cs]; cbn [nrows cols]; f_equal.
  apply filter_all; intros x Hx.
  apply negb_true_iff, not_true_is_false; intros Hex.
  apply existsb_eqb_In in Hex.
  specialize (Hnone _ Hex).
  assert (Hhas : has_column (fst x) (mkDataFrame n cs) = true)
    by (apply has_column_In; unfold columns; simpl; now apply in_map).
  congruence.
Qed.

(** X12: a second pass of [standardize_columns] can only trim: it turns
    every once-standardized label into that label without surrounding
    whitespace; and from then on nothing changes: three applications give
    the same table as two. *)
Theorem standardize_columns_settles (df : DataFrame) :
  columns (standardize_columns (standardize_columns df))
  = map PyStr.strip (columns (standardize_columns df)) /\
  standardize_columns (standardize_columns (standardize_columns df))
  = standardize_columns (standardize_columns df).
Proof.
  unfold standardize_columns, columns, copy; simpl; split.
  - rewrite !map_map; simpl; apply map_ext; intros c.
    apply standardize_name_allowed_strip, standardize_name_allowed.
  - f_equal; rewrite !map_map; simpl; apply map_ext; intros c; f_equal.
    rewrite (standardize_name_allowed_strip (standardize_name (fst c)))
      by apply standardize_name_allowed.
    rewrite standardize_name_allowed_strip
      by apply all_chars_strip, standardize_name_allowed.
    apply strip_idempotent.
Qed.

Lemma existsb_filter_length {A : Type} (p : A -> bool) (l : list A) :
  existsb p l = (0 <? length (filter p l))%nat.
Proof.
  induction l as [|x l IH]; simpl; [reflexivity|].
  destruct (p x); simpl; [reflexivity | exact IH].
Qed.

(** X13: the missing-value report of [handle_missing_values] has one
    line for each column that holds a null, with the number of its nulls,
    and no other line; it is empty (the function then prints 'No missing
    values found.') exactly when no cell of the table is null. *)
Theorem missing_report_lists_null_columns (df : DataFrame) :
  (forall c s, In (c, s) (cols df) -> existsb isnull s = true ->
     exists pct, In (c, length (filter isnull s), pct) (missing_report df)) /\
  (forall c n pct, In (c, n, pct) (missing_report df) ->
     exists s, In (c, s) (cols df) /\ n = length (filter isnull s) /\
               existsb isnull s = true /\ n <= length s) /\
  (missing_report df = [] <->
   forall c s, In (c, s) (cols df) -> existsb isnull s = false).
Proof.
  assert (P1 : forall c s, In (c, s) (cols df) -> existsb isnull s = true ->
            exists pct,
              In (c, length (filter isnull s), pct) (missing_report df)).
  { intros c s Hin Hex; unfold missing_report; rewrite map_map; simpl.
    eexists; apply filter_In; split.
    + apply in_map_iff; exists (c, s); split; [reflexivity | exact Hin].
    + simpl; now rewrite <- existsb_filter_length. }
  split; [exact P1|]; split.
  - intros c n pct Hin; unfold missing_report in Hin.
    rewrite map_map in Hin; simpl in Hin.
    apply filter_In in Hin; destruct Hin as [Hin Hpos].
    apply in_map_iff in Hin; destruct Hin as [[c' s] [Heq Hin]].
    simpl in *; inversion Heq; subst; clear Heq.
    exists s; repeat split; auto.
    + now rewrite existsb_filter_length.
    + apply length_filter_le.
  - split.
    + intros Hnil c s Hin.
      destruct (existsb isnull s) eqn:Hex; [|reflexivity].
      destruct (P1 c s Hin Hex) as [pct Hr].
      rewrite Hnil in Hr; contradiction.
    + clear P1; intros Hnone; unfold missing_report; rewrite map_map; simpl.
      generalize (len df); intros n.
      induction (cols df) as [|[c s] l IH]; simpl; [reflexivity|].
      rewrite <- existsb_filter_length, (Hnone c s) by now left.
      apply IH; intros; eapply Hnone; right; eauto.
Qed.

(* ================================================================== *)
(** * Further properties of the feature functions *)
(* ================================================================== *)

(** A comparison of a column with a number goes through on a column of
    numbers only, and tests the float64 value of each of them. *)
Lemma compare_with_Ok (test : float -> bool) (s : Series) (bs : list bool) :
  compare_with test s = Ok bs ->
  exists xs, as_floats s = Ok xs /\ bs = map test xs.
Proof.
  revert bs; induction s as [|c s IH]; simpl; intros bs H.
  - ok_inv H; now exists [].
  - destruct c; try discriminate;
      bind_inv H; ok_inv H; destruct (IH _ E) as [xs [-> ->]];
      simpl; eauto.
Qed.

Lemma astype_int_map (test : float -> bool) (xs : list float) :
  astype_int (map test xs)
  = map (fun x => Int (if test x then 1 else 0)%Z) xs.
Proof. unfold astype_int; now rewrite map_map. Qed.

(** What is found under a label that was written last. *)
Lemma feature_written (d d' : DataFrame) (feature : string) (v : Series) :
  labelled d' feature = labelled (setitem d feature v) feature ->
  has_column feature d' = true /\
  forall flags, In (feature, flags) (cols d') -> flags = v.
Proof.
  intros K; split.
  - rewrite (has_column_same_labelled _ _ _ K); apply has_column_setitem_same.
  - intros flags Hin; apply In_labelled in Hin; rewrite K in Hin.
    apply In_labelled in Hin; eapply In_setitem_same; eauto.
Qed.

Section FeatureValues.

Variable L : PandasLib.

(** X14: when [create_fraud_detection_features] returns a table, each
    prerequisite column that the input has is a column of numbers ([xs]
    are their float64 values), and its flag column holds, row by row, the
    integer 1 or 0: [extreme_margin] is 1 where the margin is above the
    0.95 quantile of the column, [fast_ship] where the real shipping days
    are at most 1, [negative_profit] where the profit is below 0.  A nan is
    flagged 0 by all three. *)
Theorem fraud_flags_by_row (df df' : DataFrame) :
  create_fraud_detection_features L df = Ok df' ->
  (forall margin, getitem df "profit_margin_pct" = Ok margin ->
     exists q95 xs,
       quantile L 0.95%float margin = Ok q95 /\ as_floats margin = Ok xs /\
       has_column "extreme_margin" df' = true /\
       forall flags, In ("extreme_margin", flags) (cols df') ->
         flags = map (fun x => Int (if (q95 <? x)%float then 1 else 0)%Z) xs) /\
  (forall days, getitem df "days_for_shipping_real" = Ok days ->
     exists xs,
       as_floats days = Ok xs /\
       has_column "fast_ship" df' = true /\
       forall flags, In ("fast_ship", flags) (cols df') ->
         flags = map (fun x => Int (if (x <=? 1)%float then 1 else 0)%Z) xs) /\
  (forall profit, getitem df "order_profit_per_order" = Ok profit ->
     exists xs,
       as_floats profit = Ok xs /\
       has_column "negative_profit" df' = true /\
       forall flags, In ("negative_profit", flags) (cols df') ->
         flags = map (fun x => Int (if (x <? 0)%float then 1 else 0)%Z) xs).
Proof.
  intros H; unfold create_fraud_detection_features, copy in H.
  bind_inv H; rename v into d1, E into S1.
  bind_inv H; rename v into d2, E into S2.
  bind_inv H; rename v into d3, E into S3.
  ok_inv H.
  assert (K1 : forall c, c <> "extreme_margin" ->
                         labelled d1 c = labelled df c)
    by (intros; now apply (flag_extreme_margin_frame L)).
  assert (K2 : forall c, c <> "fast_ship" -> labelled d2 c = labelled d1 c)
    by (intros; now apply flag_fast_ship_frame).
  assert (K3 : forall c, c <> "negative_profit" ->
                         labelled df' c = labelled d2 c)
    by (intros; now apply flag_negative_profit_frame).
  split; [|split].
  - intros margin G; unfold flag_extreme_margin in S1.
    rewrite (getitem_has_column _ _ _ G), G in S1; simpl in S1.
    bind_inv S1; rename v into q95, E into Q.
    bind_inv S1; rename v into bs, E into C.
    ok_inv S1.
    destruct (compare_with_Ok _ _ _ C) as [xs [Fx ->]].
    exists q95, xs; split; [exact Q | split; [exact Fx|]].
    apply (feature_written df).
    rewrite K3, K2 by discriminate; now rewrite astype_int_map.
  - intros days G; unfold flag_fast_ship in S2.
    rewrite <- (getitem_same_labelled df d1) in G by (apply K1; discriminate).
    rewrite (getitem_has_column _ _ _ G), G in S2; simpl in S2.
    bind_inv S2; rename v into bs, E into C.
    ok_inv S2.
    destruct (compare_with_Ok _ _ _ C) as [xs [Fx ->]].
    exists xs; split; [exact Fx|].
    apply (feature_written d1).
    rewrite K3 by discriminate; now rewrite astype_int_map.
  - intros profit G; unfold flag_negative_profit in S3.
    rewrite <- (getitem_same_labelled df d1) in G by (apply K1; discriminate).
    rewrite <- (getitem_same_labelled d1 d2) in G by (apply K2; discriminate).
    rewrite (getitem_has_column _ _ _ G), G in S3; simpl in S3.
    bind_inv S3; rename v into bs, E into C.
    ok_inv S3.
    destruct (compare_with_Ok _ _ _ C) as [xs [Fx ->]].
    exists xs; split; [exact Fx|].
    apply (feature_written d2).
    now rewrite astype_int_map.
Qed.

(** The weekend test of one cell: only the texts [Saturday] and
    [Sunday] pass. *)
Lemma weekend_flags_nth (day : Series) (i : nat) (c : cell) :
  nth_error day i = Some c ->
  nth_error (astype_int (isin ["Saturday"; "Sunday"] day)) i
  = Some (Int (if cell_dup c (Str "Saturday") || cell_dup c (Str "Sunday")
               then 1 else 0)%Z).
Proof.
  intros H; unfold astype_int, isin; rewrite map_map, nth_error_map, H.
  destruct c; simpl; try reflexivity.
  now rewrite orb_false_r.
Qed.

(** The weekend flag is computed from the day column as the input has
    it. *)
Lemma weekend_flag_values (df df' : DataFrame) :
  create_delivery_prediction_features L df = Ok df' ->
  has_column "order_day_of_week" df = true ->
  exists day,
    getitem df "order_day_of_week" = Ok day /\
    has_column "is_weekend_order" df' = true /\
    forall flags, In ("is_weekend_order", flags) (cols df') ->
      flags = astype_int (isin ["Saturday"; "Sunday"] day).
Proof.
  intros H Hd; unfold create_delivery_prediction_features, copy in H.
  bind_inv H; rename v into d1, E into S1.
  bind_inv H; rename v into d2, E into S2.
  bind_inv H; rename v into d3, E into S3.
  bind_inv H; rename v into d4, E into S4.
  ok_inv H.
  assert (K : labelled d3 "order_day_of_week"
              = labelled df "order_day_of_week").
  { rewrite (flag_bulk_order_frame _ _ _ S3) by discriminate.
    rewrite (flag_high_discount_frame L _ _ _ S2) by discriminate.
    now apply (bucket_order_value_frame L). }
  unfold flag_weekend_order in S4.
  rewrite (has_column_same_labelled _ _ _ K), Hd in S4.
  bind_inv S4; rename v into day, E into G.
  ok_inv S4.
  exists day; split; [now rewrite <- (getitem_same_labelled _ _ _ K)|].
  now apply (feature_written d3).
Qed.

(** X15: when [create_delivery_prediction_features] returns a table,
    [order_value_bucket] holds what [qcut] makes of [sales]; for each
    prerequisite column that the input has, [is_high_discount] is 1 in the
    rows whose discount is above the median of the column,
    [is_bulk_order] is 1 in the rows whose quantity is above 3 (both columns
    then hold numbers only, [xs] are their float64 values, and a nan is
    flagged 0), and [is_weekend_order]
    is 1 in the rows whose day is the text Saturday or Sunday and 0 in every
    other row, a missing day included. *)
Theorem delivery_flags_by_row (df df' : DataFrame) :
  create_delivery_prediction_features L df = Ok df' ->
  (exists sales bucket,
     getitem df "sales" = Ok sales /\ qcut4 L sales = Ok bucket /\
     has_column "order_value_bucket" df' = true /\
     forall b, In ("order_value_bucket", b) (cols df') -> b = bucket) /\
  (forall discount, getitem df "order_item_discount" = Ok discount ->
     exists m xs,
       median L discount = Ok m /\ as_floats discount = Ok xs /\
       has_column "is_high_discount" df' = true /\
       forall flags, In ("is_high_discount", flags) (cols df') ->
         flags = map (fun x => Int (if (m <? x)%float then 1 else 0)%Z) xs) /\
  (forall quantity, getitem df "order_item_quantity" = Ok quantity ->
     exists xs,
       as_floats quantity = Ok xs /\
       has_column "is_bulk_order" df' = true /\
       forall flags, In ("is_bulk_order", flags) (cols df') ->
         flags = map (fun x => Int (if (3 <? x)%float then 1 else 0)%Z) xs) /\
  (forall day, getitem df "order_day_of_week" = Ok day ->
     has_column "is_weekend_order" df' = true /\
     forall flags, In ("is_weekend_order", flags) (cols df') ->
       length flags = length day /\
       forall i c, nth_error day i = Some c ->
         nth_error flags i
         = Some (Int (if cell_dup c (Str "Saturday")
                         || cell_dup c (Str "Sunday")
                      then 1 else 0)%Z)).
Proof.
  intros H; pose proof H as H0.
  unfold create_delivery_prediction_features, copy in H.
  bind_inv H; rename v into d1, E into S1.
  bind_inv H; rename v into d2, E into S2.
  bind_inv H; rename v into d3, E into S3.
  bind_inv H; rename v into d4, E into S4.
  ok_inv H.
  assert (K1 : forall c, c <> "order_value_bucket" ->
                         labelled d1 c = labelled df c)
    by (intros; now apply (bucket_order_value_frame L)).
  assert (K2 : forall c, c <> "is_high_discount" ->
                         labelled d2 c = labelled d1 c)
    by (intros; now apply (flag_high_discount_frame L)).
  assert (K3 : forall c, c <> "is_bulk_order" ->
                         labelled d3 c = labelled d2 c)
    by (intros; now apply flag_bulk_order_frame).
  assert (K4 : forall c, c <> "is_weekend_order" ->
                         labelled df' c = labelled d3 c)
    by (intros; now apply flag_weekend_order_frame).
  split; [|split; [|split]].
  - unfold bucket_order_value in S1.
    bind_inv S1; rename v into sales, E into G.
    bind_inv S1; rename v into bucket, E into Q.
    ok_inv S1.
    exists sales, bucket; split; [exact G | split; [exact Q|]].
    apply (feature_written df).
    now rewrite K4, K3, K2 by discriminate.
  - intros discount G; unfold flag_high_discount in S2.
    rewrite <- (getitem_same_labelled df d1) in G by (apply K1; discriminate).
    rewrite (getitem_has_column _ _ _ G), G in S2; simpl in S2.
    bind_inv S2; rename v into m, E into Q.
    bind_inv S2; rename v into bs, E into C.
    ok_inv S2.
    destruct (compare_with_Ok _ _ _ C) as [xs [Fx ->]].
    exists m, xs; split; [exact Q | split; [exact Fx|]].
    apply (feature_written d1).
    rewrite K4, K3 by discriminate; now rewrite astype_int_map.
  - intros quantity G; unfold flag_bulk_order in S3.
    rewrite <- (getitem_same_labelled df d1) in G by (apply K1; discriminate).
    rewrite <- (getitem_same_labelled d1 d2) in G by (apply K2; discriminate).
    rewrite (getitem_has_column _ _ _ G), G in S3; simpl in S3.
    bind_inv S3; rename v into bs, E into C.
    ok_inv S3.
    destruct (compare_with_Ok _ _ _ C) as [xs [Fx ->]].
    exists xs; split; [exact Fx|].
    apply (feature_written d2).
    rewrite K4 by discriminate; now rewrite astype_int_map.
  - intros day G.
    destruct (weekend_flag_values _ _ H0 (getitem_has_column _ _ _ G))
      as [day' [G' [Hc Hv]]].
    rewrite G in G'; ok_inv G'.
    split; [exact Hc|].
    intros flags Hin; rewrite (Hv _ Hin); split.
    + unfold astype_int, isin; now rewrite !length_map.
    + intros i c; apply weekend_flags_nth.
Qed.

(** The four steps of [create_delivery_prediction_features] and the
    three of [create_fraud_detection_features] leave every other label
    alone. *)
Lemma delivery_features_frame (df df' : DataFrame) (c : string) :
  create_delivery_prediction_features L df = Ok df' ->
  ~ In c [ "order_value_bucket"; "is_high_discount"; "is_bulk_order";
           "is_weekend_order" ] ->
  labelled df' c = labelled df c.
Proof.
  intros H Hc; unfold create_delivery_prediction_features, copy in H.
  bind_inv H; rename v into d1, E into S1.
  bind_inv H; rename v into d2, E into S2.
  bind_inv H; rename v into d3, E into S3.
  bind_inv H; rename v into d4, E into S4.
  ok_inv H.
  rewrite (flag_weekend_order_frame _ _ c S4) by (intros ->; apply Hc; simpl; tauto).
  rewrite (flag_bulk_order_frame _ _ c S3) by (intros ->; apply Hc; simpl; tauto).
  rewrite (flag_high_discount_frame L _ _ c S2) by (intros ->; apply Hc; simpl; tauto).
  apply (bucket_order_value_frame L _ _ c S1); intros ->; apply Hc; simpl; tauto.
Qed.

Lemma fraud_features_frame (df df' : DataFrame) (c : string) :
  create_fraud_detection_features L df = Ok df' ->
  ~ In c [ "extreme_margin"; "fast_ship"; "negative_profit" ] ->
  labelled df' c = labelled df c.
Proof.
  intros H Hc; unfold create_fraud_detection_features, copy in H.
  bind_inv H; rename v into d1, E into S1.
  bind_inv H; rename v into d2, E into S2.
  bind_inv H; rename v into d3, E into S3.
  ok_inv H.
  rewrite (flag_negative_profit_frame _ _ c S3) by (intros ->; apply Hc; simpl; tauto).
  rewrite (flag_fast_ship_frame _ _ c S2) by (intros ->; apply Hc; simpl; tauto).
  apply (flag_extreme_margin_frame L _ _ c S1); intros ->; apply Hc; simpl; tauto.
Qed.

(** A flag column is as long as the column it tests. *)
Lemma flag_column_wf (test : float -> bool) (need feature : string)
  (d : DataFrame) (s : Series) (bs : list bool) :
  wf d -> getitem d need = Ok s -> compare_with test s = Ok bs ->
  wf (setitem d feature (astype_int bs)).
Proof.
  intros Hwf G C; apply wf_setitem; [exact Hwf|].
  destruct (compare_with_Ok _ _ _ C) as [xs [Fx ->]].
  unfold astype_int; rewrite !length_map, (as_floats_length _ _ Fx).
  apply getitem_In in G; unfold wf in Hwf; rewrite Forall_forall in Hwf.
  exact (Hwf _ G).
Qed.

(** X16: neither feature function changes the rows or the columns it
    was given: the table that [create_delivery_prediction_features] or
    [create_fraud_detection_features] returns has as many rows as the input
    and, under every label but those of the features it writes, the columns
    of the input; the flag columns of [create_fraud_detection_features] are
    as long as the others (all columns as long as the index on the way in,
    all columns as long as the index on the way out). *)
Theorem feature_functions_keep_input (df : DataFrame) :
  (forall df', create_delivery_prediction_features L df = Ok df' ->
     nrows df' = nrows df /\
     forall c, ~ In c [ "order_value_bucket"; "is_high_discount";
                        "is_bulk_order"; "is_weekend_order" ] ->
       labelled df' c = labelled df c) /\
  (forall df', create_fraud_detection_features L df = Ok df' ->
     nrows df' = nrows df /\
     (wf df -> wf df') /\
     forall c, ~ In c [ "extreme_margin"; "fast_ship"; "negative_profit" ] ->
       labelled df' c = labelled df c).
Proof.
  split; intros df' H.
  - split; [|intros c; now apply delivery_features_frame].
    unfold create_delivery_prediction_features, copy in H.
    bind_inv H; rename v into d1, E into S1.
    bind_inv H; rename v into d2, E into S2.
    bind_inv H; rename v into d3, E into S3.
    bind_inv H; rename v into d4, E into S4.
    ok_inv H.
    assert (N1 : nrows d1 = nrows df).
    { unfold bucket_order_value in S1; repeat bind_inv S1; ok_inv S1.
      apply nrows_setitem. }
    assert (N2 : nrows d2 = nrows d1).
    { unfold flag_high_discount in S2; destruct (has_column _ d1);
        [repeat bind_inv S2; ok_inv S2; apply nrows_setitem | now ok_inv S2]. }
    assert (N3 : nrows d3 = nrows d2).
    { unfold flag_bulk_order in S3; destruct (has_column _ d2);
        [repeat bind_inv S3; ok_inv S3; apply nrows_setitem | now ok_inv S3]. }
    assert (N4 : nrows df' = nrows d3).
    { unfold flag_weekend_order in S4; destruct (has_column _ d3);
        [repeat bind_inv S4; ok_inv S4; apply nrows_setitem | now ok_inv S4]. }
    congruence.
  - split; [|split; [|intros c; now apply fraud_features_frame]];
      unfold create_fraud_detection_features, copy in H;
      (bind_inv H; rename v into d1, E into S1);
      (bind_inv H; rename v into d2, E into S2);
      (bind_inv H; rename v into d3, E into S3);
      ok_inv H.
    + assert (N1 : nrows d1 = nrows df).
      { unfold flag_extreme_margin in S1; destruct (has_column _ df);
          [repeat bind_inv S1; ok_inv S1; apply nrows_setitem | now ok_inv S1]. }
      assert (N2 : nrows d2 = nrows d1).
      { unfold flag_fast_ship in S2; destruct (has_column _ d1);
          [repeat bind_inv S2; ok_inv S2; apply nrows_setitem | now ok_inv S2]. }
      assert (N3 : nrows df' = nrows d2).
      { unfold flag_negative_profit in S3; destruct (has_column _ d2);
          [repeat bind_inv S3; ok_inv S3; apply nrows_setitem | now ok_inv S3]. }
      congruence.
    + intros Hwf.
      assert (W1 : wf d1).
      { unfold flag_extreme_margin in S1; destruct (has_column _ df);
          [|now ok_inv S1].
        bind_inv S1; bind_inv S1; bind_inv S1; bind_inv S1; ok_inv S1.
        eapply flag_column_wf; eauto. }
      assert (W2 : wf d2).
      { unfold flag_fast_ship in S2; destruct (has_column _ d1);
          [|now ok_inv S2].
        bind_inv S2; bind_inv S2; ok_inv S2.
        eapply flag_column_wf; eauto. }
      unfold flag_negative_profit in S3; destruct (has_column _ d2);
        [|now ok_inv S3].
      bind_inv S3; bind_inv S3; ok_inv S3.
      eapply flag_column_wf; eauto.
Qed.

(** The day names that [add_derived_features] writes. *)
Lemma add_derived_features_day_names (df d : DataFrame) :
  has_column "order_date_dateorders" df = true ->
  add_derived_features L df = Ok d ->
  exists dates ts,
    getitem df "order_date_dateorders" = Ok dates /\
    as_datetimes dates = Ok ts /\
    has_column "order_day_of_week" d = true /\
    forall day, In ("order_day_of_week", day) (cols d) ->
      day = map (day_name_cell L) ts.
Proof.
  intros Hd H.
  destruct (add_derived_features_steps L _ _ H) as [d1 [d2 [S1 [S2 S3]]]].
  assert (K1 : forall c, c <> "shipping_delay_days" ->
                         labelled d1 c = labelled df c)
    by (intros c Hc; now apply add_shipping_delay_frame).
  assert (K3 : forall c, c <> "profit_margin_pct" ->
                         labelled d c = labelled d2 c)
    by (intros c Hc; now apply add_profit_margin_frame).
  unfold add_order_calendar in S2.
  rewrite (has_column_same_labelled df), Hd in S2 by (apply K1; discriminate).
  bind_inv S2; rename v into dates, E into G1.
  bind_inv S2; rename v into ts, E into T1.
  rewrite getitem_setitem_other, G1 in S2 by discriminate; simpl in S2.
  rewrite T1 in S2; simpl in S2.
  rewrite getitem_setitem_other in S2 by discriminate.
  rewrite getitem_setitem_other, G1 in S2 by discriminate; simpl in S2.
  rewrite T1 in S2; simpl in S2; ok_inv S2.
  exists dates, ts.
  split; [now rewrite <- (getitem_same_labelled df d1) by (apply K1; discriminate)|].
  split; [exact T1|].
  eapply feature_written; apply K3; discriminate.
Qed.

(** X17: the two modules composed.  On a table with an
    [order_date_dateorders] column, [create_delivery_prediction_features]
    applied to what [add_derived_features] returns sets [is_weekend_order]
    to 1 in the rows whose order date falls on a day that the library names
    Saturday or Sunday, and to 0 in every other row; a row with a missing
    order date gets 0, as a weekday does. *)
Theorem weekend_flag_from_order_date (df d d' : DataFrame) :
  has_column "order_date_dateorders" df = true ->
  add_derived_features L df = Ok d ->
  create_delivery_prediction_features L d = Ok d' ->
  exists dates,
    getitem df "order_date_dateorders" = Ok dates /\
    has_column "is_weekend_order" d' = true /\
    forall flags, In ("is_weekend_order", flags) (cols d') ->
      forall i,
        (forall t, nth_error dates i = Some (Time t) ->
           nth_error flags i
           = Some (Int (if String.eqb (dt_day_name L t) "Saturday"
                           || String.eqb (dt_day_name L t) "Sunday"
                        then 1 else 0)%Z)) /\
        (nth_error dates i = Some NaT ->
           nth_error flags i = Some (Int 0)).
Proof.
  intros Hd H1 H2.
  destruct (add_derived_features_day_names _ _ Hd H1)
    as [dates [ts [G [T [Hday Hnames]]]]].
  destruct (weekend_flag_values _ _ H2 Hday) as [day [G' [Hc Hv]]].
  exists dates; split; [exact G | split; [exact Hc|]].
  intros flags Hin i; rewrite (Hv _ Hin).
  rewrite (Hnames _ (getitem_In _ _ _ G')).
  destruct (as_datetimes_nth _ _ i T) as [Ht Hn]; split.
  - intros t Hi.
    rewrite (weekend_flags_nth _ i (Str (dt_day_name L t)));
      [reflexivity|].
    now rewrite nth_error_map, (Ht _ Hi).
  - intros Hi.
    rewrite (weekend_flags_nth _ i (Num nan)); [reflexivity|].
    now rewrite nth_error_map, (Hn Hi).
Qed.

End FeatureValues.

Lemma fraud_flags_by_row_shipments :
  exists df',
    create_fraud_detection_features IsoLib.lib shipments = Ok df' /\
    (forall margin, getitem shipments "profit_margin_pct" = Ok margin ->
       exists q95 xs,
         quantile IsoLib.lib 0.95%float margin = Ok q95 /\
         as_floats margin = Ok xs /\
         has_column "extreme_margin" df' = true /\
         forall flags, In ("extreme_margin", flags) (cols df') ->
           flags = map (fun x => Int (if (q95 <? x)%float then 1 else 0)%Z) xs) /\
    (forall days, getitem shipments "days_for_shipping_real" = Ok days ->
       exists xs,
         as_floats days = Ok xs /\
         has_column "fast_ship" df' = true /\
         forall flags, In ("fast_ship", flags) (cols df') ->
           flags = map (fun x => Int (if (x <=? 1)%float then 1 else 0)%Z) xs) /\
    (forall profit, getitem shipments "order_profit_per_order" = Ok profit ->
       exists xs,
         as_floats profit = Ok xs /\
         has_column "negative_profit" df' = true /\
         forall flags, In ("negative_profit", flags) (cols df') ->
           flags = map (fun x => Int (if (x <? 0)%float then 1 else 0)%Z) xs).
Proof.
  eexists; split; [vm_compute; reflexivity|].
  apply (fraud_flags_by_row IsoLib.lib shipments); vm_compute; reflexivity.
Defined.

Lemma delivery_flags_by_row_shipments :
  exists df',
    create_delivery_prediction_features IsoLib.lib shipments = Ok df' /\
    (exists sales bucket,
       getitem shipments "sales" = Ok sales /\
       qcut4 IsoLib.lib sales = Ok bucket /\
       has_column "order_value_bucket" df' = true /\
       forall b, In ("order_value_bucket", b) (cols df') -> b = bucket) /\
    (forall discount, getitem shipments "order_item_discount" = Ok discount ->
       exists m xs,
         median IsoLib.lib discount = Ok m /\ as_floats discount = Ok xs /\
         has_column "is_high_discount" df' = true /\
         forall flags, In ("is_high_discount", flags) (cols df') ->
           flags = map (fun x => Int (if (m <? x)%float then 1 else 0)%Z) xs) /\
    (forall quantity, getitem shipments "order_item_quantity" = Ok quantity ->
       exists xs,
         as_floats quantity = Ok xs /\
         has_column "is_bulk_order" df' = true /\
         forall flags, In ("is_bulk_order", flags) (cols df') ->
           flags = map (fun x => Int (if (3 <? x)%float then 1 else 0)%Z) xs) /\
    (forall day, getitem shipments "order_day_of_week" = Ok day ->
       has_column "is_weekend_order" df' = true /\
       forall flags, In ("is_weekend_order", flags) (cols df') ->
         length flags = length day /\
         forall i c, nth_error day i = Some c ->
           nth_error flags i
           = Some (Int (if cell_dup c (Str "Saturday")
                           || cell_dup c (Str "Sunday")
                      then 1 else 0)%Z)).
Proof.
  eexists; split; [vm_compute; reflexivity|].
  apply (delivery_flags_by_row IsoLib.lib shipments); vm_compute; reflexivity.
Defined.

Lemma feature_functions_keep_input_shipments :
  (exists df',
     create_delivery_prediction_features IsoLib.lib shipments = Ok df' /\
     nrows df' = nrows shipments /\
     forall c, ~ In c [ "order_value_bucket"; "is_high_discount";
                        "is_bulk_order"; "is_weekend_order" ] ->
       labelled df' c = labelled shipments c) /\
  (exists df',
     create_fraud_detection_features IsoLib.lib shipments = Ok df' /\
     nrows df' = nrows shipments /\
     (wf shipments -> wf df') /\
     forall c, ~ In c [ "extreme_margin"; "fast_ship"; "negative_profit" ] ->
       labelled df' c = labelled shipments c).
Proof.
  split; (eexists; split; [vm_compute; reflexivity|]).
  - apply (proj1 (feature_functions_keep_input IsoLib.lib shipments));
      vm_compute; reflexivity.
  - apply (proj2 (feature_functions_keep_input IsoLib.lib shipments));
      vm_compute; reflexivity.
Defined.

Lemma weekend_flag_from_order_date_orders :
  has_column "order_date_dateorders" orders10_cleaned = true /\
  exists d d',
    add_derived_features IsoLib.lib orders10_cleaned = Ok d /\
    create_delivery_prediction_features IsoLib.lib d = Ok d' /\
    exists dates,
      getitem orders10_cleaned "order_date_dateorders" = Ok dates /\
      has_column "is_weekend_order" d' = true /\
      forall flags, In ("is_weekend_order", flags) (cols d') ->
        forall i,
          (forall t, nth_error dates i = Some (Time t) ->
             nth_error flags i
             = Some (Int (if String.eqb (dt_day_name IsoLib.lib t) "Saturday"
                             || String.eqb (dt_day_name IsoLib.lib t) "Sunday"
                        then 1 else 0)%Z)) /\
          (nth_error dates i = Some NaT ->
             nth_error flags i = Some (Int 0)).
Proof.
  split; [reflexivity|].
  eexists; eexists; split; [vm_compute; reflexivity|].
  split; [vm_compute; reflexivity|].
  eapply (weekend_flag_from_order_date IsoLib.lib orders10_cleaned);
    [reflexivity | vm_compute; reflexivity | vm_compute; reflexivity].
Defined.

(* ================================================================== *)
(** * Properties of the label encoding *)
(* ================================================================== *)

(** ** The order of texts *)

Lemma ascii_compare_refl (a : ascii) : Ascii.compare a a = Eq.
Proof. unfold Ascii.compare; apply N.compare_refl. Qed.

Lemma ascii_compare_lt_trans (a b c : ascii) :
  Ascii.compare a b = Lt -> Ascii.compare b c = Lt -> Ascii.compare a c = Lt.
Proof. unfold Ascii.compare; rewrite !N.compare_lt_iff; apply N.lt_trans. Qed.

Lemma str_compare_refl (s : string) : String.compare s s = Eq.
Proof.
  induction s as [|a s IH]; simpl; [reflexivity|].
  now rewrite ascii_compare_refl.
Qed.

Lemma str_lt_trans (a b c : string) : str_lt a b -> str_lt b c -> str_lt a c.
Proof.
  unfold str_lt; revert b c; induction a as [|x a IH]; intros [|y b] [|z c];
    simpl; try discriminate; try reflexivity.
  destruct (Ascii.compare x y) eqn:Exy; try discriminate;
    destruct (Ascii.compare y z) eqn:Eyz; try discriminate; intros H1 H2.
  - apply Ascii.compare_eq_iff in Exy, Eyz; subst.
    rewrite ascii_compare_refl; eapply IH; eauto.
  - apply Ascii.compare_eq_iff in Exy; subst; now rewrite Eyz.
  - apply Ascii.compare_eq_iff in Eyz; subst; now rewrite Exy.
  - now rewrite (ascii_compare_lt_trans _ _ _ Exy Eyz).
Qed.

Lemma str_gt_lt (a b : string) : String.compare a b = Gt -> str_lt b a.
Proof. intros H; unfold str_lt; now rewrite String.compare_antisym, H. Qed.

(** ** [sorted(set(values))] *)

Lemma In_insert_class (x s : string) (l : list string) :
  In x (insert_class s l) <-> x = s \/ In x l.
Proof.
  induction l as [|c l IH]; simpl; [intuition congruence|].
  destruct (String.compare s c) eqn:E; simpl.
  - apply String.compare_eq_iff in E; subst; intuition congruence.
  - intuition congruence.
  - rewrite IH; intuition congruence.
Qed.

Lemma In_sorted_set (x : string) (values : list string) :
  In x (sorted_set values) <-> In x values.
Proof.
  induction values as [|v values IH]; simpl; [tauto|].
  rewrite In_insert_class, IH; intuition congruence.
Qed.

Lemma insert_class_sorted (s : string) (l : list string) :
  StronglySorted str_lt l -> StronglySorted str_lt (insert_class s l).
Proof.
  induction 1 as [|c l Hs IH Hall]; simpl; [repeat constructor|].
  destruct (String.compare s c) eqn:E.
  - now constructor.
  - constructor; [now constructor|].
    constructor; [exact E|].
    eapply Forall_impl; [|exact Hall]; intros x Hx.
    now apply (str_lt_trans s c x).
  - constructor; [exact IH|].
    rewrite Forall_forall; intros x Hx; apply In_insert_class in Hx.
    destruct Hx as [->|Hx]; [now apply str_gt_lt|].
    rewrite Forall_forall in Hall; auto.
Qed.

Lemma sorted_set_sorted (values : list string) :
  StronglySorted str_lt (sorted_set values).
Proof.
  induction values as [|v values IH]; simpl; [constructor|].
  now apply insert_class_sorted.
Qed.

(** ** The classes and the codes *)

Lemma class_eqb_eq (a b : option string) : class_eqb a b = true <-> a = b.
Proof.
  destruct a, b; simpl; try (split; [discriminate | congruence]).
  - rewrite String.eqb_eq; split; congruence.
  - tauto.
Qed.

Lemma class_compare_refl (a : option string) : class_compare a a = Eq.
Proof. destruct a; simpl; [apply str_compare_refl | reflexivity]. Qed.

Lemma class_compare_eq (a b : option string) :
  class_compare a b = Eq -> a = b.
Proof.
  destruct a, b; simpl; try discriminate; [|reflexivity].
  intros H; now rewrite (String.compare_eq_iff _ _ H).
Qed.

Lemma class_compare_antisym (a b : option string) :
  class_compare a b = CompOpp (class_compare b a).
Proof. destruct a, b; simpl; auto using String.compare_antisym. Qed.

Lemma In_texts_of (t : string) (values : list (option string)) :
  In t (texts_of values) <-> In (Some t) values.
Proof.
  unfold texts_of; rewrite in_flat_map; split.
  - intros [[u|] [Hin Ht]]; simpl in Ht; [|tauto].
    destruct Ht as [->|[]]; exact Hin.
  - intros H; exists (Some t); split; [exact H | now left].
Qed.

Lemma existsb_is_missing (values : list (option string)) :
  existsb is_missing values = true <-> In None values.
Proof.
  rewrite existsb_exists; split.
  - intros [[t|] [Hin H]]; [discriminate | exact Hin].
  - intros H; now exists None.
Qed.

(** The classes are the values that occur. *)
Lemma In_classes_of (v : option string) (values : list (option string)) :
  In v (classes_of values) <-> In v values.
Proof.
  unfold classes_of; rewrite in_app_iff, in_map_iff.
  destruct v as [t|]; split.
  - intros [[u [Hu Hin]]|H].
    + inversion Hu; subst; now apply In_texts_of, In_sorted_set.
    + destruct (existsb is_missing values); simpl in H;
        [destruct H as [H|[]]; discriminate | contradiction].
  - intros H; left; exists t; split; [reflexivity|].
    now apply In_sorted_set, In_texts_of.
  - intros [[u [Hu _]]|H]; [discriminate|].
    apply existsb_is_missing.
    destruct (existsb is_missing values); [reflexivity | contradiction].
  - intros H; apply existsb_is_missing in H; rewrite H; right; now left.
Qed.

(** Sorted texts, and the missing value after them, are in the order of
    the classes. *)
Lemma classes_sorted (texts : list string) (missing : bool) :
  StronglySorted str_lt texts ->
  StronglySorted class_lt
    (map Some texts ++ (if missing then [None] else [])).
Proof.
  induction 1 as [|t texts Hs IH Hall]; simpl.
  - destruct missing; repeat constructor.
  - constructor; [exact IH|].
    apply Forall_app; split.
    + apply Forall_map; eapply Forall_impl; [|exact Hall].
      intros u Hu; exact Hu.
    + destruct missing; repeat constructor.
Qed.

Lemma classes_of_sorted (values : list (option string)) :
  StronglySorted class_lt (classes_of values).
Proof. apply classes_sorted, sorted_set_sorted. Qed.

(** Classes in strictly ascending order are distinct. *)
Lemma sorted_NoDup (l : list (option string)) :
  StronglySorted class_lt l -> NoDup l.
Proof.
  induction 1 as [|c l Hs IH Hall]; constructor; [|exact IH].
  intros Hin; rewrite Forall_forall in Hall.
  specialize (Hall _ Hin); unfold class_lt in Hall.
  now rewrite class_compare_refl in Hall.
Qed.

Lemma index_of_nth (v : option string) (l : list (option string)) :
  In v l -> nth_error l (index_of v l) = Some v.
Proof.
  induction l as [|c l IH]; simpl; [tauto|].
  destruct (class_eqb v c) eqn:E.
  - apply class_eqb_eq in E; now subst.
  - intros [Hc|Hin]; [|now apply IH].
    subst c; rewrite (proj2 (class_eqb_eq v v) eq_refl) in E; discriminate.
Qed.

Lemma index_of_lt (v : option string) (l : list (option string)) :
  In v l -> index_of v l < length l.
Proof.
  intros H; apply nth_error_Some; now rewrite index_of_nth.
Qed.

(** Among classes in ascending order, positions compare as the classes
    do. *)
Lemma index_of_compare (l : list (option string)) :
  StronglySorted class_lt l ->
  forall a b, In a l -> In b l ->
    Nat.compare (index_of a l) (index_of b l) = class_compare a b.
Proof.
  induction 1 as [|c l Hs IH Hall]; intros a b Ha Hb; simpl in *; [tauto|].
  rewrite Forall_forall in Hall.
  destruct (class_eqb a c) eqn:Ea; destruct (class_eqb b c) eqn:Eb; simpl.
  - apply class_eqb_eq in Ea, Eb; subst; now rewrite class_compare_refl.
  - apply class_eqb_eq in Ea; subst a.
    destruct Hb as [Hb|Hb];
      [subst b; rewrite (proj2 (class_eqb_eq c c) eq_refl) in Eb;
       discriminate|].
    symmetry; now apply Hall.
  - apply class_eqb_eq in Eb; subst b.
    destruct Ha as [Ha|Ha];
      [subst a; rewrite (proj2 (class_eqb_eq c c) eq_refl) in Ea;
       discriminate|].
    rewrite class_compare_antisym, (Hall _ Ha); reflexivity.
  - destruct Ha as [Ha|Ha];
      [subst a; rewrite (proj2 (class_eqb_eq c c) eq_refl) in Ea;
       discriminate|].
    destruct Hb as [Hb|Hb];
      [subst b; rewrite (proj2 (class_eqb_eq c c) eq_refl) in Eb;
       discriminate|].
    now apply IH.
Qed.

(** ** The dictionary of encoders *)

Lemma dict_get_set_same {V : Type} (d : list (string * V)) (k : string)
  (v : V) :
  dict_get (dict_set d k v) k = Some v.
Proof.
  unfold dict_get, dict_set.
  destruct (existsb _ d) eqn:E.
  - induction d as [|e d IH]; simpl in *; [discriminate|].
    destruct (String.eqb k (fst e)) eqn:Ee; simpl.
    + now rewrite String.eqb_refl.
    + rewrite Ee; now apply IH.
  - induction d as [|e d IH]; simpl in *.
    + now rewrite String.eqb_refl.
    + destruct (String.eqb k (fst e)); [discriminate | now apply IH].
Qed.

Lemma dict_get_set_other {V : Type} (d : list (string * V)) (k k' : string)
  (v : V) :
  k' <> k -> dict_get (dict_set d k v) k' = dict_get d k'.
Proof.
  intros Hne; unfold dict_get, dict_set.
  apply String.eqb_neq in Hne.
  destruct (existsb _ d).
  - induction d as [|e d IH]; simpl; [reflexivity|].
    destruct (String.eqb_spec k (fst e)) as [->|Ne]; simpl.
    + now rewrite Hne.
    + now destruct (String.eqb k' (fst e)).
  - induction d as [|e d IH]; simpl.
    + now rewrite Hne.
    + now destruct (String.eqb k' (fst e)).
Qed.

(** ** [encode_categorical_features] *)

Section EncodingProperties.

Variable cell_str : cell -> option string.

(** The codes of a column of cells. *)
Lemma fit_transform_codes (s : Series) :
  fit_transform (map cell_str s)
  = (classes_of (map cell_str s),
     map (fun c => index_of (cell_str c) (classes_of (map cell_str s))) s).
Proof. unfold fit_transform; now rewrite map_map. Qed.

(** One turn of the loop on a column that the frame has. *)
Lemma encode_column_present (d : DataFrame)
  (enc : list (string * list (option string))) (col : string) (s : Series) :
  getitem d col = Ok s ->
  encode_column cell_str (d, enc) col
  = Ok (setitem d col
          (map code_cell
             (map (fun c => index_of (cell_str c)
                              (classes_of (map cell_str s))) s)),
        dict_set enc col (classes_of (map cell_str s))).
Proof.
  intros G; unfold encode_column.
  rewrite (getitem_has_column _ _ _ G), G; cbn [bind].
  now rewrite fit_transform_codes.
Qed.

(** One turn of the loop leaves the other labels and the other encoders
    alone, and keeps the shape of the frame. *)
Lemma encode_column_other
  (st st' : DataFrame * list (string * list (option string)))
  (col c : string) :
  encode_column cell_str st col = Ok st' -> c <> col ->
  labelled (fst st') c = labelled (fst st) c /\
  dict_get (snd st') c = dict_get (snd st) c.
Proof.
  destruct st as [d enc]; unfold encode_column; intros H Hc.
  destruct (has_column col d); [|now ok_inv H].
  bind_inv H; rename v into s, E into G.
  rewrite fit_transform_codes in H; ok_inv H; simpl; split.
  - now apply labelled_setitem_other.
  - now apply dict_get_set_other.
Qed.

Lemma encode_column_absent
  (st : DataFrame * list (string * list (option string))) (col : string) :
  has_column col (fst st) = false -> encode_column cell_str st col = Ok st.
Proof.
  destruct st as [d enc]; simpl; intros H; unfold encode_column.
  now rewrite H.
Qed.

Lemma encode_column_shape
  (st st' : DataFrame * list (string * list (option string)))
  (col : string) :
  encode_column cell_str st col = Ok st' ->
  columns (fst st') = columns (fst st) /\
  nrows (fst st') = nrows (fst st) /\
  (wf (fst st) -> wf (fst st')) /\
  forall c, length (labelled (fst st') c) = length (labelled (fst st) c).
Proof.
  destruct st as [d enc]; unfold encode_column; intros H.
  destruct (has_column col d) eqn:Hc; [|now ok_inv H].
  bind_inv H; rename v into s, E into G.
  rewrite fit_transform_codes in H; ok_inv H; simpl.
  split; [now apply columns_setitem_old|].
  split; [apply nrows_setitem|].
  split.
  - intros Hwf; apply wf_setitem; [exact Hwf|].
    rewrite !length_map.
    apply getitem_In in G; unfold wf in Hwf; rewrite Forall_forall in Hwf.
    exact (Hwf _ G).
  - intros c; destruct (String.eqb_spec c col) as [->|Hne].
    + rewrite labelled_setitem_present by exact Hc; apply length_map.
    + now rewrite labelled_setitem_other.
Qed.

(** The whole loop, for a label that is not listed or not a column. *)
Lemma encode_loop_skips (columns : list string) (c : string) :
  forall st st',
    for_each (encode_column cell_str) columns st = Ok st' ->
    ~ In c columns \/ has_column c (fst st) = false ->
    labelled (fst st') c = labelled (fst st) c /\
    dict_get (snd st') c = dict_get (snd st) c.
Proof.
  induction columns as [|col columns IH]; intros st st' H Hc; simpl in H.
  - now ok_inv H.
  - bind_inv H; rename v into st1, E into S1.
    destruct (String.eqb_spec c col) as [->|Hne].
    + destruct Hc as [Hc|Hc]; [simpl in Hc; tauto|].
      rewrite (encode_column_absent _ _ Hc) in S1; ok_inv S1.
      apply IH; [exact H | now right].
    + destruct (encode_column_other _ _ _ c S1 Hne) as [E1 E2].
      destruct (IH _ _ H) as [E3 E4].
      { destruct Hc as [Hc|Hc]; [left; simpl in Hc; tauto | right].
        now rewrite (has_column_same_labelled _ _ _ E1). }
      split; congruence.
Qed.

Lemma encode_loop_shape (listed : list string) :
  forall st st',
    for_each (encode_column cell_str) listed st = Ok st' ->
    columns (fst st') = columns (fst st) /\
    nrows (fst st') = nrows (fst st) /\
    (wf (fst st) -> wf (fst st')).
Proof.
  induction listed as [|col listed IH]; intros st st' H; simpl in H.
  - now ok_inv H.
  - bind_inv H; rename v into st1, E into S1.
    destruct (encode_column_shape _ _ _ S1) as [C1 [N1 [W1 _]]].
    destruct (IH _ _ H) as [C2 [N2 W2]].
    repeat split; try congruence; auto.
Qed.

(** The whole loop, for a label that is listed once and is a column. *)
Lemma encode_loop_listed (columns : list string) (col : string) (s : Series) :
  NoDup columns -> In col columns ->
  forall st st',
    getitem (fst st) col = Ok s ->
    for_each (encode_column cell_str) columns st = Ok st' ->
    dict_get (snd st') col = Some (classes_of (map cell_str s)) /\
    getitem (fst st') col
    = Ok (map code_cell
            (map (fun c => index_of (cell_str c)
                             (classes_of (map cell_str s))) s)).
Proof.
  induction 1 as [|a columns Ha Hnd IH]; intros Hin st st' G H; [easy|].
  simpl in H; bind_inv H; rename v into st1, E into S1.
  destruct (String.eqb_spec col a) as [->|Hne].
  - destruct st as [d enc]; simpl in G.
    rewrite (encode_column_present _ _ _ _ G) in S1; ok_inv S1.
    destruct (encode_loop_skips _ a _ _ H (or_introl Ha)) as [E1 E2].
    simpl in E1, E2; split.
    + rewrite E2; apply dict_get_set_same.
    + rewrite (getitem_same_labelled _ _ _ E1).
      eapply getitem_setitem_same; eauto.
  - destruct Hin as [Hin|Hin]; [congruence|].
    destruct (encode_column_other _ _ _ col S1 Hne) as [E1 _].
    apply (IH Hin st1 st'); [|exact H].
    now rewrite (getitem_same_labelled _ _ _ E1).
Qed.

(** The loop goes through when no listed label occurs twice among the
    columns. *)
Lemma encode_loop_returns (columns : list string) :
  forall st,
    (forall c, In c columns -> length (labelled (fst st) c) <= 1) ->
    exists st', for_each (encode_column cell_str) columns st = Ok st'.
Proof.
  induction columns as [|col columns IH]; intros st Hu; simpl; [eauto|].
  assert (S1 : exists st1, encode_column cell_str st col = Ok st1).
  { destruct st as [d enc]; unfold encode_column.
    destruct (has_column col d) eqn:Hc; [|eauto].
    specialize (Hu col (or_introl eq_refl)); simpl in Hu.
    rewrite has_column_labelled in Hc; unfold getitem.
    destruct (labelled d col) as [|x [|y l]];
      [discriminate | | simpl in Hu; lia].
    cbn [bind]; rewrite fit_transform_codes; eauto. }
  destruct S1 as [st1 S1]; rewrite S1; simpl.
  apply IH; intros c Hc.
  destruct (encode_column_shape _ _ _ S1) as [_ [_ [_ L1]]].
  rewrite L1; apply Hu; now right.
Qed.

(** ... and stops with [ValueError] when one does. *)
Lemma encode_loop_fails (columns : list string) (c : string) :
  forall st,
    In c columns -> 2 <= length (labelled (fst st) c) ->
    for_each (encode_column cell_str) columns st = Err ValueError.
Proof.
  induction columns as [|col columns IH]; intros st Hin Hc; [easy|].
  simpl.
  destruct (encode_column cell_str st col) as [st1|e] eqn:S1.
  - simpl.
    destruct (encode_column_shape _ _ _ S1) as [_ [_ [_ L1]]].
    destruct Hin as [->|Hin]; [|apply IH; [exact Hin | now rewrite L1]].
    exfalso; destruct st as [d enc]; unfold encode_column in S1.
    simpl in Hc; unfold getitem in S1.
    rewrite has_column_labelled in S1.
    destruct (labelled d c) as [|x [|y l]]; simpl in Hc; try lia.
    discriminate.
  - simpl; f_equal.
    destruct st as [d enc]; unfold encode_column, getitem in S1.
    destruct (has_column col d) eqn:Hh; [|discriminate].
    rewrite has_column_labelled in Hh.
    destruct (labelled d col) as [|x [|y l]]; cbn [bind] in S1.
    + discriminate Hh.
    + rewrite fit_transform_codes in S1; discriminate.
    + now inversion S1.
Qed.

(** X18: a listed column can be decoded.  When [columns] lists no label
    twice, a listed label [col] with one column in the input comes back as
    a column of integer codes, one per row, and [encoders] holds under [col]
    the classes of its encoder; the code of a row is a position among the
    classes, and the class at that position is what [astype(str)] made of
    the cell that the row held: its text [str(x)], or the missing value
    where [astype(str)] left it missing. *)
Theorem encoded_column_decodes (df df' : DataFrame) (columns : list string)
  (encoders : list (string * list (option string))) (col : string)
  (s : Series) :
  NoDup columns -> In col columns -> getitem df col = Ok s ->
  encode_categorical_features cell_str df columns = Ok (df', encoders) ->
  exists classes codes,
    dict_get encoders col = Some classes /\
    getitem df' col = Ok (map code_cell codes) /\
    length codes = length s /\
    forall i c, nth_error s i = Some c ->
      exists n, nth_error codes i = Some n /\ n < length classes /\
                nth_error classes n = Some (cell_str c).
Proof.
  intros Hnd Hin G H; unfold encode_categorical_features, copy in H.
  destruct (encode_loop_listed _ _ _ Hnd Hin (df, []) _ G H) as [E1 E2].
  simpl in E1, E2.
  exists (classes_of (map cell_str s)),
    (map (fun c => index_of (cell_str c) (classes_of (map cell_str s))) s).
  split; [exact E1 | split; [exact E2 | split; [apply length_map|]]].
  intros i c Hi.
  assert (Hc : In (cell_str c) (classes_of (map cell_str s)))
    by (apply In_classes_of, in_map; eapply nth_error_In; eauto).
  eexists; split; [exact (map_nth_error _ _ _ Hi)|].
  split; [now apply index_of_lt | now apply index_of_nth].
Qed.

(** X19: the classes of a column's encoder.  When [columns] lists no
    label twice, the classes that [encoders] holds for a listed label with
    one column in the input are the distinct texts that [astype(str)] made
    of the cells of that column, in strictly ascending order of Python's
    [str] comparison, followed by the missing value when [astype(str)] left
    a cell missing; no class occurs twice. *)
Theorem encoder_classes_are_sorted_texts (df df' : DataFrame)
  (columns : list string) (encoders : list (string * list (option string)))
  (col : string) (s : Series) :
  NoDup columns -> In col columns -> getitem df col = Ok s ->
  encode_categorical_features cell_str df columns = Ok (df', encoders) ->
  exists classes texts,
    dict_get encoders col = Some classes /\
    classes
    = map Some texts
      ++ (if existsb (fun c => is_missing (cell_str c)) s then [None] else []) /\
    StronglySorted str_lt texts /\
    NoDup classes /\
    forall v, In v classes <-> exists c, In c s /\ cell_str c = v.
Proof.
  intros Hnd Hin G H; unfold encode_categorical_features, copy in H.
  destruct (encode_loop_listed _ _ _ Hnd Hin (df, []) _ G H) as [E1 _].
  simpl in E1.
  exists (classes_of (map cell_str s)),
    (sorted_set (texts_of (map cell_str s))).
  split; [exact E1|].
  split.
  { unfold classes_of; f_equal.
    replace (existsb is_missing (map cell_str s))
      with (existsb (fun c => is_missing (cell_str c)) s); [reflexivity|].
    clear; induction s as [|c s IH]; simpl; [reflexivity | now rewrite IH]. }
  split; [apply sorted_set_sorted|].
  split; [apply sorted_NoDup, classes_of_sorted|].
  intros v; rewrite In_classes_of, in_map_iff.
  split; intros [c [A B]]; exists c; tauto.
Qed.

(** X20: the codes rank the classes.  When [columns] lists no label
    twice, the codes of two rows of a listed column compare as what
    [astype(str)] made of their cells: as the two texts do in Python's
    [str] order, a missing value coming after every text; in particular
    two rows get the same code exactly when [astype(str)] made the same
    of their cells. *)
Theorem codes_rank_texts (df df' : DataFrame) (columns : list string)
  (encoders : list (string * list (option string))) (col : string)
  (s : Series) :
  NoDup columns -> In col columns -> getitem df col = Ok s ->
  encode_categorical_features cell_str df columns = Ok (df', encoders) ->
  exists codes,
    getitem df' col = Ok (map code_cell codes) /\
    forall i j ci cj,
      nth_error s i = Some ci -> nth_error s j = Some cj ->
      exists ni nj,
        nth_error codes i = Some ni /\ nth_error codes j = Some nj /\
        Nat.compare ni nj = class_compare (cell_str ci) (cell_str cj) /\
        (ni = nj <-> cell_str ci = cell_str cj).
Proof.
  intros Hnd Hin G H; unfold encode_categorical_features, copy in H.
  destruct (encode_loop_listed _ _ _ Hnd Hin (df, []) _ G H) as [_ E2].
  simpl in E2.
  exists (map (fun c => index_of (cell_str c) (classes_of (map cell_str s))) s).
  split; [exact E2|].
  intros i j ci cj Hi Hj.
  assert (Hci : In (cell_str ci) (classes_of (map cell_str s)))
    by (apply In_classes_of, in_map; eapply nth_error_In; eauto).
  assert (Hcj : In (cell_str cj) (classes_of (map cell_str s)))
    by (apply In_classes_of, in_map; eapply nth_error_In; eauto).
  pose proof (index_of_compare _ (classes_of_sorted (map cell_str s))
                _ _ Hci Hcj) as Hcmp.
  eexists; eexists.
  split; [exact (map_nth_error _ _ _ Hi)|].
  split; [exact (map_nth_error _ _ _ Hj)|].
  split; [exact Hcmp|].
  split.
  - intros E; apply class_compare_eq.
    rewrite <- Hcmp; now apply Nat.compare_eq_iff.
  - intros E; now rewrite E.
Qed.

(** X21: what [encode_categorical_features] leaves alone.  The table it
    returns has the labels of the input, in their order, and as many rows;
    its columns are as long as the index when those of the input are; under
    a label that is not listed, or that is listed and is no column of the
    input, the columns are those of the input and [encoders] has no
    entry. *)
Theorem encode_categorical_features_frame (df df' : DataFrame)
  (listed : list string) (encoders : list (string * list (option string))) :
  encode_categorical_features cell_str df listed = Ok (df', encoders) ->
  columns df' = columns df /\
  nrows df' = nrows df /\
  (wf df -> wf df') /\
  forall c, ~ In c listed \/ has_column c df = false ->
    labelled df' c = labelled df c /\ dict_get encoders c = None.
Proof.
  intros H; unfold encode_categorical_features, copy in H.
  destruct (encode_loop_shape _ _ _ H) as [C [N W]]; simpl in C, N, W.
  repeat split; auto;
    destruct (encode_loop_skips _ c _ _ H H0) as [E1 E2]; assumption.
Qed.

(** X22: when [encode_categorical_features] returns.  It returns a
    table and the encoders whenever no listed label is borne by two columns
    of the input; a listed label that is no column is skipped without an
    error.  When a listed label is borne by two columns, the call ends with
    [ValueError]. *)
Theorem encode_categorical_features_returns (df : DataFrame)
  (columns : list string) :
  ((forall c, In c columns -> length (labelled df c) <= 1) ->
   exists df' encoders,
     encode_categorical_features cell_str df columns = Ok (df', encoders)) /\
  (forall c, In c columns -> 2 <= length (labelled df c) ->
     encode_categorical_features cell_str df columns = Err ValueError).
Proof.
  split.
  - intros Hu; unfold encode_categorical_features, copy.
    destruct (encode_loop_returns columns (df, []) Hu) as [[df' enc] H].
    eauto.
  - intros c Hin Hc; unfold encode_categorical_features, copy.
    now apply (encode_loop_fails columns c).
Qed.

End EncodingProperties.

Lemma encoded_column_decodes_shipments :
  NoDup ["shipping_mode"; "market"; "region"] /\
  In "market" ["shipping_mode"; "market"; "region"] /\
  exists s df' encoders,
    getitem shipments "market" = Ok s /\
    encode_categorical_features demo_cell_str shipments
      ["shipping_mode"; "market"; "region"] = Ok (df', encoders) /\
    exists classes codes,
      dict_get encoders "market" = Some classes /\
      getitem df' "market" = Ok (map code_cell codes) /\
      length codes = length s /\
      forall i c, nth_error s i = Some c ->
        exists n, nth_error codes i = Some n /\ n < length classes /\
                  nth_error classes n = Some (demo_cell_str c).
Proof.
  assert (Hnd : NoDup ["shipping_mode"; "market"; "region"])
    by (repeat constructor; simpl; intuition discriminate).
  assert (Hin : In "market" ["shipping_mode"; "market"; "region"])
    by (right; now left).
  split; [exact Hnd | split; [exact Hin|]].
  eexists; eexists; eexists.
  split; [vm_compute; reflexivity|].
  split; [vm_compute; reflexivity|].
  apply (encoded_column_decodes demo_cell_str shipments _ _ _ "market"
           _ Hnd Hin); vm_compute; reflexivity.
Defined.

Lemma encoder_classes_are_sorted_texts_shipments :
  NoDup ["shipping_mode"; "market"; "region"] /\
  In "market" ["shipping_mode"; "market"; "region"] /\
  exists s df' encoders,
    getitem shipments "market" = Ok s /\
    encode_categorical_features demo_cell_str shipments
      ["shipping_mode"; "market"; "region"] = Ok (df', encoders) /\
    exists classes texts,
      dict_get encoders "market" = Some classes /\
      classes
      = map Some texts
        ++ (if existsb (fun c => is_missing (demo_cell_str c)) s
            then [None] else []) /\
      StronglySorted str_lt texts /\
      NoDup classes /\
      forall v, In v classes <-> exists c, In c s /\ demo_cell_str c = v.
Proof.
  assert (Hnd : NoDup ["shipping_mode"; "market"; "region"])
    by (repeat constructor; simpl; intuition discriminate).
  assert (Hin : In "market" ["shipping_mode"; "market"; "region"])
    by (right; now left).
  split; [exact Hnd | split; [exact Hin|]].
  eexists; eexists; eexists.
  split; [vm_compute; reflexivity|].
  split; [vm_compute; reflexivity|].
  eapply (encoder_classes_are_sorted_texts demo_cell_str shipments _ _ _
           "market" _ Hnd Hin); vm_compute; reflexivity.
Defined.

Lemma codes_rank_texts_shipments :
  NoDup ["shipping_mode"; "market"; "region"] /\
  In "market" ["shipping_mode"; "market"; "region"] /\
  exists s df' encoders,
    getitem shipments "market" = Ok s /\
    encode_categorical_features demo_cell_str shipments
      ["shipping_mode"; "market"; "region"] = Ok (df', encoders) /\
    exists codes,
      getitem df' "market" = Ok (map code_cell codes) /\
      forall i j ci cj,
        nth_error s i = Some ci -> nth_error s j = Some cj ->
        exists ni nj,
          nth_error codes i = Some ni /\ nth_error codes j = Some nj /\
          Nat.compare ni nj
          = class_compare (demo_cell_str ci) (demo_cell_str cj) /\
          (ni = nj <-> demo_cell_str ci = demo_cell_str cj).
Proof.
  assert (Hnd : NoDup ["shipping_mode"; "market"; "region"])
    by (repeat constructor; simpl; intuition discriminate).
  assert (Hin : In "market" ["shipping_mode"; "market"; "region"])
    by (right; now left).
  split; [exact Hnd | split; [exact Hin|]].
  eexists; eexists; eexists.
  split; [vm_compute; reflexivity|].
  split; [vm_compute; reflexivity|].
  eapply (codes_rank_texts demo_cell_str shipments _ _ _ "market"
           _ Hnd Hin); vm_compute; reflexivity.
Defined.

Lemma encode_categorical_features_frame_shipments :
  exists df' encoders,
    encode_categorical_features demo_cell_str shipments
      ["shipping_mode"; "market"; "region"] = Ok (df', encoders) /\
    columns df' = columns shipments /\
    nrows df' = nrows shipments /\
    (wf shipments -> wf df') /\
    forall c,
      ~ In c ["shipping_mode"; "market"; "region"]
      \/ has_column c shipments = false ->
      labelled df' c = labelled shipments c /\ dict_get encoders c = None.
Proof.
  eexists; eexists; split; [vm_compute; reflexivity|].
  apply (encode_categorical_features_frame demo_cell_str shipments);
    vm_compute; reflexivity.
Defined.

Lemma encode_categorical_features_returns_examples :
  ((forall c, In c ["market"; "region"] ->
      length (labelled shipments c) <= 1) /\
   exists df' encoders,
     encode_categorical_features demo_cell_str shipments ["market"; "region"]
     = Ok (df', encoders)) /\
  (In "a" ["a"] /\
   2 <= length (labelled (mkDataFrame 1 [("a", [Str "x"]); ("a", [Str "y"])])
                  "a") /\
   encode_categorical_features demo_cell_str
     (mkDataFrame 1 [("a", [Str "x"]); ("a", [Str "y"])]) ["a"]
   = Err ValueError).
Proof.
  split.
  - assert (Hu : forall c, In c ["market"; "region"] ->
                   length (labelled shipments c) <= 1)
      by (intros c [<-|[<-|[]]]; vm_compute; lia).
    split; [exact Hu|].
    exact (proj1 (encode_categorical_features_returns demo_cell_str shipments
                    ["market"; "region"]) Hu).
  - assert (Hin : In "a" ["a"]) by (now left).
    assert (Hc : 2 <= length (labelled (mkDataFrame 1 [("a", [Str "x"]);
                                                        ("a", [Str "y"])])
                                "a"))
      by (vm_compute; lia).
    split; [exact Hin | split; [exact Hc|]].
    exact (proj2 (encode_categorical_features_returns demo_cell_str _ ["a"])
             "a" Hin Hc).
Defined.
